(** * Delivery Performance Dashboard: the transform pipeline and the metrics
      layer, as a shallow embedding of [src/transform.py], [src/data_load.py],
      [src/config.py] and [src/metrics.py], with the default date range of
      [app.py].

    Conventions of the embedding.
    - A pandas null (NaN, None, NaT) is [None] in a typed column and [CNull]
      in an untyped cell.
    - The seven source tables are typed records holding the columns the
      pipeline reads; the other columns of the CSV files ride along
      unchanged and are left out.  The metrics layer takes any frame, so
      there a frame is a list of column names and rows of untyped cells.
    - Floating-point columns are idealised as rationals ([Q], kept in lowest
      terms with [Qred]); no statement below depends on rounding.
    - A timestamp is the number of nanoseconds since the epoch ([Z]); the
      date parser is a parameter.
    - A Python exception is a value of [PyError]; code that can raise
      returns a [Result].
    - The file system is the finite map of the regular files, by path.
      Directories are not entries of it; whether creating a directory or
      writing a file fails is given by an environment, a parameter of the
      cache layer.
    - What pandas does is taken from its documentation: a left merge keeps
      every left row once per matching right row and matches a null key
      with a null key; [groupby] drops null keys and sorts the groups;
      [sum] and [mean] skip nulls; [Series.mode] drops nulls and returns
      the most frequent values sorted; comparing a null gives [False]. *)

From Stdlib Require Import ZArith QArith Bool Lia.
From Stdlib Require Import Ascii String.
From stdpp Require Import base decidable option list gmap strings.

Local Open Scope string_scope.
Local Open Scope list_scope.

(** ** Exceptions *)

Inductive PyError : Type :=
  | FileNotFoundError (path : string)
  | ParserError (path : string)
  | KeyError (key : string)
  | TypeError
  | ZeroDivisionError
  | FileExistsError (path : string)
  | OSError (path : string).

Inductive Result (A : Type) : Type :=
  | Ok (a : A)
  | Raise (e : PyError).

Arguments Ok {A} a.
Arguments Raise {A} e.

#[global] Instance result_ret : MRet Result := fun A a => Ok a.

#[global] Instance result_bind : MBind Result := fun A B k m =>
  match m with
  | Ok a => k a
  | Raise e => Raise e
  end.

#[global] Instance result_fmap : FMap Result := fun A B f m =>
  match m with
  | Ok a => Ok (f a)
  | Raise e => Raise e
  end.

(** ** Untyped cells *)

Inductive Cell : Type :=
  | CNull
  | CStr (s : string)
  | CInt (z : Z)
  | CFloat (q : Q)
  | CBool (b : bool)
  | CTime (t : Z).

Definition str_cell (o : option string) : Cell :=
  match o with
  | Some s => CStr s
  | None => CNull
  end.

Definition isna (c : Cell) : bool :=
  match c with
  | CNull => true
  | _ => false
  end.

(** ** Sorting, as pandas sorts group keys and modes *)

Section Sorting.
Context {A : Type} (le : A -> A -> bool).

Fixpoint insert_sorted (x : A) (l : list A) : list A :=
  match l with
  | [] => [x]
  | y :: l' => if le x y then x :: l else y :: insert_sorted x l'
  end.

Fixpoint isort (l : list A) : list A :=
  match l with
  | [] => []
  | x :: l' => insert_sorted x (isort l')
  end.
End Sorting.

(** ** [Series.mode] and the aggregation lambda built on it *)

Definition count_occ_str (v : string) (l : list string) : nat :=
  length (filter (eq v) l).

Definition max_count (l : list string) : nat :=
  max_list (fmap (fun v => count_occ_str v l) l).

(** [Series.mode()] drops nulls, keeps the values of highest frequency and
    returns them sorted ascending. *)
Definition mode (series : list (option string)) : list string :=
  let vals := omap id series in
  isort String.leb
    (filter (fun v => count_occ_str v vals = max_count vals)
       (remove_dups vals)).

(** [lambda x: x.mode().iloc[0] if len(x.mode()) > 0 else None], which is
    also the body of [_mode_or_first]. *)
Definition _mode_or_first (series : list (option string)) : option string :=
  head (mode series).

(** ** Relational primitives: left merge and group-by *)

Section Frames.
Context {L R K : Type} `{EqDecision K}.

(** Rows of [right] whose key equals the key of [l], in [right]'s order.
    pandas matches a null key with a null key, so keys are compared with
    plain equality on the optional key. *)
Definition matches (kl : L -> K) (kr : R -> K) (l : L) (right : list R)
  : list R :=
  filter (fun r => kl l = kr r) right.

(** What one left row contributes to a left merge: itself once per
    matching right row, or once with nulls when nothing matches. *)
Definition merge_row (kl : L -> K) (kr : R -> K) (right : list R) (l : L)
  : list (L * option R) :=
  match matches kl kr l right with
  | [] => [(l, None)]
  | ms => fmap (fun r => (l, Some r)) ms
  end.

(** [left.merge(right, on=key, how="left")]: the contributions of the
    left rows, in the order of [left]. *)
Definition merge_left (kl : L -> K) (kr : R -> K)
    (left : list L) (right : list R) : list (L * option R) :=
  left ≫= merge_row kl kr right.

(** The rows of one group, in their original order. *)
Definition group (key : R -> option K) (rows : list R) (k : K) : list R :=
  filter (fun r => key r = Some k) rows.

(** The distinct non-null keys, sorted. *)
Definition group_keys (le : K -> K -> bool) (key : R -> option K)
    (rows : list R) : list K :=
  isort le (remove_dups (omap key rows)).

(** [rows.groupby(key)]: one group per distinct non-null key, groups
    sorted by key. *)
Definition groupby (le : K -> K -> bool) (key : R -> option K)
    (rows : list R) : list (K * list R) :=
  fmap (fun k => (k, group key rows k)) (group_keys le key rows).
End Frames.

(** Numeric reductions of a group; nulls are skipped. *)
Definition qsum (l : list Q) : Q := foldr Qplus 0%Q l.

Definition agg_sum (l : list (option Q)) : Q := Qred (qsum (omap id l)).

Definition agg_mean (l : list (option Q)) : option Q :=
  match omap id l with
  | [] => None
  | v => Some (Qred (qsum v / inject_Z (Z.of_nat (length v))))
  end.

(** ** The seven source tables (the columns the pipeline reads) *)

Module Orders.
Record row : Type := mk {
  order_id : option string;
  customer_id : option string;
  order_status : option string;
  order_purchase_timestamp : option string;
  order_delivered_customer_date : option string;
  order_estimated_delivery_date : option string }.
End Orders.

Module Customers.
Record row : Type := mk {
  customer_id : option string;
  customer_zip_code_prefix : option Z;
  customer_state : option string }.
End Customers.

Module OrderItems.
Record row : Type := mk {
  order_id : option string;
  product_id : option string;
  freight_value : option Q }.
End OrderItems.

Module OrderPayments.
Record row : Type := mk {
  order_id : option string;
  payment_type : option string;
  payment_value : option Q }.
End OrderPayments.

Module Products.
Record row : Type := mk {
  product_id : option string;
  product_category_name : option string }.
End Products.

Module Translation.
Record row : Type := mk {
  product_category_name : option string;
  product_category_name_english : option string }.
End Translation.

Module Geolocation.
Record row : Type := mk {
  geolocation_zip_code_prefix : option Z;
  geolocation_lat : option Q;
  geolocation_lng : option Q }.
End Geolocation.

(** The dictionary returned by [load_required_from_raw]. *)
Record Tables : Type := mkTables {
  orders : list Orders.row;
  customers : list Customers.row;
  order_items : list OrderItems.row;
  order_payments : list OrderPayments.row;
  products : list Products.row;
  product_category_translation : list Translation.row;
  geolocation : list Geolocation.row }.

(** ** The fact table *)

Module Fact.
Record row : Type := mk {
  order_id : option string;
  customer_id : option string;
  order_status : option string;
  order_purchase_timestamp : option string;
  order_delivered_customer_date : option Z;
  order_estimated_delivery_date : option Z;
  customer_zip_code_prefix : option Z;
  customer_state : option string;
  mean_lat : option Q;
  mean_lng : option Q;
  payment_type_mode : option string;
  payment_value_sum : option Q;
  freight_value_sum : option Q;
  product_category_mode : option string;
  delay_days : option Z;
  on_time : option bool }.
End Fact.

(** [Timedelta.days]: whole days, rounded towards minus infinity; a null
    operand gives a null difference. *)
Definition ns_per_day : Z := 86400000000000.

Definition timedelta_days (delivered estimated : option Z) : option Z :=
  match delivered, estimated with
  | Some d, Some e => Some ((d - e) / ns_per_day)%Z
  | _, _ => None
  end.

(** [delay_days <= 0] as pandas evaluates it on a column: a null compares
    [False]. *)
Definition le_zero (delay : option Z) : bool :=
  match delay with
  | Some d => (d <=? 0)%Z
  | None => false
  end.

(** ** The raw directory and [data_load.py] *)

(** What [pd.read_csv] yields for a file: a table of one of the seven
    schemas. *)
Inductive Table : Type :=
  | TOrders (rows : list Orders.row)
  | TCustomers (rows : list Customers.row)
  | TOrderItems (rows : list OrderItems.row)
  | TOrderPayments (rows : list OrderPayments.row)
  | TProducts (rows : list Products.row)
  | TTranslation (rows : list Translation.row)
  | TGeolocation (rows : list Geolocation.row).

(** A file is a CSV or the parquet artifact holding a fact table. *)
Inductive File : Type :=
  | Csv (t : Table)
  | Parquet (df : list Fact.row).

(** The file system: the files that exist, by path. *)
Abbreviation FileSystem := (gmap string File).

(** [Path(dir) / name]. *)
Definition path_join (dir name : string) : string := dir ++ "/" ++ name.

(** The file system holds the regular files.  A directory is not an entry
    of it: creating one adds and removes no regular file, and the
    directories a [mkdir] creates are not tracked.  Whether creating a
    directory or writing a file fails (a regular file among the parents of
    the path, a missing permission, a full disk, a directory where the file
    should go) is decided outside the program: the environment answers with
    the exception, if any, and for a failed write with the regular files
    the attempt leaves behind. *)
Record Environment : Type := mkEnvironment {
  mkdir_error : FileSystem -> string -> option PyError;
  write_failure : FileSystem -> string -> option (PyError * FileSystem) }.

(** [Path(dir).mkdir(parents=True, exist_ok=True)].  A regular file at
    [dir] raises [FileExistsError]: [exist_ok] forgives a directory only. *)
Definition mkdir (env : Environment) (fs : FileSystem) (dir : string)
  : Result unit :=
  match fs !! dir with
  | Some _ => Raise (FileExistsError dir)
  | None =>
      match mkdir_error env fs dir with
      | Some e => Raise e
      | None => Ok tt
      end
  end.

(** [config.REQUIRED_CSVS]. *)
Definition REQUIRED_CSVS : list string :=
  [ "olist_orders_dataset.csv";
    "olist_customers_dataset.csv";
    "olist_order_items_dataset.csv";
    "olist_order_payments_dataset.csv";
    "olist_products_dataset.csv";
    "product_category_name_translation.csv";
    "olist_geolocation_dataset.csv" ].

(** [pd.read_csv(path)]: a missing file raises [FileNotFoundError]; a file
    that is not a CSV raises a parser error. *)
Definition read_csv (fs : FileSystem) (path : string) : Result Table :=
  match fs !! path with
  | None => Raise (FileNotFoundError path)
  | Some (Csv t) => Ok t
  | Some (Parquet _) => Raise (ParserError path)
  end.

Definition load_csv_from_raw (fs : FileSystem) (raw_dir filename : string)
  : Result Table :=
  read_csv fs (path_join raw_dir filename).

(** The dictionary of [load_required_from_raw], one field per key. *)
Record RawData : Type := mkRawData {
  data_orders : Table;
  data_customers : Table;
  data_order_items : Table;
  data_order_payments : Table;
  data_products : Table;
  data_product_category_translation : Table;
  data_geolocation : Table }.

(** The dictionary display evaluates its seven values in order; the first
    load that raises ends the call. *)
Definition load_required_from_raw (fs : FileSystem) (raw_dir : string)
  : Result RawData :=
  o ← load_csv_from_raw fs raw_dir "olist_orders_dataset.csv";
  c ← load_csv_from_raw fs raw_dir "olist_customers_dataset.csv";
  i ← load_csv_from_raw fs raw_dir "olist_order_items_dataset.csv";
  p ← load_csv_from_raw fs raw_dir "olist_order_payments_dataset.csv";
  pr ← load_csv_from_raw fs raw_dir "olist_products_dataset.csv";
  tr ← load_csv_from_raw fs raw_dir "product_category_name_translation.csv";
  g ← load_csv_from_raw fs raw_dir "olist_geolocation_dataset.csv";
  mret (mkRawData o c i p pr tr g).

(** Typed view of the loaded tables.  A CSV of another schema lacks the
    columns the pipeline reads; the model raises the [KeyError] of the join
    key it asks for first. *)
Definition typed_tables (d : RawData) : Result Tables :=
  o ← match data_orders d with
       | TOrders r => Ok r | _ => Raise (KeyError "customer_id") end;
  c ← match data_customers d with
       | TCustomers r => Ok r | _ => Raise (KeyError "customer_id") end;
  i ← match data_order_items d with
       | TOrderItems r => Ok r | _ => Raise (KeyError "product_id") end;
  p ← match data_order_payments d with
       | TOrderPayments r => Ok r | _ => Raise (KeyError "order_id") end;
  pr ← match data_products d with
        | TProducts r => Ok r | _ => Raise (KeyError "product_id") end;
  tr ← match data_product_category_translation d with
        | TTranslation r => Ok r | _ => Raise (KeyError "product_category_name") end;
  g ← match data_geolocation d with
       | TGeolocation r => Ok r | _ => Raise (KeyError "geolocation_zip_code_prefix") end;
  mret (mkTables o c i p pr tr g).

(** ** [build_fact_orders], after the tables are loaded *)

Section Transform.
(** [pd.to_datetime(column, errors="coerce")], given the whole column (the
    parser may infer one format for it) and one of its cells; [None] is
    NaT.  The development is parametric in the parser. *)
Variable to_datetime : list Cell -> Cell -> option Z.

(** The key column of an aggregate after [reset_index()]. *)
Definition agg_key {K V : Type} (r : K * V) : option K := Some (fst r).

(** Lines 34-44: one centroid [(mean_lat, mean_lng)] per postal prefix. *)
Definition geo_lookup (t : Tables) : list (Z * (option Q * option Q)) :=
  fmap (fun '(k, g) =>
          (k, (agg_mean (fmap Geolocation.geolocation_lat g),
               agg_mean (fmap Geolocation.geolocation_lng g))))
       (groupby Z.leb Geolocation.geolocation_zip_code_prefix (geolocation t)).

(** Line 47. *)
Definition orders_customers (t : Tables)
  : list (Orders.row * option Customers.row) :=
  merge_left Orders.customer_id Customers.customer_id (orders t) (customers t).

Definition zip_of (r : Orders.row * option Customers.row) : option Z :=
  snd r ≫= Customers.customer_zip_code_prefix.

(** Lines 48-52. *)
Definition orders_customers_geo (t : Tables)
  : list (Orders.row * option Customers.row
          * option (Z * (option Q * option Q))) :=
  merge_left zip_of agg_key (orders_customers t) (geo_lookup t).

(** Lines 55-60: the two date columns are parsed, each as one column. *)
Definition delivered_col {X Y : Type} (df : list (Orders.row * X * Y))
  : list Cell :=
  fmap (fun r => str_cell (Orders.order_delivered_customer_date (fst (fst r)))) df.

Definition estimated_col {X Y : Type} (df : list (Orders.row * X * Y))
  : list Cell :=
  fmap (fun r => str_cell (Orders.order_estimated_delivery_date (fst (fst r)))) df.

Definition with_dates (t : Tables)
  : list (Orders.row * option Customers.row
          * option (Z * (option Q * option Q)) * (option Z * option Z)) :=
  let df := orders_customers_geo t in
  fmap (fun r =>
         (r,
          (to_datetime (delivered_col df)
             (str_cell (Orders.order_delivered_customer_date (fst (fst r)))),
           to_datetime (estimated_col df)
             (str_cell (Orders.order_estimated_delivery_date (fst (fst r)))))))
      df.

(** Lines 63-68. *)
Definition payment_mode (t : Tables) : list (string * option string) :=
  fmap (fun '(k, g) => (k, _mode_or_first (fmap OrderPayments.payment_type g)))
      (groupby String.leb OrderPayments.order_id (order_payments t)).

(** Lines 69-72. *)
Definition payment_total (t : Tables) : list (string * Q) :=
  fmap (fun '(k, g) => (k, agg_sum (fmap OrderPayments.payment_value g)))
      (groupby String.leb OrderPayments.order_id (order_payments t)).

(** Lines 77-82: items joined to products, then to the translation. *)
Definition category_of (r : OrderItems.row * option Products.row)
  : option string :=
  snd r ≫= Products.product_category_name.

Definition items_with_product (t : Tables)
  : list (OrderItems.row * option Products.row * option Translation.row) :=
  merge_left category_of Translation.product_category_name
    (merge_left OrderItems.product_id Products.product_id
       (order_items t) (products t))
    (product_category_translation t).

(** Lines 83-85: [fillna] of the English name with the original name, row
    by row. *)
Definition english_filled
    (r : OrderItems.row * option Products.row * option Translation.row)
  : option string :=
  match snd r ≫= Translation.product_category_name_english with
  | Some e => Some e
  | None => category_of (fst r)
  end.

Definition item_order_id
    (r : OrderItems.row * option Products.row * option Translation.row)
  : option string :=
  OrderItems.order_id (fst (fst r)).

(** Lines 87-90. *)
Definition freight_agg (t : Tables) : list (string * Q) :=
  fmap (fun '(k, g) =>
         (k, agg_sum (fmap (fun r => OrderItems.freight_value (fst (fst r))) g)))
      (groupby String.leb item_order_id (items_with_product t)).

(** Lines 96-103. *)
Definition category_agg (t : Tables) : list (string * option string) :=
  fmap (fun '(k, g) => (k, _mode_or_first (fmap english_filled g)))
      (groupby String.leb item_order_id (items_with_product t)).

(** Lines 73-74 and 105-106: the four per-order aggregates are joined on
    [order_id]. *)
Definition JoinedRow : Type :=
  Orders.row * option Customers.row * option (Z * (option Q * option Q))
  * (option Z * option Z)
  * option (string * option string) * option (string * Q)
  * option (string * Q) * option (string * option string).

Definition order_of (r : JoinedRow) : Orders.row :=
  fst (fst (fst (fst (fst (fst (fst r)))))).

Definition joined (t : Tables) : list JoinedRow :=
  let df := with_dates t in
  let df := merge_left (fun r => Orders.order_id (fst (fst (fst r)))) agg_key
              df (payment_mode t) in
  let df := merge_left (fun r => Orders.order_id (fst (fst (fst (fst r))))) agg_key
              df (payment_total t) in
  let df := merge_left (fun r => Orders.order_id (fst (fst (fst (fst (fst r)))))) agg_key
              df (freight_agg t) in
  merge_left (fun r => Orders.order_id (fst (fst (fst (fst (fst (fst r))))))) agg_key
    df (category_agg t).

(** Lines 109-116: [delay_days] and [on_time] start as null columns and
    are assigned on the rows of [delivered_mask] only; [on_time] is the
    comparison of the freshly assigned [delay_days] with zero. *)
Definition fact_row (r : JoinedRow) : Fact.row :=
  let '(o, c, g, (delivered, estimated), pm, pt, fr, cat) := r in
  let delivered_mask := bool_decide (Orders.order_status o = Some "delivered") in
  let delay := if delivered_mask then timedelta_days delivered estimated else None in
  {| Fact.order_id := Orders.order_id o;
     Fact.customer_id := Orders.customer_id o;
     Fact.order_status := Orders.order_status o;
     Fact.order_purchase_timestamp := Orders.order_purchase_timestamp o;
     Fact.order_delivered_customer_date := delivered;
     Fact.order_estimated_delivery_date := estimated;
     Fact.customer_zip_code_prefix := c ≫= Customers.customer_zip_code_prefix;
     Fact.customer_state := c ≫= Customers.customer_state;
     Fact.mean_lat := g ≫= fst ∘ snd;
     Fact.mean_lng := g ≫= snd ∘ snd;
     Fact.payment_type_mode := pm ≫= snd;
     Fact.payment_value_sum := snd <$> pt;
     Fact.freight_value_sum := snd <$> fr;
     Fact.product_category_mode := cat ≫= snd;
     Fact.delay_days := delay;
     Fact.on_time := if delivered_mask then Some (le_zero delay) else None |}.

(** The body of [build_fact_orders] from line 33 on. *)
Definition build_fact_table (t : Tables) : list Fact.row :=
  fmap fact_row (joined t).

(** [build_fact_orders(raw_dir)]. *)
Definition build_fact_orders (fs : FileSystem) (raw_dir : string)
  : Result (list Fact.row) :=
  data ← load_required_from_raw fs raw_dir;
  t ← typed_tables data;
  mret (build_fact_table t).

(** [pd.read_parquet(path)]. *)
Definition read_parquet (fs : FileSystem) (path : string)
  : Result (list Fact.row) :=
  match fs !! path with
  | None => Raise (FileNotFoundError path)
  | Some (Parquet df) => Ok df
  | Some (Csv _) => Raise (ParserError path)
  end.

(** [df.to_parquet(path, index=False)]: the file at [path] is created or
    replaced, unless the write fails. *)
Definition to_parquet (env : Environment) (df : list Fact.row)
    (fs : FileSystem) (path : string) : Result unit * FileSystem :=
  match write_failure env fs path with
  | Some (e, fs') => (Raise e, fs')
  | None => (Ok tt, <[path := Parquet df]> fs)
  end.

(** [get_fact_orders(raw_dir, processed_dir, use_cache_file)]: the value
    returned (or the exception raised) and the regular files afterwards.
    Lines 136-139 run in order: the build, then [mkdir], then the write;
    the first of them that raises ends the call. *)
Definition get_fact_orders (env : Environment) (fs : FileSystem)
    (raw_dir processed_dir : string) (use_cache_file : bool)
  : Result (list Fact.row) * FileSystem :=
  let parquet_path := path_join processed_dir "fact_orders.parquet" in
  if use_cache_file && bool_decide (is_Some (fs !! parquet_path)) then
    (read_parquet fs parquet_path, fs)
  else
    match build_fact_orders fs raw_dir with
    | Raise e => (Raise e, fs)
    | Ok df =>
        match mkdir env fs processed_dir with
        | Raise e => (Raise e, fs)
        | Ok _ =>
            match to_parquet env df fs parquet_path with
            | (Raise e, fs') => (Raise e, fs')
            | (Ok _, fs') => (Ok df, fs')
            end
        end
    end.
End Transform.

(** ** A concrete parser for the examples

    The Olist files write timestamps as [YYYY-MM-DD HH:MM:SS]; this parser
    reads that form and the bare date, and answers NaT for anything else.
    It is used only to run the model on concrete tables. *)

Definition digit_of (c : ascii) : option Z :=
  let n := Z.of_nat (nat_of_ascii c) in
  if ((48 <=? n) && (n <=? 57))%Z then Some (n - 48)%Z else None.

Fixpoint number_of (s : string) (acc : Z) : option Z :=
  match s with
  | EmptyString => Some acc
  | String c s' =>
      match digit_of c with
      | Some d => number_of s' (10 * acc + d)%Z
      | None => None
      end
  end.

Definition field (s : string) (start len : nat) : option Z :=
  if Nat.eqb (String.length (substring start len s)) len
  then number_of (substring start len s) 0%Z
  else None.

Definition is_leap (y : Z) : bool :=
  ((y mod 4 =? 0) && (negb (y mod 100 =? 0) || (y mod 400 =? 0)))%Z.

Definition days_in_month (y m : Z) : Z :=
  if (m =? 2)%Z then (if is_leap y then 29 else 28)%Z
  else if ((m =? 4) || (m =? 6) || (m =? 9) || (m =? 11))%Z then 30%Z
  else 31%Z.

(** Days from 1970-01-01 to the civil date. *)
Definition days_from_civil (y m d : Z) : Z :=
  (let y' := if m <=? 2 then y - 1 else y in
   let era := y' / 400 in
   let yoe := y' - era * 400 in
   let doy := (153 * (if m >? 2 then m - 3 else m + 9) + 2) / 5 + d - 1 in
   let doe := yoe * 365 + yoe / 4 - yoe / 100 + doy in
   era * 146097 + doe - 719468)%Z.

Definition parse_date (s : string) : option Z :=
  y ← field s 0 4;
  m ← field s 5 2;
  d ← field s 8 2;
  if (String.eqb (substring 4 1 s) "-" && String.eqb (substring 7 1 s) "-"
      && (1 <=? m)%Z && (m <=? 12)%Z && (1 <=? d)%Z && (d <=? days_in_month y m)%Z)
  then Some (days_from_civil y m d) else None.

Definition parse_time (s : string) : option Z :=
  h ← field s 11 2;
  mi ← field s 14 2;
  se ← field s 17 2;
  if (String.eqb (substring 10 1 s) " " && String.eqb (substring 13 1 s) ":"
      && String.eqb (substring 16 1 s) ":"
      && (h <? 24)%Z && (mi <? 60)%Z && (se <? 60)%Z)
  then Some (h * 3600 + mi * 60 + se)%Z else None.

Definition parse_iso (s : string) : option Z :=
  if Nat.eqb (String.length s) 10 then
    d ← parse_date s; Some (d * ns_per_day)%Z
  else if Nat.eqb (String.length s) 19 then
    d ← parse_date s; t ← parse_time s;
    Some (d * ns_per_day + t * 1000000000)%Z
  else None.

Definition to_datetime_iso (column : list Cell) (c : Cell) : option Z :=
  match c with
  | CStr s => parse_iso s
  | CTime t => Some t
  | _ => None
  end.

(** ** Untyped frames, as the metrics layer receives them *)

#[global] Instance Q_eq_dec : EqDecision Q.
Proof. solve_decision. Defined.

#[global] Instance Cell_eq_dec : EqDecision Cell.
Proof. solve_decision. Defined.

(** A frame: its column names in order, and its rows, each holding one cell
    per column. *)
Record DataFrame : Type := mkDataFrame {
  columns : list string;
  rows : list (list Cell) }.

(** [df.empty]: no rows or no columns. *)
Definition empty (df : DataFrame) : bool :=
  match columns df, rows df with
  | [], _ => true
  | _, [] => true
  | _, _ => false
  end.

Definition has_column (df : DataFrame) (name : string) : bool :=
  bool_decide (name ∈ columns df).

Fixpoint index_of (name : string) (cols : list string) : option nat :=
  match cols with
  | [] => None
  | c :: cols' =>
      if String.eqb name c then Some 0%nat else S <$> index_of name cols'
  end.

(** Position of the column behind [df[name]]; an absent column raises
    [KeyError]. *)
Definition column_index (df : DataFrame) (name : string) : Result nat :=
  match index_of name (columns df) with
  | Some i => Ok i
  | None => Raise (KeyError name)
  end.

Definition cell (i : nat) (row : list Cell) : Cell := nth i row CNull.

(** [df[mask]] with the mask computed from column [name]. *)
Definition filter_on (df : DataFrame) (name : string) (keep : Cell -> bool)
  : Result DataFrame :=
  i ← column_index df name;
  mret (mkDataFrame (columns df) (filter (fun r => keep (cell i r)) (rows df))).

Definition is_delivered (c : Cell) : bool :=
  bool_decide (c = CStr "delivered").

(** [Series.isin(values)] for a list of strings. *)
Definition isin (values : list string) (c : Cell) : bool :=
  match c with
  | CStr s => bool_decide (s ∈ values)
  | _ => false
  end.

(** [pd.Timestamp.min] and [pd.Timestamp.max], in nanoseconds. *)
Definition Timestamp_min : Z := (-9223372036854775807)%Z.
Definition Timestamp_max : Z := 9223372036854775807%Z.

(** ** [apply_filters] *)

Record Filters : Type := mkFilters {
  date_range : option (list (option Z));
  states : option (list string);
  categories : option (list string);
  payment_types : option (list string);
  delivered_only : bool }.

Definition no_filters : Filters := mkFilters None None None None false.

(** A multi-value filter is active when the list is given and not empty. *)
Definition active (values : option (list string)) : option (list string) :=
  match values with
  | Some (v :: vs) => Some (v :: vs)
  | _ => None
  end.

Definition isin_filter (name : string) (values : option (list string))
    (df : DataFrame) : Result DataFrame :=
  match active values with
  | Some vs => filter_on df name (isin vs)
  | None => Ok df
  end.

Section Metrics.
Variable to_datetime : list Cell -> Cell -> option Z.

Definition datetime_cell (column : list Cell) (c : Cell) : Cell :=
  match to_datetime column c with
  | Some t => CTime t
  | None => CNull
  end.

(** Lines 27-30: the purchase timestamp column, when there is one, is
    replaced by its parsed form. *)
Definition parse_purchase_timestamp (df : DataFrame) : DataFrame :=
  match index_of "order_purchase_timestamp" (columns df) with
  | Some i =>
      let column := fmap (cell i) (rows df) in
      mkDataFrame (columns df)
        (fmap (fun r => <[i := datetime_cell column (cell i r)]> r) (rows df))
  | None => df
  end.

(** [fillna(fill) >= start_dt] and [fillna(fill) <= end_dt] on the parsed
    column. *)
Definition not_before (start_dt : Z) (c : Cell) : bool :=
  match c with
  | CTime t => (start_dt <=? t)%Z
  | CNull => (start_dt <=? Timestamp_min)%Z
  | _ => false
  end.

Definition not_after (end_dt : Z) (c : Cell) : bool :=
  match c with
  | CTime t => (t <=? end_dt)%Z
  | CNull => (Timestamp_max <=? end_dt)%Z
  | _ => false
  end.

Definition bound_filter (keep : Z -> Cell -> bool) (bound : option Z)
    (df : DataFrame) : Result DataFrame :=
  match bound with
  | Some b => filter_on df "order_purchase_timestamp" (keep b)
  | None => Ok df
  end.

(** Lines 33-42. *)
Definition date_filter (range : option (list (option Z))) (df : DataFrame)
  : Result DataFrame :=
  match range with
  | Some (start_dt :: end_dt :: _) =>
      result ← bound_filter not_before start_dt df;
      bound_filter not_after end_dt result
  | _ => Ok df
  end.

Definition delivered_filter (flag : bool) (df : DataFrame) : Result DataFrame :=
  if flag then filter_on df "order_status" is_delivered else Ok df.

(** [apply_filters]; the final [reset_index(drop=True)] renumbers the
    rows and changes neither their order nor their cells. *)
Definition apply_filters (df : option DataFrame) (f : Filters)
  : Result DataFrame :=
  match df with
  | None => Ok (mkDataFrame [] [])
  | Some df =>
      if empty df then Ok (mkDataFrame [] [])
      else
        result ← date_filter (date_range f) (parse_purchase_timestamp df);
        result ← isin_filter "customer_state" (states f) result;
        result ← isin_filter "product_category_mode" (categories f) result;
        result ← isin_filter "payment_type_mode" (payment_types f) result;
        delivered_filter (delivered_only f) result
  end.
End Metrics.

(** ** Numeric views of cells *)

(** The number a cell stands for in a sum or a mean; strings and
    timestamps do not add. *)
Definition cell_num (c : Cell) : Result Q :=
  match c with
  | CInt z => Ok (inject_Z z)
  | CFloat q => Ok q
  | CBool b => Ok (if b then 1%Q else 0%Q)
  | CNull => Ok 0%Q
  | CStr _ | CTime _ => Raise TypeError
  end.

Definition dropna (series : list Cell) : list Cell :=
  filter (fun c => negb (isna c)) series.

Definition fillna (fill : Cell) (series : list Cell) : list Cell :=
  fmap (fun c => if isna c then fill else c) series.

Definition series_sum (series : list Cell) : Result Q :=
  v ← mapM cell_num series;
  mret (Qred (qsum v)).

(** Python's [/] on numbers. *)
Definition truediv (a b : Q) : Result Q :=
  if Qeq_bool b 0 then Raise ZeroDivisionError else Ok (Qred (a / b)).

Definition series_mean (series : list Cell) : Result Q :=
  total ← series_sum series;
  truediv total (inject_Z (Z.of_nat (length series))).

(** [c == True] inside an object column: the Boolean and the numbers equal
    to one. *)
Definition eq_True (c : Cell) : bool :=
  match c with
  | CBool b => b
  | CInt z => (z =? 1)%Z
  | CFloat q => Qeq_bool q 1
  | _ => false
  end.

(** ** [compute_kpis] *)

Record Kpis : Type := mkKpis {
  total_orders : nat;
  delivered_orders : nat;
  on_time_count : nat;
  on_time_rate : Q;
  avg_delay_days : Q;
  total_payment_value : Q;
  total_freight_value : Q }.

Definition defaults : Kpis := mkKpis 0 0 0 0 0 0 0.

(** Lines 98-103: a sum over a column when the frame has it. *)
Definition optional_total (df : DataFrame) (name : string) : Result Q :=
  if has_column df name then
    i ← column_index df name;
    series_sum (fillna (CInt 0) (fmap (cell i) (rows df)))
  else Ok 0%Q.

(** Lines 88-96: the three delivery figures over the delivered rows. *)
Definition delivery_figures (df : DataFrame) (delivered : list (list Cell))
  : Result (nat * Q * Q) :=
  let delivered_orders := length delivered in
  if (0 <? delivered_orders)%nat then
    i ← column_index df "on_time";
    let on_time_valid := dropna (fmap (cell i) delivered) in
    let on_time_count := length (filter eq_True on_time_valid) in
    on_time_rate ← truediv (inject_Z (Z.of_nat on_time_count))
                     (inject_Z (Z.of_nat delivered_orders));
    j ← column_index df "delay_days";
    let delay_valid := dropna (fmap (cell j) delivered) in
    avg_delay_days ← (if (0 <? length delay_valid)%nat
                      then series_mean delay_valid else Ok 0%Q);
    mret (on_time_count, on_time_rate, avg_delay_days)
  else Ok (0%nat, 0%Q, 0%Q).

Definition compute_kpis (df : option DataFrame) : Result Kpis :=
  match df with
  | None => Ok defaults
  | Some df =>
      if empty df then Ok defaults
      else
        let total_orders := length (rows df) in
        delivered ← filter_on df "order_status" is_delivered;
        let delivered_orders := length (rows delivered) in
        figures ← delivery_figures df (rows delivered);
        total_payment_value ← optional_total df "payment_value_sum";
        total_freight_value ← optional_total df "freight_value_sum";
        mret (mkKpis total_orders delivered_orders (fst (fst figures))
                (snd (fst figures)) (snd figures)
                total_payment_value total_freight_value)
  end.

(** ** [group_geo] *)

(** The columns of the empty result of lines 124-135 and 145-156. *)
Definition GEO_RESULT_COLUMNS : list string :=
  [ "customer_state"; "mean_lat"; "mean_lng"; "order_count";
    "delivered_count"; "on_time_count"; "on_time_rate"; "avg_delay_days" ].

Definition geo_cols : list string := [ "customer_state"; "mean_lat"; "mean_lng" ].

(** The group key of a row.  [customer_state] is a string column; a cell of
    another kind is treated like the null key, which [groupby] drops. *)
Definition state_key (i : nat) (row : list Cell) : option string :=
  match cell i row with
  | CStr s => Some s
  | _ => None
  end.

(** [Series.nunique()]: distinct non-null values. *)
Definition nunique (series : list Cell) : nat :=
  length (remove_dups (dropna series)).

(** [astype(int)] on a number: truncation towards zero. *)
Definition to_int (q : Q) : Z := Z.quot (Qnum q) (Zpos (Qden q)).

(** Lines 160-168. *)
Definition state_agg (df : DataFrame) (geo_clean : list (list Cell))
  : Result (list (string * (Q * Q * nat))) :=
  i_state ← column_index df "customer_state";
  i_lat ← column_index df "mean_lat";
  i_lng ← column_index df "mean_lng";
  i_id ← column_index df "order_id";
  mapM (fun kg : string * list (list Cell) =>
          lat ← series_mean (fmap (cell i_lat) (snd kg));
          lng ← series_mean (fmap (cell i_lng) (snd kg));
          mret (fst kg, (lat, lng, nunique (fmap (cell i_id) (snd kg)))))
       (groupby String.leb (state_key i_state) geo_clean).

(** Lines 172-180: per state, over the delivered rows. *)
Definition delivered_agg (df : DataFrame) (delivered : list (list Cell))
  : Result (list (string * (nat * Q * option Q))) :=
  i_state ← column_index df "customer_state";
  i_id ← column_index df "order_id";
  i_on ← column_index df "on_time";
  i_delay ← column_index df "delay_days";
  mapM (fun kg : string * list (list Cell) =>
          on ← series_sum (fillna (CBool false) (fmap (cell i_on) (snd kg)));
          avg ← match dropna (fmap (cell i_delay) (snd kg)) with
                 | [] => Ok None
                 | v => Some <$> series_mean v
                 end;
          mret (fst kg, (nunique (fmap (cell i_id) (snd kg)), on, avg)))
       (groupby String.leb (state_key i_state) delivered).

(** Lines 187-192 on one row of the merged aggregate: the rate, then the
    three [fillna]s and the two integer casts. *)
Definition geo_row (state : string) (lat lng : Q) (order_count : nat)
    (delivered_count : option nat) (on_time_total avg_delay : option Q)
  : list Cell :=
  let rate :=
    match on_time_total, delivered_count with
    | Some on, Some (S n) => Qred (on / inject_Z (Z.of_nat (S n)))
    | _, _ => 0%Q
    end in
  [ CStr state; CFloat lat; CFloat lng; CInt (Z.of_nat order_count);
    CInt (Z.of_nat (default 0%nat delivered_count));
    CInt (to_int (default 0%Q on_time_total));
    CFloat (default 0%Q avg_delay);
    CFloat rate ].

(** The columns of a non-empty result, in the order the code creates
    them. *)
Definition GEO_AGG_COLUMNS : list string :=
  [ "customer_state"; "mean_lat"; "mean_lng"; "order_count";
    "delivered_count"; "on_time_count"; "avg_delay_days"; "on_time_rate" ].

(** Lines 160-194. *)
Definition aggregate_geo (df : DataFrame) (geo_clean : list (list Cell))
  : Result DataFrame :=
  agg ← state_agg df geo_clean;
  delivered ← filter_on (mkDataFrame (columns df) geo_clean) "order_status" is_delivered;
  if empty delivered then
    mret (mkDataFrame GEO_AGG_COLUMNS
            (fmap (fun '(k, (lat, lng, n)) =>
                    geo_row k lat lng n (Some 0%nat) (Some 0%Q) (Some 0%Q))
                 agg))
  else
    dagg ← delivered_agg df (rows delivered);
    mret (mkDataFrame GEO_AGG_COLUMNS
            (fmap (fun '((k, (lat, lng, n)), d) =>
                    geo_row k lat lng n
                      (fst ∘ fst ∘ snd <$> d)
                      (snd ∘ fst ∘ snd <$> d)
                      (d ≫= snd ∘ snd))
                 (merge_left fst fst agg dagg))).

Definition group_geo (df : option DataFrame) : Result DataFrame :=
  match df with
  | None => Ok (mkDataFrame GEO_RESULT_COLUMNS [])
  | Some df =>
      if empty df then Ok (mkDataFrame GEO_RESULT_COLUMNS [])
      else if negb (forallb (has_column df) geo_cols) then
        Ok (mkDataFrame (geo_cols ++ ["order_count"]) [])
      else
        i_lat ← column_index df "mean_lat";
        i_lng ← column_index df "mean_lng";
        let geo_clean :=
          filter
            (fun r => negb (isna (cell i_lat r)) && negb (isna (cell i_lng r)))
            (rows df) in
        if empty (mkDataFrame (columns df) geo_clean) then
          Ok (mkDataFrame GEO_RESULT_COLUMNS [])
        else aggregate_geo df geo_clean
  end.

(** ** Views used to state the properties *)

(** The value an aggregate [groupby(key).agg(f)] holds for an order id, if
    it has a row for it: none for a null id or an id without rows. *)
Definition lookup_agg {R K V : Type} `{EqDecision K}
    (key : R -> option K) (f : list R -> V) (rows : list R) (k : option K)
  : option V :=
  k ≫= fun k =>
    match group key rows k with
    | [] => None
    | g => Some (f g)
    end.

(** The payment types of the payment rows of an order, and the category
    values of its joined item rows: the two series the mode is taken of. *)
Definition payment_types_of (t : Tables) (k : string) : list (option string) :=
  OrderPayments.payment_type <$> group OrderPayments.order_id (order_payments t) k.

Definition category_values_of (t : Tables) (k : string) : list (option string) :=
  english_filled <$> group item_order_id (items_with_product t) k.

Definition is_delivered_status (status : option string) : bool :=
  bool_decide (status = Some "delivered").

(** [v] is one of the most frequent non-null values of the series. *)
Definition most_frequent (v : string) (series : list (option string)) : Prop :=
  Some v ∈ series
  /\ forall w, (count_occ_str w (omap id series)
               <= count_occ_str v (omap id series))%nat.

(** The fact table has exactly one row per order id of the orders table,
    and no order id twice. *)
Definition one_row_per_order_id (t : Tables) (fact : list Fact.row) : Prop :=
  NoDup (Fact.order_id <$> fact)
  /\ forall k, k ∈ Fact.order_id <$> fact <-> k ∈ Orders.order_id <$> orders t.

(** The category value of one item as the data model words it: the English
    name of the category of the item's product, or the original name when
    the category has no translation. *)
Definition item_category (t : Tables) (i : OrderItems.row) : option string :=
  let category :=
    head (matches OrderItems.product_id Products.product_id i (products t))
      ≫= Products.product_category_name in
  match head (matches id Translation.product_category_name category
                (product_category_translation t))
          ≫= Translation.product_category_name_english with
  | Some e => Some e
  | None => category
  end.

Definition item_categories_of (t : Tables) (k : string) : list (option string) :=
  item_category t <$> group OrderItems.order_id (order_items t) k.

(** The on-time rate as the component design words it: nulls left out of
    the numerator and of the denominator. *)
Definition on_time_rate_excluding_nulls (i_status i_on : nat) (df : DataFrame) : Q :=
  let delivered := filter (fun r => is_delivered (cell i_status r)) (rows df) in
  let on_time_valid := dropna (cell i_on <$> delivered) in
  match length on_time_valid with
  | O => 0%Q
  | S n =>
      Qred (inject_Z (Z.of_nat (length (filter eq_True on_time_valid)))
            / inject_Z (Z.of_nat (S n)))
  end.

(** The two date bounds [apply_filters] reads from [date_range]. *)
Definition bounds (range : option (list (option Z))) : option Z * option Z :=
  match range with
  | Some (start_dt :: end_dt :: _) => (start_dt, end_dt)
  | _ => (None, None)
  end.

(** [adds_one_filter f f']: the configuration [f'] is [f] with one more
    active filter, a date bound, a state, category or payment-type list, or
    the delivered-only flag. *)
Inductive adds_one_filter : Filters -> Filters -> Prop :=
  | add_start_bound f start_dt :
      fst (bounds (date_range f)) = None ->
      adds_one_filter f
        (mkFilters (Some [Some start_dt; snd (bounds (date_range f))])
           (states f) (categories f) (payment_types f) (delivered_only f))
  | add_end_bound f end_dt :
      snd (bounds (date_range f)) = None ->
      adds_one_filter f
        (mkFilters (Some [fst (bounds (date_range f)); Some end_dt])
           (states f) (categories f) (payment_types f) (delivered_only f))
  | add_states f v vs :
      active (states f) = None ->
      adds_one_filter f
        (mkFilters (date_range f) (Some (v :: vs)) (categories f)
           (payment_types f) (delivered_only f))
  | add_categories f v vs :
      active (categories f) = None ->
      adds_one_filter f
        (mkFilters (date_range f) (states f) (Some (v :: vs))
           (payment_types f) (delivered_only f))
  | add_payment_types f v vs :
      active (payment_types f) = None ->
      adds_one_filter f
        (mkFilters (date_range f) (states f) (categories f)
           (Some (v :: vs)) (delivered_only f))
  | add_delivered_only f :
      delivered_only f = false ->
      adds_one_filter f
        (mkFilters (date_range f) (states f) (categories f)
           (payment_types f) true).

(** [f'] keeps every active filter of [f]. *)
Definition keeps_filters (f f' : Filters) : Prop :=
  (fst (bounds (date_range f)) = None
   \/ fst (bounds (date_range f)) = fst (bounds (date_range f')))
  /\ (snd (bounds (date_range f)) = None
      \/ snd (bounds (date_range f)) = snd (bounds (date_range f')))
  /\ (active (states f) = None \/ active (states f) = active (states f'))
  /\ (active (categories f) = None
      \/ active (categories f) = active (categories f'))
  /\ (active (payment_types f) = None
      \/ active (payment_types f) = active (payment_types f'))
  /\ (delivered_only f = false \/ delivered_only f = delivered_only f').

(** [d'] has the columns of [d] and a selection of its rows, in order. *)
Definition selection_of (d d' : DataFrame) : Prop :=
  columns d' = columns d /\ rows d' `sublist_of` rows d.

(** Whenever the stage [s'] returns on a selection, [s] returns on the
    whole and the results are again related. *)
Definition stage_le (s s' : DataFrame -> Result DataFrame) : Prop :=
  forall d d' r', selection_of d d' -> s' d' = Ok r' ->
                  exists r, s d = Ok r /\ selection_of r r'.

(** ** Example tables *)

Definition order_1 : Orders.row :=
  Orders.mk (Some "o1") (Some "c1") (Some "delivered")
    (Some "2024-01-01 09:30:00") (Some "2024-01-08") (Some "2024-01-10").

(** A delivered order whose delivery date is missing. *)
Definition order_2 : Orders.row :=
  Orders.mk (Some "o2") (Some "c2") (Some "delivered")
    (Some "2024-01-02 10:00:00") None (Some "2024-01-10").

(** A shipped order that carries a delivery date all the same. *)
Definition order_3 : Orders.row :=
  Orders.mk (Some "o3") (Some "c3") (Some "shipped")
    (Some "2024-01-03 11:00:00") (Some "2024-01-12") (Some "2024-01-10").

Definition customer_1 : Customers.row :=
  Customers.mk (Some "c1") (Some 1001%Z) (Some "SP").

Definition customer_2 : Customers.row :=
  Customers.mk (Some "c2") (Some 2002%Z) (Some "RJ").

Definition example_tables : Tables :=
  {| orders := [order_1; order_2; order_3];
     customers := [customer_1; customer_2];
     order_items :=
       [ OrderItems.mk (Some "o1") (Some "p1") (Some 5%Q);
         OrderItems.mk (Some "o1") (Some "p2") (Some 7%Q);
         OrderItems.mk (Some "o1") (Some "p2") (Some 7%Q) ];
     order_payments :=
       [ OrderPayments.mk (Some "o2") (Some "credit_card") (Some 50%Q);
         OrderPayments.mk (Some "o2") (Some "boleto") (Some 30%Q) ];
     products :=
       [ Products.mk (Some "p1") (Some "beleza_saude");
         Products.mk (Some "p2") (Some "pc_gamer") ];
     product_category_translation :=
       [ Translation.mk (Some "beleza_saude") (Some "health_beauty") ];
     geolocation :=
       [ Geolocation.mk (Some 1001%Z) (Some (-23 # 1)) (Some (-46 # 1));
         Geolocation.mk (Some 1001%Z) (Some (-24 # 1)) (Some (-47 # 1)) ] |}.

(** The example tables, with customer [c1] listed twice in the customers
    file. *)
Definition duplicate_customer_tables : Tables :=
  {| orders := orders example_tables;
     customers := [customer_1; customer_1; customer_2];
     order_items := order_items example_tables;
     order_payments := order_payments example_tables;
     products := products example_tables;
     product_category_translation := product_category_translation example_tables;
     geolocation := geolocation example_tables |}.

(** The example tables, with product [p1] listed three times in the
    products file. *)
Definition duplicate_product_tables : Tables :=
  {| orders := orders example_tables;
     customers := customers example_tables;
     order_items := order_items example_tables;
     order_payments := order_payments example_tables;
     products :=
       [ Products.mk (Some "p1") (Some "beleza_saude");
         Products.mk (Some "p1") (Some "beleza_saude");
         Products.mk (Some "p1") (Some "beleza_saude");
         Products.mk (Some "p2") (Some "pc_gamer") ];
     product_category_translation := product_category_translation example_tables;
     geolocation := geolocation example_tables |}.

(** The example tables, with order [o1] listed twice in the orders file. *)
Definition duplicate_order_tables : Tables :=
  {| orders := [order_1; order_1; order_2; order_3];
     customers := customers example_tables;
     order_items := order_items example_tables;
     order_payments := order_payments example_tables;
     products := products example_tables;
     product_category_translation := product_category_translation example_tables;
     geolocation := geolocation example_tables |}.

(** The example tables, with the translation of [beleza_saude] listed
    twice in the translation file. *)
Definition duplicate_translation_tables : Tables :=
  {| orders := orders example_tables;
     customers := customers example_tables;
     order_items := order_items example_tables;
     order_payments := order_payments example_tables;
     products := products example_tables;
     product_category_translation :=
       [ Translation.mk (Some "beleza_saude") (Some "health_beauty");
         Translation.mk (Some "beleza_saude") (Some "health_beauty") ];
     geolocation := geolocation example_tables |}.

(** ** Example file systems *)

Definition csv_files (dir : string) (t : Tables) : list (string * File) :=
  [ (path_join dir "olist_orders_dataset.csv", Csv (TOrders (orders t)));
    (path_join dir "olist_customers_dataset.csv", Csv (TCustomers (customers t)));
    (path_join dir "olist_order_items_dataset.csv", Csv (TOrderItems (order_items t)));
    (path_join dir "olist_order_payments_dataset.csv",
     Csv (TOrderPayments (order_payments t)));
    (path_join dir "olist_products_dataset.csv", Csv (TProducts (products t)));
    (path_join dir "product_category_name_translation.csv",
     Csv (TTranslation (product_category_translation t)));
    (path_join dir "olist_geolocation_dataset.csv", Csv (TGeolocation (geolocation t))) ].

(** A raw directory with the seven files and nothing processed yet. *)
Definition raw_only_fs : FileSystem :=
  list_to_map (csv_files "data/raw" example_tables).

(** A raw directory from which the geolocation file is missing. *)
Definition no_geolocation_fs : FileSystem :=
  delete (path_join "data/raw" "olist_geolocation_dataset.csv") raw_only_fs.

(** A processed directory that already holds an artifact, here the fact
    table of other tables than the ones now in the raw directory. *)
Definition stale_cache_fs : FileSystem :=
  <[path_join "data/processed" "fact_orders.parquet" :=
      Parquet (build_fact_table to_datetime_iso duplicate_customer_tables)]>
    raw_only_fs.

(** An environment in which every directory can be created and every file
    written, and one in which every write is refused and leaves the files
    as they are. *)
Definition permissive : Environment :=
  mkEnvironment (fun _ _ => None) (fun _ _ => None).

Definition read_only : Environment :=
  mkEnvironment (fun _ _ => None) (fun fs path => Some (OSError path, fs)).

(** A regular file where the processed directory should be. *)
Definition blocked_processed_fs : FileSystem :=
  <["data/processed" := Csv (TOrders [])]> raw_only_fs.

(** ** A fact table as the frame the metrics layer reads *)

Definition opt_cell {A : Type} (f : A -> Cell) (o : option A) : Cell :=
  match o with
  | Some a => f a
  | None => CNull
  end.

Definition FACT_COLUMNS : list string :=
  [ "order_id"; "customer_id"; "order_status"; "order_purchase_timestamp";
    "order_delivered_customer_date"; "order_estimated_delivery_date";
    "customer_zip_code_prefix"; "customer_state"; "mean_lat"; "mean_lng";
    "payment_type_mode"; "payment_value_sum"; "freight_value_sum";
    "product_category_mode"; "delay_days"; "on_time" ].

Definition row_cells (f : Fact.row) : list Cell :=
  [ opt_cell CStr (Fact.order_id f);
    opt_cell CStr (Fact.customer_id f);
    opt_cell CStr (Fact.order_status f);
    opt_cell CStr (Fact.order_purchase_timestamp f);
    opt_cell CTime (Fact.order_delivered_customer_date f);
    opt_cell CTime (Fact.order_estimated_delivery_date f);
    opt_cell CInt (Fact.customer_zip_code_prefix f);
    opt_cell CStr (Fact.customer_state f);
    opt_cell CFloat (Fact.mean_lat f);
    opt_cell CFloat (Fact.mean_lng f);
    opt_cell CStr (Fact.payment_type_mode f);
    opt_cell CFloat (Fact.payment_value_sum f);
    opt_cell CFloat (Fact.freight_value_sum f);
    opt_cell CStr (Fact.product_category_mode f);
    opt_cell CInt (Fact.delay_days f);
    opt_cell CBool (Fact.on_time f) ].

Definition to_frame (fact : list Fact.row) : DataFrame :=
  mkDataFrame FACT_COLUMNS (row_cells <$> fact).

(** ** Example frames *)

(** A frame that has no coordinate columns. *)
Definition no_coordinates_frame : DataFrame :=
  {| columns := ["order_id"; "customer_state"; "order_status"];
     rows := [[CStr "o1"; CStr "SP"; CStr "delivered"]] |}.

(** Two delivered orders, one of them with a null [on_time]. *)
Definition null_on_time_frame : DataFrame :=
  {| columns := ["order_id"; "order_status"; "on_time"; "delay_days"];
     rows := [ [CStr "o1"; CStr "delivered"; CBool true; CInt (-2)];
               [CStr "o2"; CStr "delivered"; CNull; CNull] ] |}.

(** One order whose purchase timestamp is not a date. *)
Definition bad_timestamp_frame : DataFrame :=
  {| columns := ["order_id"; "order_purchase_timestamp"; "customer_state"];
     rows := [[CStr "o1"; CStr "not a date"; CStr "SP"]] |}.

(** Orders of two states, one of them without coordinates. *)
Definition two_states_frame : DataFrame :=
  {| columns := ["order_id"; "order_purchase_timestamp"; "customer_state";
                 "order_status"; "mean_lat"; "mean_lng"; "on_time"; "delay_days"];
     rows :=
       [ [CStr "o1"; CStr "2024-01-01 09:30:00"; CStr "SP"; CStr "delivered";
          CFloat (-23 # 1); CFloat (-46 # 1); CBool true; CInt (-2)];
         [CStr "o2"; CStr "2024-01-02 10:00:00"; CStr "RJ"; CStr "delivered";
          CNull; CNull; CBool false; CNull];
         [CStr "o3"; CStr "2024-01-03 11:00:00"; CStr "SP"; CStr "shipped";
          CFloat (-24 # 1); CFloat (-47 # 1); CNull; CNull] ] |}.

(** ** What a filter configuration asks of a row *)

(** The cell of a row under a column name (null when the frame has no such
    column). *)
Definition cell_at (cols : list string) (name : string) (row : list Cell) : Cell :=
  match index_of name cols with
  | Some i => cell i row
  | None => CNull
  end.

Definition bound_passes (keep : Z -> Cell -> bool) (bound : option Z)
    (cols : list string) (row : list Cell) : bool :=
  match bound with
  | Some b => keep b (cell_at cols "order_purchase_timestamp" row)
  | None => true
  end.

Definition isin_passes (name : string) (values : option (list string))
    (cols : list string) (row : list Cell) : bool :=
  match active values with
  | Some vs => isin vs (cell_at cols name row)
  | None => true
  end.

Definition delivered_passes (flag : bool) (cols : list string) (row : list Cell)
  : bool :=
  if flag then is_delivered (cell_at cols "order_status" row) else true.

(** A row passes a configuration when it passes every active filter. *)
Definition passes (f : Filters) (cols : list string) (row : list Cell) : bool :=
  (bound_passes not_before (fst (bounds (date_range f))) cols row
   && bound_passes not_after (snd (bounds (date_range f))) cols row)
  && (isin_passes "customer_state" (states f) cols row
      && (isin_passes "product_category_mode" (categories f) cols row
          && (isin_passes "payment_type_mode" (payment_types f) cols row
              && delivered_passes (delivered_only f) cols row))).

(** The columns the active filters of a configuration read, in the order
    the code reads them. *)
Definition needed_columns (f : Filters) : list string :=
  (match fst (bounds (date_range f)) with
   | Some _ => ["order_purchase_timestamp"] | None => [] end)
  ++ (match snd (bounds (date_range f)) with
      | Some _ => ["order_purchase_timestamp"] | None => [] end)
  ++ (match active (states f) with
      | Some _ => ["customer_state"] | None => [] end)
  ++ (match active (categories f) with
      | Some _ => ["product_category_mode"] | None => [] end)
  ++ (match active (payment_types f) with
      | Some _ => ["payment_type_mode"] | None => [] end)
  ++ (if delivered_only f then ["order_status"] else []).

(** A stage keeps the columns and keeps the rows that satisfy [p]. *)
Definition stage_selects (s : DataFrame -> Result DataFrame)
    (p : list string -> list Cell -> bool) : Prop :=
  forall d r, s d = Ok r ->
              columns r = columns d
              /\ rows r = filter (fun row => p (columns d) row) (rows d).

(** A stage returns when the frame has the columns [needed] and raises the
    [KeyError] of the first missing one otherwise. *)
Definition stage_needs (s : DataFrame -> Result DataFrame)
    (needed : list string) : Prop :=
  forall d,
    match s d with
    | Ok r => columns r = columns d /\ Forall (fun c => c ∈ columns d) needed
    | Raise e => exists c, e = KeyError c /\ c ∈ needed /\ c ∉ columns d
    end.

(** ** The default view of the dashboard ([app.py]) *)

(** A calendar date is counted in days from 1970-01-01.  [date t] is
    [Timestamp.to_pydatetime().date()]; [combine_min_time d] is
    [datetime.combine(d, datetime.min.time())], the midnight that opens
    day [d]. *)
Definition date (t : Z) : Z := (t / ns_per_day)%Z.

Definition combine_min_time (d : Z) : Z := (d * ns_per_day)%Z.

(** [datetime(2016, 1, 1).date()] and [datetime(2018, 12, 31).date()]. *)
Definition DEFAULT_DATE_RANGE : Z * Z :=
  (days_from_civil 2016 1 1, days_from_civil 2018 12 31).

(** [Series.min()] and [Series.max()] of a series without nulls. *)
Definition series_min (ts : list Z) : option Z :=
  match ts with
  | [] => None
  | t :: ts' => Some (foldr Z.min t ts')
  end.

Definition series_max (ts : list Z) : option Z :=
  match ts with
  | [] => None
  | t :: ts' => Some (foldr Z.max t ts')
  end.

Section App.
Variable to_datetime : list Cell -> Cell -> option Z.

(** Line 45: the purchase timestamps that parse, nulls dropped. *)
Definition purchase_timestamps (df : DataFrame) (i : nat) : list Z :=
  let column := cell i <$> rows df in
  omap (to_datetime column) column.

(** [_get_date_range], lines 42-48. *)
Definition _get_date_range (df : DataFrame) : Result (Z * Z) :=
  if empty df then Ok DEFAULT_DATE_RANGE
  else
    i ← column_index df "order_purchase_timestamp";
    let ts := purchase_timestamps df i in
    match series_min ts, series_max ts with
    | Some lo, Some hi => Ok (date lo, date hi)
    | _, _ => Ok DEFAULT_DATE_RANGE
    end.

(** Lines 54-108 on a run in which no widget has been touched: the two
    date inputs hold the default range, the three multiselects are empty
    and the checkbox is off. *)
Definition default_filters (df : DataFrame) : Result Filters :=
  range ← _get_date_range df;
  mret (mkFilters
          (Some [Some (combine_min_time (fst range));
                 Some (combine_min_time (snd range))])
          None None None false).

Definition default_view (df : DataFrame) : Result DataFrame :=
  f ← default_filters df;
  apply_filters to_datetime (Some df) f.
End App.

(** * Properties *)

(** ** The example parser on the Olist timestamp format *)

Example parse_iso_day : parse_iso "2024-01-08" = Some (19730 * ns_per_day)%Z.
Proof. reflexivity. Qed.

Example parse_iso_olist :
  parse_iso "2017-10-02 10:56:33" = Some 1506941793000000000%Z.
Proof. reflexivity. Qed.

Example parse_iso_garbage : parse_iso "not a date" = None.
Proof. reflexivity. Qed.

(** ** Order on strings *)

Lemma ascii_compare_refl (a : ascii) : Ascii.compare a a = Eq.
Proof. unfold Ascii.compare. apply N.compare_refl. Qed.

Lemma string_compare_refl (s : string) : String.compare s s = Eq.
Proof.
  induction s as [|a s IH]; simpl; [reflexivity|].
  now rewrite ascii_compare_refl.
Qed.

Lemma string_leb_refl (s : string) : String.leb s s = true.
Proof. unfold String.leb. now rewrite string_compare_refl. Qed.

Lemma string_leb_trans (a b c : string) :
  String.leb a b = true -> String.leb b c = true -> String.leb a c = true.
Proof.
  unfold String.leb. revert b c.
  induction a as [|x a IH]; intros [|y b] [|z c]; simpl; try congruence.
  destruct (Ascii.compare x y) eqn:Hxy; try congruence;
    destruct (Ascii.compare y z) eqn:Hyz; try congruence.
  - apply Ascii.compare_eq_iff in Hxy, Hyz. subst.
    rewrite ascii_compare_refl. apply IH.
  - apply Ascii.compare_eq_iff in Hxy. subst. now rewrite Hyz.
  - apply Ascii.compare_eq_iff in Hyz. subst. now rewrite Hxy.
  - unfold Ascii.compare in *.
    rewrite N.compare_lt_iff in Hxy, Hyz.
    assert (H : (N_of_ascii x ?= N_of_ascii z)%N = Lt)
      by (apply N.compare_lt_iff; lia).
    now rewrite H.
Qed.

(** ** Sorting *)

Section SortingFacts.
Context {A : Type} (le : A -> A -> bool).

Lemma elem_of_insert_sorted (x y : A) (l : list A) :
  y ∈ insert_sorted le x l <-> y = x \/ y ∈ l.
Proof.
  induction l as [|z l IH]; simpl.
  - rewrite list_elem_of_singleton, elem_of_nil. tauto.
  - destruct (le x z); [apply elem_of_cons|].
    rewrite !elem_of_cons, IH. tauto.
Qed.

Lemma elem_of_isort (y : A) (l : list A) : y ∈ isort le l <-> y ∈ l.
Proof.
  induction l as [|z l IH]; simpl; [reflexivity|].
  rewrite elem_of_insert_sorted, IH, elem_of_cons. tauto.
Qed.

Lemma NoDup_insert_sorted (x : A) (l : list A) :
  x ∉ l -> NoDup l -> NoDup (insert_sorted le x l).
Proof.
  induction l as [|z l IH]; simpl; intros Hx Hl.
  - apply NoDup_singleton.
  - destruct (le x z); [now constructor|].
    apply NoDup_cons in Hl as [Hz Hl]. apply not_elem_of_cons in Hx as [Hxz Hx].
    constructor; [|now apply IH].
    rewrite elem_of_insert_sorted. intros [->|H]; tauto.
Qed.

Lemma NoDup_isort (l : list A) : NoDup l -> NoDup (isort le l).
Proof.
  induction 1 as [|x l Hx Hl IH]; simpl; [constructor|].
  apply NoDup_insert_sorted; [now rewrite elem_of_isort|assumption].
Qed.

Hypothesis le_refl : forall x, le x x = true.
Hypothesis le_total : forall x y, le x y = true \/ le y x = true.
Hypothesis le_trans :
  forall x y z, le x y = true -> le y z = true -> le x z = true.

Lemma head_insert_sorted (x : A) (l : list A) :
  head (insert_sorted le x l)
  = Some (match l with
          | [] => x
          | y :: _ => if le x y then x else y
          end).
Proof. destruct l as [|y l]; simpl; [reflexivity|]. now destruct (le x y). Qed.

(** The first element of the sorted list is below every element. *)
Lemma isort_head_least (l : list A) (m : A) :
  head (isort le l) = Some m -> forall x, x ∈ l -> le m x = true.
Proof.
  revert m. induction l as [|a l IH]; intros m Hm x Hx;
    [now apply elem_of_nil in Hx|].
  simpl in Hm. rewrite head_insert_sorted in Hm.
  apply elem_of_cons in Hx.
  destruct (isort le l) as [|y s] eqn:Hs.
  - injection Hm as <-. destruct Hx as [->|Hx]; [apply le_refl|].
    apply (elem_of_isort x) in Hx. rewrite Hs in Hx.
    now apply elem_of_nil in Hx.
  - specialize (IH y eq_refl).
    destruct (le a y) eqn:Hay; injection Hm as Hm; subst m.
    + destruct Hx as [Hx|Hx]; [subst x; apply le_refl|].
      eapply le_trans; [exact Hay|]. now apply IH.
    + destruct Hx as [Hx|Hx]; [subst x|now apply IH].
      destruct (le_total y a) as [H|H]; [assumption|congruence].
Qed.

Lemma isort_head_elem (l : list A) (m : A) :
  head (isort le l) = Some m -> m ∈ l.
Proof.
  intros Hm. apply elem_of_isort.
  destruct (isort le l); simpl in Hm; [discriminate|].
  injection Hm as <-. apply list_elem_of_here.
Qed.

Lemma isort_head_nonempty (l : list A) :
  l <> [] -> exists m, head (isort le l) = Some m.
Proof.
  destruct l as [|a l]; [congruence|]. intros _. simpl.
  rewrite head_insert_sorted. eauto.
Qed.
End SortingFacts.

(** ** Left merge *)

Section MergeFacts.
Context {L R K : Type} `{EqDecision K}.
Implicit Types (kl : L -> K) (kr : R -> K).

Lemma elem_of_matches kl kr (l : L) (right : list R) (r : R) :
  r ∈ matches kl kr l right <-> kl l = kr r /\ r ∈ right.
Proof. unfold matches. now rewrite list_elem_of_filter. Qed.

Lemma matches_nil kl kr (l : L) (right : list R) :
  matches kl kr l right = [] <-> forall r, r ∈ right -> kl l <> kr r.
Proof.
  split.
  - intros Hnil r Hr Heq.
    assert (Hin : r ∈ matches kl kr l right) by now apply elem_of_matches.
    rewrite Hnil in Hin. now apply elem_of_nil in Hin.
  - intros Hno. destruct (matches kl kr l right) as [|r ms] eqn:Hm; [reflexivity|].
    assert (Hin : r ∈ matches kl kr l right)
      by (rewrite Hm; apply list_elem_of_here).
    apply elem_of_matches in Hin as [Heq Hr]. now destruct (Hno r Hr).
Qed.

Lemma merge_left_bind kl kr (left : list L) (right : list R) :
  merge_left kl kr left right = left ≫= merge_row kl kr right.
Proof. reflexivity. Qed.

Lemma elem_of_merge_row kl kr (right : list R) (l l' : L) (r : option R) :
  (l', r) ∈ merge_row kl kr right l
  <-> l' = l /\ match r with
                | Some x => x ∈ matches kl kr l right
                | None => matches kl kr l right = []
                end.
Proof.
  unfold merge_row. destruct (matches kl kr l right) as [|m ms] eqn:Hm.
  - rewrite list_elem_of_singleton. split.
    + intros [= -> ->]. tauto.
    + intros [-> Hr]. destruct r as [x|]; [now apply elem_of_nil in Hr|reflexivity].
  - rewrite list_elem_of_fmap. split.
    + intros (x & [= -> ->] & Hx). tauto.
    + intros [-> Hr]. destruct r as [x|]; [|discriminate]. eauto.
Qed.

(** Every left row survives a left merge, with a matching right row or
    with nothing. *)
Lemma elem_of_merge_left kl kr (left : list L) (right : list R)
    (l : L) (r : option R) :
  (l, r) ∈ merge_left kl kr left right
  <-> l ∈ left /\ match r with
                  | Some x => kl l = kr x /\ x ∈ right
                  | None => forall x, x ∈ right -> kl l <> kr x
                  end.
Proof.
  rewrite merge_left_bind, list_elem_of_bind.
  setoid_rewrite elem_of_merge_row.
  destruct r as [x|].
  - rewrite <- elem_of_matches. split.
    + intros (l0 & [-> Hx] & Hl). tauto.
    + intros [Hl Hx]. eauto.
  - rewrite <- matches_nil. split.
    + intros (l0 & [-> Hx] & Hl). tauto.
    + intros [Hl Hx]. eauto.
Qed.

Lemma matches_unique kl kr (l : L) (right : list R) :
  NoDup (kr <$> right) -> (length (matches kl kr l right) <= 1)%nat.
Proof.
  unfold matches. induction right as [|r right IH]; intros Hnd; [simpl; lia|].
  rewrite fmap_cons in Hnd. apply NoDup_cons in Hnd as [Hr Hnd].
  rewrite filter_cons. destruct (decide (kl l = kr r)) as [Heq|Hne].
  - assert (Hnil : matches kl kr l right = []).
    { apply matches_nil. intros x Hx Hlx. apply Hr.
      rewrite <- Heq, Hlx. now apply list_elem_of_fmap_2. }
    unfold matches in Hnil. rewrite Hnil. simpl. lia.
  - now apply IH.
Qed.

(** With unique right keys a left merge neither drops nor repeats a left
    row. *)
Lemma merge_left_unique kl kr (left : list L) (right : list R) :
  NoDup (kr <$> right) ->
  merge_left kl kr left right
  = (fun l => (l, head (matches kl kr l right))) <$> left.
Proof.
  intros Hnd. rewrite merge_left_bind.
  induction left as [|l left IH]; [reflexivity|].
  rewrite bind_cons, fmap_cons, IH. f_equal.
  unfold merge_row. pose proof (matches_unique kl kr l right Hnd) as Hlen.
  destruct (matches kl kr l right) as [|m [|m' ms]]; simpl in *;
    [reflexivity|reflexivity|lia].
Qed.

Lemma merge_left_fst kl kr (left : list L) (right : list R) :
  NoDup (kr <$> right) -> fst <$> merge_left kl kr left right = left.
Proof.
  intros Hnd. rewrite merge_left_unique by assumption.
  rewrite <- list_fmap_compose. apply list_fmap_id.
Qed.
End MergeFacts.

(** ** Group-by *)

Section GroupbyFacts.
Context {R K : Type} `{EqDecision K}.
Variable le : K -> K -> bool.
Variable key : R -> option K.

Lemma elem_of_group (rows : list R) (k : K) (r : R) :
  r ∈ group key rows k <-> key r = Some k /\ r ∈ rows.
Proof. unfold group. now rewrite list_elem_of_filter. Qed.

Lemma elem_of_group_keys (rows : list R) (k : K) :
  k ∈ group_keys le key rows <-> exists r, r ∈ rows /\ key r = Some k.
Proof.
  unfold group_keys.
  now rewrite elem_of_isort, elem_of_remove_dups, list_elem_of_omap.
Qed.

Lemma NoDup_group_keys (rows : list R) : NoDup (group_keys le key rows).
Proof. apply NoDup_isort, NoDup_remove_dups. Qed.

Lemma group_keys_nonempty (rows : list R) (k : K) :
  k ∈ group_keys le key rows <-> group key rows k <> [].
Proof.
  rewrite elem_of_group_keys. split.
  - intros (r & Hr & Hk) Hnil.
    assert (Hin : r ∈ group key rows k) by now apply elem_of_group.
    rewrite Hnil in Hin. now apply elem_of_nil in Hin.
  - intros Hne. destruct (group key rows k) as [|r g] eqn:Hg; [congruence|].
    assert (Hin : r ∈ group key rows k) by (rewrite Hg; apply list_elem_of_here).
    apply elem_of_group in Hin as [Hk Hr]. eauto.
Qed.

Lemma groupby_keys (rows : list R) :
  fst <$> groupby le key rows = group_keys le key rows.
Proof.
  unfold groupby. rewrite <- list_fmap_compose. apply list_fmap_id.
Qed.

(** A per-group reduction [f], as in [groupby(...).agg(f).reset_index()]. *)
Lemma elem_of_agg {V : Type} (f : list R -> V) (rows : list R) (k : K) (v : V) :
  (k, v) ∈ (fun '(k, g) => (k, f g)) <$> groupby le key rows
  <-> group key rows k <> [] /\ v = f (group key rows k).
Proof.
  unfold groupby. rewrite <- list_fmap_compose, list_elem_of_fmap.
  rewrite <- group_keys_nonempty. simpl. split.
  - intros (k' & [= -> ->] & Hk). tauto.
  - intros [Hk ->]. eauto.
Qed.

Lemma agg_keys {V : Type} (f : list R -> V) (rows : list R) :
  fst <$> ((fun '(k, g) => (k, f g)) <$> groupby le key rows)
  = group_keys le key rows.
Proof.
  unfold groupby. rewrite <- !list_fmap_compose. exact (list_fmap_id _).
Qed.

Lemma NoDup_agg_keys {V : Type} (f : list R -> V) (rows : list R) :
  NoDup ((fun kv : K * V => Some (fst kv))
           <$> ((fun '(k, g) => (k, f g)) <$> groupby le key rows)).
Proof.
  change (fun kv : K * V => Some (fst kv)) with (Some ∘ @fst K V).
  rewrite (list_fmap_compose fst Some), agg_keys.
  apply (NoDup_fmap_2 Some), NoDup_group_keys.
Qed.
End GroupbyFacts.

(** ** An aggregate joined back on its key *)

Section AggregateLookup.
Context {R K V : Type} `{EqDecision K}.
Variable le : K -> K -> bool.
Variable key : R -> option K.
Variable f : list R -> V.

(** The right-hand side of a left merge with an aggregate is the
    aggregate's value for the left key. *)
Lemma merge_agg_spec (rows : list R) (k : option K) (x : option (K * V)) :
  match x with
  | Some y => k = agg_key y
              /\ y ∈ (fun '(k, g) => (k, f g)) <$> groupby le key rows
  | None => forall y, y ∈ (fun '(k, g) => (k, f g)) <$> groupby le key rows ->
                      k <> agg_key y
  end ->
  snd <$> x = lookup_agg key f rows k.
Proof.
  unfold lookup_agg, agg_key. destruct x as [[k' v]|]; simpl.
  - intros [-> Hin]. apply elem_of_agg in Hin as [Hne ->]. simpl.
    destruct (group key rows k'); [congruence|reflexivity].
  - intros Hno. destruct k as [k|]; simpl; [|reflexivity].
    destruct (group key rows k) as [|r g] eqn:Hg; [reflexivity|].
    destruct (Hno (k, f (r :: g))); [|reflexivity].
    apply elem_of_agg. rewrite Hg. split; [discriminate|reflexivity].
Qed.
End AggregateLookup.

(** ** The mode *)

Lemma elem_of_omap_id {A : Type} (x : A) (l : list (option A)) :
  x ∈ omap id l <-> Some x ∈ l.
Proof.
  rewrite list_elem_of_omap. split.
  - intros (o & Ho & Hx). simpl in Hx. now subst o.
  - intros Hx. now exists (Some x).
Qed.

Lemma count_occ_str_le_max (w : string) (l : list string) :
  (count_occ_str w l <= max_count l)%nat.
Proof.
  destruct (decide (w ∈ l)) as [Hw|Hw].
  - apply max_list_elem_of_le.
    now apply (list_elem_of_fmap_2 (fun v => count_occ_str v l) l w).
  - unfold count_occ_str.
    replace (filter (eq w) l) with (@nil string); [simpl; lia|].
    symmetry. destruct (filter (eq w) l) as [|x f] eqn:Hf; [reflexivity|].
    assert (Hx : x ∈ filter (eq w) l) by (rewrite Hf; apply list_elem_of_here).
    apply list_elem_of_filter in Hx as [<- Hx]. contradiction.
Qed.

Lemma max_count_attained (l : list string) :
  l <> [] -> exists v, v ∈ l /\ count_occ_str v l = max_count l.
Proof.
  intros Hne.
  assert (Hin : max_count l ∈ (fun v => count_occ_str v l) <$> l).
  { apply max_list_elem_of. intros Hnil. now apply fmap_nil_inv in Hnil. }
  apply list_elem_of_fmap in Hin as (v & Hv & Hl). eauto.
Qed.

Lemma most_frequent_max (v : string) (series : list (option string)) :
  most_frequent v series
  <-> v ∈ omap id series
      /\ count_occ_str v (omap id series) = max_count (omap id series).
Proof.
  unfold most_frequent. rewrite <- elem_of_omap_id. split.
  - intros [Hv Hmax]. split; [assumption|].
    apply Nat.le_antisymm; [apply count_occ_str_le_max|].
    destruct (max_count_attained (omap id series)) as (w & _ & <-); [|apply Hmax].
    intros Hnil. rewrite Hnil in Hv. now apply elem_of_nil in Hv.
  - intros [Hv Heq]. split; [assumption|].
    intros w. rewrite Heq. apply count_occ_str_le_max.
Qed.

Lemma elem_of_mode (v : string) (series : list (option string)) :
  v ∈ mode series <-> most_frequent v series.
Proof.
  unfold mode. rewrite elem_of_isort, list_elem_of_filter, elem_of_remove_dups.
  rewrite most_frequent_max. tauto.
Qed.

(** The aggregation lambda returns a most frequent value, and of several
    tied values the one that sorts first. *)
Lemma mode_or_first_least (series : list (option string)) (v : string) :
  most_frequent v series ->
  exists m, _mode_or_first series = Some m
            /\ most_frequent m series
            /\ String.leb m v = true.
Proof.
  intros Hv. unfold _mode_or_first.
  destruct (head (mode series)) as [m|] eqn:Hm.
  - exists m. split; [reflexivity|]. split.
    + apply elem_of_mode. now apply head_Some_elem_of.
    + unfold mode in Hm.
      eapply (isort_head_least String.leb string_leb_refl String.leb_total
                string_leb_trans); [exact Hm|].
      apply elem_of_mode in Hv. unfold mode in Hv.
      now apply elem_of_isort in Hv.
  - apply head_None in Hm. apply elem_of_mode in Hv.
    rewrite Hm in Hv. now apply elem_of_nil in Hv.
Qed.

Lemma mode_or_first_None (series : list (option string)) :
  _mode_or_first series = None <-> forall v, Some v ∉ series.
Proof.
  unfold _mode_or_first. rewrite head_None. split.
  - intros Hnil v Hv.
    destruct (max_count_attained (omap id series)) as (w & Hw & Hmax).
    { intros H0. apply elem_of_omap_id in Hv. rewrite H0 in Hv.
      now apply elem_of_nil in Hv. }
    assert (Hin : w ∈ mode series)
      by (apply elem_of_mode, most_frequent_max; tauto).
    rewrite Hnil in Hin. now apply elem_of_nil in Hin.
  - intros Hno. destruct (mode series) as [|m ms] eqn:Hm; [reflexivity|].
    assert (Hin : m ∈ mode series) by (rewrite Hm; apply list_elem_of_here).
    apply elem_of_mode in Hin as [Hin _]. now destruct (Hno m).
Qed.

(** ** The rows of the fact table *)

Section TransformFacts.
Variable to_datetime : list Cell -> Cell -> option Z.

Lemma elem_of_with_dates (t : Tables) o c g d :
  (o, c, g, d) ∈ with_dates to_datetime t ->
  (o, c, g) ∈ orders_customers_geo t.
Proof.
  unfold with_dates. rewrite list_elem_of_fmap.
  intros (r & Heq & Hr). injection Heq as Heq _. now subst r.
Qed.

Lemma elem_of_orders_customers_geo (t : Tables) o c g :
  (o, c, g) ∈ orders_customers_geo t ->
  (o, c) ∈ orders_customers t
  /\ snd <$> g
     = lookup_agg Geolocation.geolocation_zip_code_prefix
         (fun g => (agg_mean (Geolocation.geolocation_lat <$> g),
                    agg_mean (Geolocation.geolocation_lng <$> g)))
         (geolocation t) (zip_of (o, c)).
Proof.
  unfold orders_customers_geo. rewrite elem_of_merge_left.
  intros [Hoc Hg]. split; [assumption|].
  now apply (merge_agg_spec Z.leb).
Qed.

Lemma elem_of_orders_customers (t : Tables) o c :
  (o, c) ∈ orders_customers t ->
  o ∈ orders t
  /\ match c with
     | Some x => Orders.customer_id o = Customers.customer_id x /\ x ∈ customers t
     | None => forall x, x ∈ customers t ->
                         Orders.customer_id o <> Customers.customer_id x
     end.
Proof. unfold orders_customers. now rewrite elem_of_merge_left. Qed.

(** What a row of the join chain holds, aggregate by aggregate. *)
Lemma elem_of_joined (t : Tables) o c g d pm pt fr cat :
  (o, c, g, d, pm, pt, fr, cat) ∈ joined to_datetime t ->
  (o, c, g, d) ∈ with_dates to_datetime t
  /\ snd <$> pm
     = lookup_agg OrderPayments.order_id
         (fun g => _mode_or_first (OrderPayments.payment_type <$> g))
         (order_payments t) (Orders.order_id o)
  /\ snd <$> pt
     = lookup_agg OrderPayments.order_id
         (fun g => agg_sum (OrderPayments.payment_value <$> g))
         (order_payments t) (Orders.order_id o)
  /\ snd <$> fr
     = lookup_agg item_order_id
         (fun g => agg_sum ((fun r => OrderItems.freight_value (fst (fst r))) <$> g))
         (items_with_product t) (Orders.order_id o)
  /\ snd <$> cat
     = lookup_agg item_order_id
         (fun g => _mode_or_first (english_filled <$> g))
         (items_with_product t) (Orders.order_id o).
Proof.
  unfold joined. rewrite !elem_of_merge_left. simpl.
  intros ((((Hd & Hpm) & Hpt) & Hfr) & Hcat).
  split; [assumption|].
  repeat split; now apply (merge_agg_spec String.leb).
Qed.

Lemma fst_with_dates (t : Tables) :
  fst <$> with_dates to_datetime t = orders_customers_geo t.
Proof.
  unfold with_dates. rewrite <- list_fmap_compose. exact (list_fmap_id _).
Qed.

(** The aggregates have one row per key, so the join chain after the
    customers keeps the rows of [orders.merge(customers)] one for one. *)
Lemma joined_orders_customers (t : Tables) :
  fst <$> (fst <$> (fst <$> (fst <$> (fst <$> (fst <$> joined to_datetime t)))))
  = orders_customers t.
Proof.
  unfold joined.
  rewrite merge_left_fst by apply (NoDup_agg_keys String.leb).
  rewrite merge_left_fst by apply (NoDup_agg_keys String.leb).
  rewrite merge_left_fst by apply (NoDup_agg_keys String.leb).
  rewrite merge_left_fst by apply (NoDup_agg_keys String.leb).
  rewrite fst_with_dates. unfold orders_customers_geo.
  now rewrite merge_left_fst by apply (NoDup_agg_keys Z.leb).
Qed.

(** With unique customer ids the chain keeps the orders one for one. *)
Lemma joined_orders (t : Tables) :
  NoDup (Customers.customer_id <$> customers t) ->
  order_of <$> joined to_datetime t = orders t.
Proof.
  intros Hnd.
  transitivity (fst <$> orders_customers t);
    [|now apply merge_left_fst].
  rewrite <- joined_orders_customers, <- !list_fmap_compose. reflexivity.
Qed.

Lemma fact_row_order (r : JoinedRow) :
  Fact.order_id (fact_row r) = Orders.order_id (order_of r)
  /\ Fact.order_status (fact_row r) = Orders.order_status (order_of r).
Proof. now destruct r as [[[[[[[o c] g] [d e]] pm] pt] fr] cat]. Qed.

Lemma build_fact_table_order_ids (t : Tables) :
  NoDup (Customers.customer_id <$> customers t) ->
  Fact.order_id <$> build_fact_table to_datetime t
  = Orders.order_id <$> orders t.
Proof.
  intros Hnd. unfold build_fact_table.
  rewrite <- (joined_orders t Hnd), <- !list_fmap_compose.
  apply list_fmap_ext. intros i r _. apply fact_row_order.
Qed.

Lemma lookup_mode {R : Type} (key : R -> option string)
    (proj : R -> option string) (rows : list R)
    (x : option (string * option string)) (k : option string) :
  snd <$> x = lookup_agg key (fun g => _mode_or_first (proj <$> g)) rows k ->
  x ≫= snd = k ≫= (fun k => _mode_or_first (proj <$> group key rows k)).
Proof.
  unfold lookup_agg.
  destruct x as [[k' v]|], k as [k|]; simpl; try discriminate;
    try reflexivity; destruct (group key rows k) as [|r g];
    intros Heq; try discriminate; [now injection Heq|reflexivity].
Qed.

(** Every field of a fact row that comes from an aggregate or from the
    delay computation, in terms of the row's own key fields. *)
Lemma fact_row_spec (t : Tables) (f : Fact.row) :
  f ∈ build_fact_table to_datetime t ->
  (exists o, o ∈ orders t /\ Fact.order_id f = Orders.order_id o
             /\ Fact.order_status f = Orders.order_status o)
  /\ Fact.payment_type_mode f
     = Fact.order_id f ≫= (fun k => _mode_or_first (payment_types_of t k))
  /\ Fact.payment_value_sum f
     = lookup_agg OrderPayments.order_id
         (fun g => agg_sum (OrderPayments.payment_value <$> g))
         (order_payments t) (Fact.order_id f)
  /\ Fact.freight_value_sum f
     = lookup_agg item_order_id
         (fun g => agg_sum ((fun r => OrderItems.freight_value (fst (fst r))) <$> g))
         (items_with_product t) (Fact.order_id f)
  /\ Fact.product_category_mode f
     = Fact.order_id f ≫= (fun k => _mode_or_first (category_values_of t k))
  /\ (Fact.mean_lat f, Fact.mean_lng f)
     = match lookup_agg Geolocation.geolocation_zip_code_prefix
               (fun g => (agg_mean (Geolocation.geolocation_lat <$> g),
                          agg_mean (Geolocation.geolocation_lng <$> g)))
               (geolocation t) (Fact.customer_zip_code_prefix f) with
       | Some p => p
       | None => (None, None)
       end
  /\ Fact.delay_days f
     = (if is_delivered_status (Fact.order_status f)
        then timedelta_days (Fact.order_delivered_customer_date f)
               (Fact.order_estimated_delivery_date f)
        else None)
  /\ Fact.on_time f
     = (if is_delivered_status (Fact.order_status f)
        then Some (le_zero (Fact.delay_days f)) else None).
Proof.
  unfold build_fact_table. rewrite list_elem_of_fmap.
  intros (r & -> & Hr).
  destruct r as [[[[[[[o c] g] [d e]] pm] pt] fr] cat].
  apply elem_of_joined in Hr as (Hd & Hpm & Hpt & Hfr & Hcat).
  apply elem_of_with_dates, elem_of_orders_customers_geo in Hd as [Hoc Hg].
  apply elem_of_orders_customers in Hoc as [Ho Hc].
  unfold fact_row, is_delivered_status. simpl. repeat split.
  - eauto.
  - now apply lookup_mode.
  - now destruct pt.
  - now destruct fr.
  - now apply lookup_mode.
  - unfold zip_of in Hg. simpl in Hg. rewrite <- Hg.
    now destruct g as [[k [la ln]]|].
Qed.
End TransformFacts.

(** ** Groups without rows, and rows a merge keeps *)

Lemma group_nil {R K : Type} `{EqDecision K} (key : R -> option K)
    (rows : list R) (k : K) :
  (forall r, r ∈ rows -> key r <> Some k) -> group key rows k = [].
Proof.
  intros Hno. destruct (group key rows k) as [|r g] eqn:Hg; [reflexivity|].
  assert (Hin : r ∈ group key rows k) by (rewrite Hg; apply list_elem_of_here).
  apply elem_of_group in Hin as [Hk Hr]. now destruct (Hno r Hr).
Qed.

Lemma lookup_agg_nil {R K V : Type} `{EqDecision K} (key : R -> option K)
    (f : list R -> V) (rows : list R) (k : option K) :
  (forall r, r ∈ rows -> key r <> k) -> lookup_agg key f rows k = None.
Proof.
  intros Hno. destruct k as [k|]; [|reflexivity].
  unfold lookup_agg. simpl. now rewrite group_nil.
Qed.

Lemma merge_left_covers {L R K : Type} `{EqDecision K}
    (kl : L -> K) (kr : R -> K) (left : list L) (right : list R) (l : L) :
  l ∈ left -> exists r, (l, r) ∈ merge_left kl kr left right.
Proof.
  intros Hl. destruct (matches kl kr l right) as [|x ms] eqn:Hm.
  - exists None. apply elem_of_merge_left. split; [assumption|].
    now apply matches_nil.
  - exists (Some x). apply elem_of_merge_left. split; [assumption|].
    apply elem_of_matches. rewrite Hm. apply list_elem_of_here.
Qed.

(** The joined item rows are the item rows, possibly repeated. *)
Lemma elem_of_items_with_product (t : Tables) r :
  r ∈ items_with_product t -> fst (fst r) ∈ order_items t.
Proof.
  destruct r as [[i p] tr]. unfold items_with_product.
  rewrite !elem_of_merge_left. simpl. tauto.
Qed.

Lemma items_with_product_covers (t : Tables) (i : OrderItems.row) :
  i ∈ order_items t -> exists r, r ∈ items_with_product t /\ fst (fst r) = i.
Proof.
  intros Hi. unfold items_with_product.
  destruct (merge_left_covers OrderItems.product_id Products.product_id
              (order_items t) (products t) i Hi) as [p Hp].
  destruct (merge_left_covers category_of Translation.product_category_name
              _ (product_category_translation t) (i, p) Hp) as [tr Htr].
  now exists (i, p, tr).
Qed.

(** ** The fact table: rows, missing data, delay and punctuality *)

Section FactTable.
Variable to_datetime : list Cell -> Cell -> option Z.

(** A row whose order has no payment rows, no item rows, or no
    geolocation sample for its postal prefix holds nulls there. *)
Lemma fact_row_missing (t : Tables) (f : Fact.row) :
  f ∈ build_fact_table to_datetime t ->
  ((forall p, p ∈ order_payments t ->
              OrderPayments.order_id p <> Fact.order_id f) ->
   Fact.payment_type_mode f = None /\ Fact.payment_value_sum f = None)
  /\ ((forall i, i ∈ order_items t ->
                 OrderItems.order_id i <> Fact.order_id f) ->
      Fact.freight_value_sum f = None /\ Fact.product_category_mode f = None)
  /\ ((forall s, s ∈ geolocation t ->
                 Geolocation.geolocation_zip_code_prefix s
                 <> Fact.customer_zip_code_prefix f) ->
      Fact.mean_lat f = None /\ Fact.mean_lng f = None).
Proof.
  intros Hf.
  destruct (fact_row_spec to_datetime t f Hf)
    as (_ & Hpm & Hpt & Hfr & Hcat & Hgeo & _).
  split; [|split].
  - intros Hno. rewrite Hpm, Hpt. split; [|now apply lookup_agg_nil].
    destruct (Fact.order_id f) as [k|]; [|reflexivity]. simpl.
    unfold payment_types_of. now rewrite group_nil.
  - intros Hno.
    assert (Hno' : forall r, r ∈ items_with_product t ->
                             item_order_id r <> Fact.order_id f).
    { intros r Hr. apply Hno. now apply elem_of_items_with_product. }
    rewrite Hfr, Hcat. split; [now apply lookup_agg_nil|].
    destruct (Fact.order_id f) as [k|]; [|reflexivity]. simpl.
    unfold category_values_of. now rewrite group_nil.
  - intros Hno. rewrite lookup_agg_nil in Hgeo by assumption.
    now injection Hgeo.
Qed.

(** Every order of the orders table has a row in the fact table, whatever
    the other tables hold. *)
Lemma build_fact_table_covers (t : Tables) (o : Orders.row) :
  o ∈ orders t ->
  exists f, f ∈ build_fact_table to_datetime t
            /\ Fact.order_id f = Orders.order_id o.
Proof.
  intros Ho.
  destruct (merge_left_covers Orders.customer_id Customers.customer_id
              (orders t) (customers t) o Ho) as [c Hc].
  fold (orders_customers t) in Hc.
  rewrite <- (joined_orders_customers to_datetime t) in Hc.
  rewrite <- !list_fmap_compose in Hc.
  apply list_elem_of_fmap in Hc as (r & Hr & Hin).
  exists (fact_row r). split.
  - unfold build_fact_table. now apply list_elem_of_fmap_2.
  - destruct (fact_row_order r) as [-> _]. unfold order_of.
    simpl in Hr. now rewrite <- Hr.
Qed.

(** C1, amended: when customer ids are unique in the customers table and
    order ids are unique in the orders table, the fact table has exactly
    one row per order id of the orders table, in the order of that table,
    and no order id twice; and whatever the tables hold, every order of
    the orders table has a row in the fact table, and a row whose
    payments, items or geolocation samples are missing holds nulls in the
    corresponding fields. *)
Theorem build_fact_orders_one_row_per_order (t : Tables) :
  (NoDup (Customers.customer_id <$> customers t) ->
   NoDup (Orders.order_id <$> orders t) ->
   one_row_per_order_id t (build_fact_table to_datetime t)
   /\ Fact.order_id <$> build_fact_table to_datetime t
      = Orders.order_id <$> orders t)
  /\ (forall o, o ∈ orders t ->
        exists f, f ∈ build_fact_table to_datetime t
                  /\ Fact.order_id f = Orders.order_id o)
  /\ Forall
       (fun f =>
          ((forall p, p ∈ order_payments t ->
                      OrderPayments.order_id p <> Fact.order_id f) ->
           Fact.payment_type_mode f = None /\ Fact.payment_value_sum f = None)
          /\ ((forall i, i ∈ order_items t ->
                         OrderItems.order_id i <> Fact.order_id f) ->
              Fact.freight_value_sum f = None
              /\ Fact.product_category_mode f = None)
          /\ ((forall s, s ∈ geolocation t ->
                         Geolocation.geolocation_zip_code_prefix s
                         <> Fact.customer_zip_code_prefix f) ->
              Fact.mean_lat f = None /\ Fact.mean_lng f = None))
       (build_fact_table to_datetime t).
Proof.
  split; [|split].
  - intros Hc Ho.
    pose proof (build_fact_table_order_ids to_datetime t Hc) as Hids.
    split; [|exact Hids].
    unfold one_row_per_order_id. now rewrite Hids.
  - apply build_fact_table_covers.
  - apply Forall_forall. intros f Hf. now apply fact_row_missing.
Qed.
End FactTable.

(** The example tables have unique customer and order ids. *)
Lemma build_fact_orders_one_row_per_order_witness :
  one_row_per_order_id example_tables
    (build_fact_table to_datetime_iso example_tables)
  /\ Fact.order_id <$> build_fact_table to_datetime_iso example_tables
     = [Some "o1"; Some "o2"; Some "o3"].
Proof.
  destruct (build_fact_orders_one_row_per_order to_datetime_iso example_tables)
    as (Hone & _ & _).
  apply Hone; compute_done.
Defined.

(** With the customer of [o1] listed twice every order still has a row,
    and the fields of missing payments, items or geolocation samples are
    null: [o1] has no payment, [o2] no item and no sample, [o3] nothing. *)
Example duplicate_customer_rows_and_nulls :
  (fun f => (Fact.order_id f, Fact.payment_type_mode f, Fact.payment_value_sum f,
             Fact.freight_value_sum f, Fact.product_category_mode f,
             Fact.mean_lat f))
    <$> build_fact_table to_datetime_iso duplicate_customer_tables
  = [ (Some "o1", None, None, Some (19 # 1), Some "pc_gamer", Some (-47 # 2));
      (Some "o1", None, None, Some (19 # 1), Some "pc_gamer", Some (-47 # 2));
      (Some "o2", Some "boleto", Some (80 # 1), None, None, None);
      (Some "o3", None, None, None, None, None) ].
Proof. vm_compute. reflexivity. Qed.

(** C1 as stated fails: the orders table holds the orders [o1], [o2] and
    [o3] once each, the customers table lists the customer of [o1] twice,
    and the fact table has two rows for [o1]. *)
Lemma build_fact_orders_duplicate_customer :
  Orders.order_id <$> orders duplicate_customer_tables
  = [Some "o1"; Some "o2"; Some "o3"]
  /\ Fact.order_id <$> build_fact_table to_datetime_iso duplicate_customer_tables
     = [Some "o1"; Some "o1"; Some "o2"; Some "o3"]
  /\ ~ one_row_per_order_id duplicate_customer_tables
         (build_fact_table to_datetime_iso duplicate_customer_tables).
Proof.
  split; [reflexivity|]. split; [reflexivity|].
  intros [Hnd _].
  change (NoDup [Some "o1"; Some "o1"; Some "o2"; Some "o3"]) in Hnd.
  apply NoDup_cons in Hnd as [Hnotin _]. apply Hnotin, list_elem_of_here.
Qed.

(** An order id listed twice in the orders table is also twice in the fact
    table: nothing in the build removes repeated orders. *)
Example duplicate_order_rows_survive :
  Fact.order_id <$> build_fact_table to_datetime_iso duplicate_order_tables
  = [Some "o1"; Some "o1"; Some "o2"; Some "o3"].
Proof. reflexivity. Qed.

Section DelayAndPunctuality.
Variable to_datetime : list Cell -> Cell -> option Z.

(** C2, amended: in the fact table [on_time] is non-null if and only if
    [order_status] is ["delivered"]; [delay_days] is non-null if and only
    if [order_status] is ["delivered"] and both the delivered and the
    estimated date parsed; for every non-delivered row both fields are
    null, whatever its date fields hold. *)
Theorem delay_and_on_time_status_gated (t : Tables) :
  Forall
    (fun f =>
       (is_Some (Fact.on_time f) <-> Fact.order_status f = Some "delivered")
       /\ (is_Some (Fact.delay_days f)
           <-> Fact.order_status f = Some "delivered"
               /\ is_Some (Fact.order_delivered_customer_date f)
               /\ is_Some (Fact.order_estimated_delivery_date f))
       /\ (Fact.order_status f <> Some "delivered" ->
           Fact.delay_days f = None /\ Fact.on_time f = None))
    (build_fact_table to_datetime t).
Proof.
  apply Forall_forall. intros f Hf.
  destruct (fact_row_spec to_datetime t f Hf) as (_ & _ & _ & _ & _ & _ & Hd & Ho).
  rewrite Hd, Ho. unfold is_delivered_status.
  destruct (Fact.order_delivered_customer_date f) as [d|],
           (Fact.order_estimated_delivery_date f) as [e|];
    case_bool_decide as Hs; simpl; rewrite <- ?not_eq_None_Some, ?is_Some_alt;
    repeat split; intros; try tauto; try congruence; try discriminate;
    intuition (try discriminate; try congruence; eauto).
Qed.

(** C3, amended: for every row of the fact table [on_time] equals
    [delay_days <= 0] whenever [delay_days] is non-null; when
    [delay_days] is null, [on_time] is null on a non-delivered row and
    [False] on a delivered row (one whose delivered or estimated date did
    not parse). *)
Theorem on_time_follows_delay (t : Tables) :
  Forall
    (fun f =>
       match Fact.delay_days f with
       | Some d => Fact.on_time f = Some (d <=? 0)%Z
       | None =>
           Fact.on_time f
           = if is_delivered_status (Fact.order_status f)
             then Some false else None
       end)
    (build_fact_table to_datetime t).
Proof.
  apply Forall_forall. intros f Hf.
  destruct (fact_row_spec to_datetime t f Hf) as (_ & _ & _ & _ & _ & _ & Hd & Ho).
  rewrite Ho. destruct (Fact.delay_days f) as [d|] eqn:Hdelay; simpl.
  - destruct (is_delivered_status (Fact.order_status f)); [reflexivity|].
    discriminate.
  - reflexivity.
Qed.
End DelayAndPunctuality.

(** C2 as stated fails: order [o2] is delivered, its delivery date is
    missing, and its [delay_days] is null. *)
Lemma delivered_without_date_has_null_delay :
  (fun f => (Fact.order_id f, Fact.order_status f, Fact.delay_days f, Fact.on_time f))
    <$> build_fact_table to_datetime_iso example_tables
  = [ (Some "o1", Some "delivered", Some (-2)%Z, Some true);
      (Some "o2", Some "delivered", None, Some false);
      (Some "o3", Some "shipped", None, None) ]
  /\ ~ Forall
         (fun f =>
            (is_Some (Fact.delay_days f) <-> Fact.order_status f = Some "delivered")
            /\ (is_Some (Fact.on_time f) <-> Fact.order_status f = Some "delivered"))
         (build_fact_table to_datetime_iso example_tables).
Proof.
  split; [reflexivity|].
  intros Hall.
  eapply (Forall_lookup_1 _ _ 1%nat) in Hall; [|vm_compute; reflexivity].
  destruct Hall as [[_ Hd] _].
  destruct Hd as [d Hd]; [reflexivity|discriminate Hd].
Qed.

(** C3 as stated fails: the delivered order [o2] has a null [delay_days]
    (its delivery date is missing) and its [on_time] is [False], not
    null. *)
Lemma delivered_without_date_is_marked_late :
  (fun f => (Fact.order_id f, Fact.delay_days f, Fact.on_time f))
    <$> build_fact_table to_datetime_iso example_tables
  = [ (Some "o1", Some (-2)%Z, Some true);
      (Some "o2", None, Some false);
      (Some "o3", None, None) ]
  /\ ~ Forall
         (fun f =>
            match Fact.delay_days f with
            | Some d => Fact.on_time f = Some (d <=? 0)%Z
            | None => Fact.on_time f = None
            end)
         (build_fact_table to_datetime_iso example_tables).
Proof.
  split; [reflexivity|].
  intros Hall.
  eapply (Forall_lookup_1 _ _ 1%nat) in Hall; [|vm_compute; reflexivity].
  discriminate Hall.
Qed.

(** ** The category of an order *)

Lemma filter_fmap {A B : Type} (f : A -> B) (P : B -> Prop)
    `{!forall y, Decision (P y)} (l : list A) :
  filter P (f <$> l) = f <$> filter (fun x => P (f x)) l.
Proof.
  induction l as [|a l IH]; [reflexivity|].
  rewrite fmap_cons, !filter_cons, IH.
  now destruct (decide (P (f a))).
Qed.

(** With unique product ids and unique category names in the translation
    table, the joined item rows of an order are its item rows, one for
    one, and the value each contributes is its [item_category]. *)
Lemma category_values_per_item (t : Tables) (k : string) :
  NoDup (Products.product_id <$> products t) ->
  NoDup (Translation.product_category_name <$> product_category_translation t) ->
  category_values_of t k = item_categories_of t k.
Proof.
  intros Hp Htr. unfold category_values_of, item_categories_of, items_with_product.
  rewrite (merge_left_unique OrderItems.product_id) by assumption.
  rewrite (merge_left_unique category_of) by assumption.
  rewrite <- list_fmap_compose. unfold group.
  rewrite filter_fmap, <- list_fmap_compose. reflexivity.
Qed.

Section CategoryMode.
Variable to_datetime : list Cell -> Cell -> option Z.

(** C8, amended: provided product ids are unique in the products table
    and category names are unique in the translation table, for every
    row of the fact table [product_category_mode] is the mode over the
    category values of the order's item rows, where an item whose
    category has no English translation contributes its original
    category name, the substitution being made item by item before the
    mode is taken; and, whatever the tables hold, a row whose order has
    no item row has a null [product_category_mode], and every order of
    the orders table has a row in the fact table. *)
Theorem product_category_mode_per_item (t : Tables) :
  (NoDup (Products.product_id <$> products t) ->
   NoDup (Translation.product_category_name <$> product_category_translation t) ->
   Forall
     (fun f =>
        Fact.product_category_mode f
        = Fact.order_id f
            ≫= (fun k => _mode_or_first (item_categories_of t k)))
     (build_fact_table to_datetime t))
  /\ Forall
       (fun f =>
          (forall i, i ∈ order_items t ->
                     OrderItems.order_id i <> Fact.order_id f) ->
          Fact.product_category_mode f = None)
       (build_fact_table to_datetime t)
  /\ (forall o, o ∈ orders t ->
        exists f, f ∈ build_fact_table to_datetime t
                  /\ Fact.order_id f = Orders.order_id o).
Proof.
  split; [|split].
  - intros Hp Htr. apply Forall_forall. intros f Hf.
    destruct (fact_row_spec to_datetime t f Hf) as (_ & _ & _ & _ & Hcat & _).
    rewrite Hcat. destruct (Fact.order_id f) as [k|]; [simpl|reflexivity].
    now rewrite category_values_per_item.
  - apply Forall_forall. intros f Hf Hno.
    now apply (fact_row_missing to_datetime t f Hf).
  - apply build_fact_table_covers.
Qed.
End CategoryMode.

(** The example tables have unique product ids and category names. *)
Lemma product_category_mode_per_item_witness :
  Forall
    (fun f =>
       Fact.product_category_mode f
       = Fact.order_id f
           ≫= (fun k => _mode_or_first (item_categories_of example_tables k)))
    (build_fact_table to_datetime_iso example_tables).
Proof.
  destruct (product_category_mode_per_item to_datetime_iso example_tables)
    as (Hmode & _ & _).
  apply Hmode; compute_done.
Defined.

(** C8 as stated fails: order [o1] has three items, of category values
    [health_beauty], [pc_gamer] and [pc_gamer]; the products table lists
    the first product three times, the join repeats that item three times,
    and the mode becomes [health_beauty]. *)
Lemma repeated_product_changes_category_mode :
  item_categories_of duplicate_product_tables "o1"
  = [Some "health_beauty"; Some "pc_gamer"; Some "pc_gamer"]
  /\ _mode_or_first (item_categories_of duplicate_product_tables "o1")
     = Some "pc_gamer"
  /\ category_values_of duplicate_product_tables "o1"
     = [Some "health_beauty"; Some "health_beauty"; Some "health_beauty";
        Some "pc_gamer"; Some "pc_gamer"]
  /\ (fun f => (Fact.order_id f, Fact.product_category_mode f))
       <$> build_fact_table to_datetime_iso duplicate_product_tables
     = [ (Some "o1", Some "health_beauty"); (Some "o2", None); (Some "o3", None) ]
  /\ ~ Forall
         (fun f =>
            Fact.product_category_mode f
            = Fact.order_id f
                ≫= (fun k =>
                      _mode_or_first (item_categories_of duplicate_product_tables k)))
         (build_fact_table to_datetime_iso duplicate_product_tables).
Proof.
  split; [reflexivity|]. split; [reflexivity|]. split; [reflexivity|].
  split; [reflexivity|].
  intros Hall.
  eapply (Forall_lookup_1 _ _ 0%nat) in Hall; [|vm_compute; reflexivity].
  vm_compute in Hall. discriminate Hall.
Qed.

(** A category listed twice in the translation table repeats the items of
    that category in the same way. *)
Example repeated_translation_changes_category_mode :
  category_values_of duplicate_translation_tables "o1"
  = [Some "health_beauty"; Some "health_beauty"; Some "pc_gamer"; Some "pc_gamer"]
  /\ (fun f => (Fact.order_id f, Fact.product_category_mode f))
       <$> build_fact_table to_datetime_iso duplicate_translation_tables
     = [ (Some "o1", Some "health_beauty"); (Some "o2", None); (Some "o3", None) ]
  /\ _mode_or_first (item_categories_of duplicate_translation_tables "o1")
     = Some "pc_gamer".
Proof. repeat split. Qed.

(** In the example tables the translated item and the two untranslated
    items of [o1] give the mode [pc_gamer]: the original name stands in
    item by item (a fallback applied to the mode of the English names
    would have answered [health_beauty]). *)
Example per_item_substitution_before_mode :
  (fun f => (Fact.order_id f, Fact.product_category_mode f))
    <$> build_fact_table to_datetime_iso example_tables
  = [(Some "o1", Some "pc_gamer"); (Some "o2", None); (Some "o3", None)].
Proof. reflexivity. Qed.

(** ** Loading, and what the build depends on *)

Lemma elem_of_REQUIRED_CSVS (name : string) :
  name ∈ REQUIRED_CSVS
  <-> name = "olist_orders_dataset.csv"
      \/ name = "olist_customers_dataset.csv"
      \/ name = "olist_order_items_dataset.csv"
      \/ name = "olist_order_payments_dataset.csv"
      \/ name = "olist_products_dataset.csv"
      \/ name = "product_category_name_translation.csv"
      \/ name = "olist_geolocation_dataset.csv".
Proof.
  unfold REQUIRED_CSVS. rewrite !elem_of_cons, elem_of_nil. tauto.
Qed.

Lemma load_required_from_raw_frame (fs fs' : FileSystem) (raw_dir : string) :
  (forall name, name ∈ REQUIRED_CSVS ->
                fs !! path_join raw_dir name = fs' !! path_join raw_dir name) ->
  load_required_from_raw fs raw_dir = load_required_from_raw fs' raw_dir.
Proof.
  intros Hsame.
  assert (Hload : forall name, name ∈ REQUIRED_CSVS ->
            load_csv_from_raw fs raw_dir name = load_csv_from_raw fs' raw_dir name).
  { intros name Hname. unfold load_csv_from_raw, read_csv.
    now rewrite (Hsame name Hname). }
  unfold load_required_from_raw.
  rewrite !Hload by (apply elem_of_REQUIRED_CSVS; tauto).
  reflexivity.
Qed.

Example payment_type_tie :
  payment_types_of example_tables "o2" = [Some "credit_card"; Some "boleto"]
  /\ mode (payment_types_of example_tables "o2") = ["boleto"; "credit_card"]
  /\ _mode_or_first (payment_types_of example_tables "o2") = Some "boleto".
Proof. repeat split. Qed.

(** ** Missing source files *)

Section MissingSource.
Variable to_datetime : list Cell -> Cell -> option Z.

Ltac raised_by name Hlookup :=
  eexists _, name; split; [reflexivity|];
  split; [apply elem_of_REQUIRED_CSVS; tauto|];
  split; [unfold load_csv_from_raw, read_csv; rewrite Hlookup; reflexivity|].

Ltac load_step fs raw_dir name :=
  let H := fresh "Hfile" in
  let Hcsv := fresh "Hcsv" in
  destruct (fs !! path_join raw_dir name) as [[?|?]|] eqn:H; simpl;
  [ | raised_by name H; intros Hcsv; exfalso;
      eapply Hcsv; [|exact H]; apply elem_of_REQUIRED_CSVS; tauto
    | raised_by name H; intros _; tauto ].

(** C9: when one of the seven required CSV files is absent from the raw
    directory, [build_fact_orders] returns no table: it raises, and the
    exception is the one [read_csv] raised for a required file; it is
    [FileNotFoundError] for a missing required file as soon as no
    required path holds something that is not a CSV. *)
Theorem build_fact_orders_missing_file (fs : FileSystem) (raw_dir name : string) :
  name ∈ REQUIRED_CSVS ->
  fs !! path_join raw_dir name = None ->
  exists e culprit,
    build_fact_orders to_datetime fs raw_dir = Raise e
    /\ culprit ∈ REQUIRED_CSVS
    /\ load_csv_from_raw fs raw_dir culprit = Raise e
    /\ ((forall n df, n ∈ REQUIRED_CSVS ->
                      fs !! path_join raw_dir n <> Some (Parquet df)) ->
        e = FileNotFoundError (path_join raw_dir culprit)
        /\ fs !! path_join raw_dir culprit = None).
Proof.
  intros Hname Hnone.
  unfold build_fact_orders, load_required_from_raw, load_csv_from_raw, read_csv.
  load_step fs raw_dir "olist_orders_dataset.csv".
  load_step fs raw_dir "olist_customers_dataset.csv".
  load_step fs raw_dir "olist_order_items_dataset.csv".
  load_step fs raw_dir "olist_order_payments_dataset.csv".
  load_step fs raw_dir "olist_products_dataset.csv".
  load_step fs raw_dir "product_category_name_translation.csv".
  load_step fs raw_dir "olist_geolocation_dataset.csv".
  exfalso. apply elem_of_REQUIRED_CSVS in Hname.
  repeat (destruct Hname as [->|Hname]; [congruence|]). congruence.
Qed.
End MissingSource.

(** The raw directory without its geolocation file. *)
Lemma build_fact_orders_missing_file_witness :
  exists e culprit,
    build_fact_orders to_datetime_iso no_geolocation_fs "data/raw" = Raise e
    /\ culprit ∈ REQUIRED_CSVS
    /\ load_csv_from_raw no_geolocation_fs "data/raw" culprit = Raise e
    /\ ((forall n df, n ∈ REQUIRED_CSVS ->
           no_geolocation_fs !! path_join "data/raw" n <> Some (Parquet df)) ->
        e = FileNotFoundError (path_join "data/raw" culprit)
        /\ no_geolocation_fs !! path_join "data/raw" culprit = None).
Proof.
  apply (build_fact_orders_missing_file to_datetime_iso no_geolocation_fs
           "data/raw" "olist_geolocation_dataset.csv").
  - apply elem_of_REQUIRED_CSVS. tauto.
  - vm_compute. reflexivity.
Defined.

Example build_fact_orders_without_geolocation :
  build_fact_orders to_datetime_iso no_geolocation_fs "data/raw"
  = Raise (FileNotFoundError "data/raw/olist_geolocation_dataset.csv").
Proof. vm_compute. reflexivity. Qed.

Example build_fact_orders_all_files :
  build_fact_orders to_datetime_iso raw_only_fs "data/raw"
  = Ok (build_fact_table to_datetime_iso example_tables).
Proof. vm_compute. reflexivity. Qed.

(** ** The cache layer *)

Section Cache.
Variable to_datetime : list Cell -> Cell -> option Z.

(** C7: with the cache flag enabled, when the artifact exists at
    [processed_dir/fact_orders.parquet] the call returns its content and
    leaves the files as they are, whatever the raw directory holds and
    whatever the environment; when no file exists there, the call builds
    the fact table from the raw directory, creates the processed directory,
    writes the table to that path and returns the table it built.  The
    three steps run in that order and the exception of the first that
    raises is the result: a failed build or a failed [mkdir] leaves the
    files as they are, and a regular file at [processed_dir] makes
    [mkdir] raise [FileExistsError]. *)
Theorem get_fact_orders_cache (env : Environment) (fs : FileSystem)
    (raw_dir processed_dir : string) :
  (forall df,
      fs !! path_join processed_dir "fact_orders.parquet" = Some (Parquet df) ->
      get_fact_orders to_datetime env fs raw_dir processed_dir true = (Ok df, fs))
  /\ (fs !! path_join processed_dir "fact_orders.parquet" = None ->
      match build_fact_orders to_datetime fs raw_dir with
      | Raise e =>
          get_fact_orders to_datetime env fs raw_dir processed_dir true
          = (Raise e, fs)
      | Ok df =>
          match mkdir env fs processed_dir,
                write_failure env fs (path_join processed_dir "fact_orders.parquet")
          with
          | Raise e, _ =>
              get_fact_orders to_datetime env fs raw_dir processed_dir true
              = (Raise e, fs)
          | Ok _, Some (e, fs') =>
              get_fact_orders to_datetime env fs raw_dir processed_dir true
              = (Raise e, fs')
          | Ok _, None =>
              get_fact_orders to_datetime env fs raw_dir processed_dir true
              = (Ok df,
                 <[path_join processed_dir "fact_orders.parquet" := Parquet df]> fs)
              /\ read_parquet
                   (<[path_join processed_dir "fact_orders.parquet" := Parquet df]> fs)
                   (path_join processed_dir "fact_orders.parquet")
                 = Ok df
          end
      end)
  /\ (forall df,
        fs !! path_join processed_dir "fact_orders.parquet" = None ->
        is_Some (fs !! processed_dir) ->
        build_fact_orders to_datetime fs raw_dir = Ok df ->
        get_fact_orders to_datetime env fs raw_dir processed_dir true
        = (Raise (FileExistsError processed_dir), fs)).
Proof.
  unfold get_fact_orders, read_parquet. split; [|split].
  - intros df Hdf. now rewrite Hdf.
  - intros Hnone. rewrite Hnone. simpl.
    destruct (build_fact_orders to_datetime fs raw_dir) as [df|e]; [|reflexivity].
    destruct (mkdir env fs processed_dir) as [[]|e]; [|reflexivity].
    unfold to_parquet.
    destruct (write_failure env fs _) as [[e fs']|]; [reflexivity|].
    split; [reflexivity|]. now rewrite lookup_insert_eq.
  - intros df Hnone [file Hfile] Hbuild. rewrite Hnone, Hbuild. simpl.
    unfold mkdir. now rewrite Hfile.
Qed.

(** After a call that returned a table, the artifact holds that table, and
    the next call answers from it and does not look at the raw directory
    again. *)
Lemma get_fact_orders_second_call (env env' : Environment) (fs fs' : FileSystem)
    (raw_dir raw_dir' processed_dir : string) (flag : bool)
    (df : list Fact.row) :
  get_fact_orders to_datetime env fs raw_dir processed_dir flag = (Ok df, fs') ->
  fs' !! path_join processed_dir "fact_orders.parquet" = Some (Parquet df)
  /\ get_fact_orders to_datetime env' fs' raw_dir' processed_dir true
     = (Ok df, fs').
Proof.
  intros Hcall.
  assert (Hart : fs' !! path_join processed_dir "fact_orders.parquet"
                 = Some (Parquet df)).
  { unfold get_fact_orders in Hcall.
    destruct (flag && bool_decide (is_Some (fs !! path_join processed_dir
                                                "fact_orders.parquet"))) eqn:Hhit.
    - injection Hcall as Hread <-. unfold read_parquet in Hread.
      destruct (fs !! path_join processed_dir "fact_orders.parquet")
        as [[c|d]|]; try discriminate. now injection Hread as ->.
    - destruct (build_fact_orders to_datetime fs raw_dir) as [d|e];
        [|discriminate].
      destruct (mkdir env fs processed_dir) as [[]|e]; [|discriminate].
      unfold to_parquet in Hcall.
      destruct (write_failure env fs _) as [[e fs'']|]; [discriminate|].
      injection Hcall as -> <-. apply lookup_insert_eq. }
  split; [exact Hart|].
  unfold get_fact_orders, read_parquet. now rewrite Hart.
Qed.
End Cache.

Example get_fact_orders_stale_artifact :
  fst (get_fact_orders to_datetime_iso permissive stale_cache_fs
         "data/raw" "data/processed" true)
  = Ok (build_fact_table to_datetime_iso duplicate_customer_tables)
  /\ build_fact_orders to_datetime_iso stale_cache_fs "data/raw"
     = Ok (build_fact_table to_datetime_iso example_tables).
Proof. split; vm_compute; reflexivity. Qed.

(** A regular file at the processed directory: the build succeeds, [mkdir]
    raises, and nothing is cached. *)
Example get_fact_orders_blocked_directory :
  build_fact_orders to_datetime_iso blocked_processed_fs "data/raw"
  = Ok (build_fact_table to_datetime_iso example_tables)
  /\ get_fact_orders to_datetime_iso permissive blocked_processed_fs
       "data/raw" "data/processed" true
     = (Raise (FileExistsError "data/processed"), blocked_processed_fs).
Proof. split; vm_compute; reflexivity. Qed.

(** A write that is refused: the table was built, the call raises. *)
Example get_fact_orders_refused_write :
  get_fact_orders to_datetime_iso read_only raw_only_fs
    "data/raw" "data/processed" true
  = (Raise (OSError "data/processed/fact_orders.parquet"), raw_only_fs).
Proof. vm_compute. reflexivity. Qed.

(** ** [group_geo] on inputs without usable coordinates *)

Lemma has_column_index_of (df : DataFrame) (name : string) :
  has_column df name = true <-> is_Some (index_of name (columns df)).
Proof.
  unfold has_column. rewrite bool_decide_eq_true.
  induction (columns df) as [|c cols IH]; simpl.
  - rewrite elem_of_nil. split; [tauto|]. intros [x Hx]. discriminate Hx.
  - rewrite elem_of_cons. destruct (String.eqb_spec name c) as [->|Hne].
    + split; eauto.
    + rewrite IH. split.
      * intros [Heq|[i Hi]]; [contradiction|]. rewrite Hi. simpl. eauto.
      * intros [i Hi]. right.
        destruct (index_of name cols); [eauto|discriminate Hi].
Qed.

Lemma column_index_has_column (df : DataFrame) (name : string) :
  has_column df name = true -> exists i, column_index df name = Ok i.
Proof.
  intros [i Hi]%has_column_index_of. exists i.
  unfold column_index. now rewrite Hi.
Qed.

Lemma filter_all_false {A : Type} (P : A -> Prop) `{!forall x, Decision (P x)}
    (l : list A) :
  Forall (fun x => ~ P x) l -> filter P l = [].
Proof.
  induction 1 as [|x l Hx Hl IH]; [reflexivity|].
  now rewrite filter_cons_False.
Qed.

(** C6, amended: for an input that is absent or empty, and for a non-empty
    input that has the three geo columns but no row with both coordinates,
    [group_geo] returns a zero-row frame with the eight columns
    [customer_state], [mean_lat], [mean_lng], [order_count],
    [delivered_count], [on_time_count], [on_time_rate], [avg_delay_days];
    for a non-empty input that lacks one of [customer_state], [mean_lat],
    [mean_lng], it returns a zero-row frame with the four columns
    [customer_state], [mean_lat], [mean_lng], [order_count]; in no such
    case does it raise. *)
Theorem group_geo_empty_shapes :
  group_geo None = Ok (mkDataFrame GEO_RESULT_COLUMNS [])
  /\ (forall df, empty df = true ->
        group_geo (Some df) = Ok (mkDataFrame GEO_RESULT_COLUMNS []))
  /\ (forall df i_lat i_lng,
        empty df = false ->
        has_column df "customer_state" = true ->
        index_of "mean_lat" (columns df) = Some i_lat ->
        index_of "mean_lng" (columns df) = Some i_lng ->
        Forall (fun r => isna (cell i_lat r) = true \/ isna (cell i_lng r) = true)
          (rows df) ->
        group_geo (Some df) = Ok (mkDataFrame GEO_RESULT_COLUMNS []))
  /\ (forall df name,
        empty df = false ->
        name ∈ geo_cols ->
        has_column df name = false ->
        group_geo (Some df)
        = Ok (mkDataFrame
                ["customer_state"; "mean_lat"; "mean_lng"; "order_count"] [])).
Proof.
  split; [reflexivity|]. split; [|split].
  - intros df Hempty. simpl. now rewrite Hempty.
  - intros df i_lat i_lng Hne Hstate Hlat Hlng Hall. simpl. rewrite Hne.
    assert (Hhas_lat : has_column df "mean_lat" = true)
      by (apply has_column_index_of; rewrite Hlat; eauto).
    assert (Hhas_lng : has_column df "mean_lng" = true)
      by (apply has_column_index_of; rewrite Hlng; eauto).
    rewrite Hstate, Hhas_lat, Hhas_lng. simpl.
    unfold column_index. rewrite Hlat, Hlng. simpl.
    rewrite filter_all_false; [unfold empty; simpl; now destruct (columns df)|].
    eapply Forall_impl; [exact Hall|]. intros r Hr. simpl in Hr.
    destruct (isna (cell i_lat r)), (isna (cell i_lng r)); simpl;
      intuition discriminate.
  - intros df name Hne Hname Hmissing.
    assert (Hsome : forallb (has_column df) geo_cols = false).
    { apply not_true_is_false. intros Hall.
      rewrite forallb_forall in Hall.
      rewrite (Hall name) in Hmissing; [discriminate|].
      now apply list_elem_of_In. }
    unfold group_geo. now rewrite Hne, Hsome.
Qed.

(** C6 as stated fails: a non-empty frame without coordinate columns gets
    a four-column result, not the eight documented columns. *)
Lemma group_geo_missing_column_shape :
  group_geo (Some no_coordinates_frame)
  = Ok (mkDataFrame ["customer_state"; "mean_lat"; "mean_lng"; "order_count"] [])
  /\ group_geo (Some no_coordinates_frame)
     <> Ok (mkDataFrame GEO_RESULT_COLUMNS []).
Proof. split; [reflexivity|discriminate]. Qed.

Example group_geo_two_states :
  group_geo (Some two_states_frame)
  = Ok (mkDataFrame GEO_AGG_COLUMNS
          [[CStr "SP"; CFloat (-47 # 2); CFloat (-93 # 2); CInt 2; CInt 1;
            CInt 1; CFloat (-2); CFloat 1]]).
Proof. reflexivity. Qed.

(** ** [compute_kpis] *)

Lemma Qeq_bool_pos (n : nat) :
  (0 < n)%nat -> Qeq_bool (inject_Z (Z.of_nat n)) 0 = false.
Proof.
  intros Hn. apply not_true_is_false. intros Heq.
  apply Qeq_bool_eq in Heq. unfold Qeq, inject_Z in Heq. simpl in Heq. lia.
Qed.

Lemma truediv_pos (a : Q) (n : nat) :
  (0 < n)%nat ->
  truediv a (inject_Z (Z.of_nat n)) = Ok (Qred (a / inject_Z (Z.of_nat n))).
Proof. intros Hn. unfold truediv. now rewrite Qeq_bool_pos. Qed.

(** Summing never divides. *)
Lemma series_sum_result (series : list Cell) :
  (exists q, series_sum series = Ok q) \/ series_sum series = Raise TypeError.
Proof.
  unfold series_sum.
  assert (H : (exists v, mapM cell_num series = Ok v)
              \/ mapM cell_num series = Raise TypeError).
  { induction series as [|c series IH]; simpl; [left; eauto|].
    destruct c; simpl; try (now right);
      destruct IH as [[v ->]| ->]; simpl; eauto. }
  destruct H as [[v ->]| ->]; simpl; eauto.
Qed.

Lemma series_mean_result (series : list Cell) :
  (0 < length series)%nat ->
  (exists q, series_mean series = Ok q) \/ series_mean series = Raise TypeError.
Proof.
  intros Hlen. unfold series_mean.
  destruct (series_sum_result series) as [[q ->]| ->]; simpl; [|now right].
  rewrite truediv_pos by assumption. eauto.
Qed.

Lemma series_sum_zeros (series : list Cell) :
  Forall (eq CNull) series -> series_sum (fillna (CInt 0) series) = Ok 0%Q.
Proof.
  intros Hall. unfold series_sum.
  assert (H : mapM cell_num (fillna (CInt 0) series)
              = Ok (replicate (length series) 0%Q)).
  { induction Hall as [|c series <- _ IH]; [reflexivity|].
    simpl. now rewrite IH. }
  rewrite H. simpl. f_equal. clear H Hall.
  induction (length series) as [|n IH]; [reflexivity|].
  simpl. unfold qsum in *. simpl.
  change (Qred (0 + foldr Qplus 0 (replicate n 0)) = 0)%Q.
  rewrite (Qred_complete _ (foldr Qplus 0 (replicate n 0))%Q); [exact IH|].
  apply Qplus_0_l.
Qed.

Lemma filter_eq_True_dropna (series : list Cell) :
  filter eq_True (dropna series) = filter eq_True series.
Proof.
  unfold dropna. rewrite list_filter_filter. apply list_filter_iff.
  intros c. destruct c as [| | | | [|] |]; simpl; intuition.
Qed.

Lemma delivery_figures_result (df : DataFrame) (delivered : list (list Cell)) :
  delivery_figures df delivered <> Raise ZeroDivisionError.
Proof.
  unfold delivery_figures.
  destruct (0 <? length delivered)%nat eqn:Hpos; [|discriminate].
  apply Nat.ltb_lt in Hpos.
  destruct (column_index df "on_time") as [i|e] eqn:Hi; simpl;
    [|unfold column_index in Hi; destruct (index_of _ _); congruence].
  rewrite truediv_pos by assumption. simpl.
  destruct (column_index df "delay_days") as [j|e] eqn:Hj; simpl;
    [|unfold column_index in Hj; destruct (index_of _ _); congruence].
  destruct (0 <? length (dropna (cell j <$> delivered)))%nat eqn:Hlen;
    [|discriminate].
  apply Nat.ltb_lt in Hlen.
  destruct (series_mean_result _ Hlen) as [[q ->]| ->]; discriminate.
Qed.

Lemma optional_total_result (df : DataFrame) (name : string) :
  optional_total df name <> Raise ZeroDivisionError.
Proof.
  unfold optional_total. destruct (has_column df name); [|discriminate].
  destruct (column_index df name) as [i|e] eqn:Hi; simpl;
    [|unfold column_index in Hi; destruct (index_of _ _); congruence].
  destruct (series_sum_result (fillna (CInt 0) (cell i <$> rows df)))
    as [[q ->]| ->]; discriminate.
Qed.

Lemma delivery_figures_ok (df : DataFrame) (delivered : list (list Cell))
    (i_on : nat) (figures : nat * Q * Q) :
  index_of "on_time" (columns df) = Some i_on ->
  delivery_figures df delivered = Ok figures ->
  fst (fst figures) = length (filter (fun r => eq_True (cell i_on r)) delivered)
  /\ snd (fst figures)
     = (if (0 <? length delivered)%nat
        then Qred (inject_Z (Z.of_nat (fst (fst figures)))
                   / inject_Z (Z.of_nat (length delivered)))
        else 0%Q).
Proof.
  intros Hon. unfold delivery_figures, column_index. rewrite Hon. simpl.
  destruct (0 <? length delivered)%nat eqn:Hpos.
  - apply Nat.ltb_lt in Hpos. rewrite truediv_pos by assumption. simpl.
    rewrite filter_eq_True_dropna, filter_fmap, length_fmap.
    destruct (index_of "delay_days" (columns df)); simpl; [|discriminate].
    destruct (if (0 <? _)%nat then _ else _) as [avg|e]; simpl; [|discriminate].
    intros [= <-]. simpl. split; reflexivity.
  - intros [= <-]. simpl.
    destruct delivered; [split; reflexivity|discriminate Hpos].
Qed.

(** The delivery figures of a result, read off the frame. *)
Lemma compute_kpis_figures (df : DataFrame) (k : Kpis) (i_status i_on : nat) :
  empty df = false ->
  index_of "order_status" (columns df) = Some i_status ->
  index_of "on_time" (columns df) = Some i_on ->
  compute_kpis (Some df) = Ok k ->
  delivered_orders k
  = length (filter (fun r => is_delivered (cell i_status r)) (rows df))
  /\ on_time_count k
     = length (filter (fun r => eq_True (cell i_on r))
                 (filter (fun r => is_delivered (cell i_status r)) (rows df)))
  /\ on_time_rate k
     = (if (0 <? delivered_orders k)%nat
        then Qred (inject_Z (Z.of_nat (on_time_count k))
                   / inject_Z (Z.of_nat (delivered_orders k)))
        else 0%Q).
Proof.
  intros Hne Hs Hon. simpl. rewrite Hne.
  unfold filter_on, column_index. rewrite Hs. simpl.
  destruct (delivery_figures df _) as [figures|e] eqn:Hfig; simpl; [|discriminate].
  destruct (optional_total df "payment_value_sum"); simpl; [|discriminate].
  destruct (optional_total df "freight_value_sum"); simpl; [|discriminate].
  intros [= <-]. simpl.
  destruct (delivery_figures_ok df _ i_on figures Hon Hfig) as [Hcount Hrate].
  now rewrite Hrate, Hcount.
Qed.

(** C4, amended: [compute_kpis] counts as on time the delivered rows whose
    [on_time] is true, and its on-time rate is that count divided by the
    number of delivered rows (a delivered row with a null [on_time] is
    left out of the numerator and stays in the denominator); the rate is
    0.0 when no row is delivered.  No input makes it raise a division by
    zero; an absent or empty input gives the all-zero defaults, and an
    all-null input with an [order_status] column gives zero for every
    rate, mean and total. *)
Theorem compute_kpis_on_time_rate :
  (forall df k i_status i_on,
      empty df = false ->
      index_of "order_status" (columns df) = Some i_status ->
      index_of "on_time" (columns df) = Some i_on ->
      compute_kpis (Some df) = Ok k ->
      delivered_orders k
      = length (filter (fun r => is_delivered (cell i_status r)) (rows df))
      /\ on_time_count k
         = length (filter (fun r => eq_True (cell i_on r))
                     (filter (fun r => is_delivered (cell i_status r)) (rows df)))
      /\ on_time_rate k
         = (if (0 <? delivered_orders k)%nat
            then Qred (inject_Z (Z.of_nat (on_time_count k))
                       / inject_Z (Z.of_nat (delivered_orders k)))
            else 0%Q))
  /\ (forall df, compute_kpis df <> Raise ZeroDivisionError)
  /\ compute_kpis None = Ok defaults
  /\ (forall df, empty df = true -> compute_kpis (Some df) = Ok defaults)
  /\ (forall df,
        empty df = false ->
        has_column df "order_status" = true ->
        Forall (Forall (eq CNull)) (rows df) ->
        compute_kpis (Some df) = Ok (mkKpis (length (rows df)) 0 0 0 0 0 0)).
Proof.
  split; [|split; [|split; [|split]]].
  - intros df k i_s i_on. apply compute_kpis_figures.
  - intros [df|]; [|discriminate]. simpl.
    destruct (empty df); [discriminate|].
    destruct (filter_on df "order_status" is_delivered) as [d|e] eqn:Hd; simpl.
    + pose proof (delivery_figures_result df (rows d)) as Hfig.
      destruct (delivery_figures df (rows d)) as [figures|e]; simpl; [|congruence].
      pose proof (optional_total_result df "payment_value_sum") as Hp.
      destruct (optional_total df "payment_value_sum"); simpl; [|congruence].
      pose proof (optional_total_result df "freight_value_sum") as Hf.
      destruct (optional_total df "freight_value_sum"); simpl; [discriminate|congruence].
    + unfold filter_on, column_index in Hd.
      destruct (index_of _ _); simpl in Hd; [discriminate Hd|congruence].
  - reflexivity.
  - intros df Hempty. simpl. now rewrite Hempty.
  - intros df Hne [i Hi]%column_index_has_column Hnull. simpl. rewrite Hne.
    unfold filter_on. rewrite Hi. simpl.
    rewrite filter_all_false.
    2:{ eapply Forall_impl; [exact Hnull|]. intros r Hr. simpl in Hr.
        unfold cell. 
        assert (Hc : nth i r CNull = CNull).
        { clear -Hr. revert i. induction Hr as [|c r <- _ IH]; intros [|i];
            simpl; auto. }
        rewrite Hc. intros []. }
    simpl.
    assert (Htotal : forall name, optional_total df name = Ok 0%Q).
    { intros name. unfold optional_total.
      destruct (has_column df name) eqn:Hhas; [|reflexivity].
      destruct (column_index_has_column df name Hhas) as [j ->]. simpl.
      apply series_sum_zeros. apply Forall_fmap.
      eapply Forall_impl; [exact Hnull|]. intros r Hr. simpl.
      unfold cell. clear -Hr. revert j.
      induction Hr as [|c r <- _ IH]; intros [|j]; simpl; auto. }
    now rewrite !Htotal.
Qed.

(** C4 as stated fails: of two delivered rows one has a null [on_time] and
    the other is on time; the rate is 1/2, where leaving the null out of
    the denominator would give 1. *)
Lemma compute_kpis_null_on_time_in_denominator :
  compute_kpis (Some null_on_time_frame)
  = Ok (mkKpis 2 2 1 (1 # 2) (-2 # 1) 0 0)
  /\ on_time_rate_excluding_nulls 1 2 null_on_time_frame = 1%Q
  /\ ~ (forall k, compute_kpis (Some null_on_time_frame) = Ok k ->
                  on_time_rate k
                  = on_time_rate_excluding_nulls 1 2 null_on_time_frame).
Proof.
  split; [reflexivity|]. split; [reflexivity|].
  intros Hall. specialize (Hall _ eq_refl). discriminate Hall.
Qed.

(** ** [apply_filters] *)

Lemma selection_of_refl (d : DataFrame) : selection_of d d.
Proof. split; reflexivity. Qed.

Lemma stage_le_same_filter (name : string) (keep : Cell -> bool) :
  stage_le (fun d => filter_on d name keep) (fun d => filter_on d name keep).
Proof.
  intros d d' r' [Hcols Hrows]. unfold filter_on, column_index.
  rewrite Hcols. destruct (index_of name (columns d)) as [i|]; simpl; [|discriminate].
  intros [= <-]. eexists. split; [reflexivity|].
  split; [reflexivity|]. simpl.
  induction Hrows as [|x l1 l2 _ IH|x l1 l2 _ IH]; [constructor| |].
  - rewrite !filter_cons. destruct (decide _); [now constructor|assumption].
  - rewrite filter_cons. destruct (decide _); [now constructor|assumption].
Qed.

Lemma stage_le_added_filter (name : string) (keep : Cell -> bool) :
  stage_le Ok (fun d => filter_on d name keep).
Proof.
  intros d d' r' [Hcols Hrows]. unfold filter_on, column_index.
  destruct (index_of name (columns d')) as [i|]; simpl; [|discriminate].
  intros [= <-]. exists d. split; [reflexivity|].
  split; [exact Hcols|]. simpl.
  etransitivity; [apply sublist_filter|assumption].
Qed.

Lemma stage_le_none : stage_le Ok Ok.
Proof. intros d d' r' Hsel [= <-]. eauto. Qed.

Lemma stage_le_bind (s1 s1' s2 s2' : DataFrame -> Result DataFrame) :
  stage_le s1 s1' -> stage_le s2 s2' ->
  stage_le (fun d => s1 d ≫= s2) (fun d => s1' d ≫= s2').
Proof.
  intros H1 H2 d d' r' Hsel Hrun.
  destruct (s1' d') as [m'|e] eqn:Hm'; simpl in Hrun; [|discriminate].
  destruct (H1 d d' m' Hsel Hm') as (m & -> & Hsel'). simpl.
  now apply (H2 m m').
Qed.

Lemma stage_le_isin (name : string) (values values' : option (list string)) :
  active values = None \/ active values = active values' ->
  stage_le (isin_filter name values) (isin_filter name values').
Proof.
  unfold isin_filter. intros [Hv | Hv]; rewrite Hv.
  - destruct (active values'); [apply stage_le_added_filter|apply stage_le_none].
  - destruct (active values'); [apply stage_le_same_filter|apply stage_le_none].
Qed.

Lemma stage_le_bound (keep : Z -> Cell -> bool) (b b' : option Z) :
  b = None \/ b = b' ->
  stage_le (bound_filter keep b) (bound_filter keep b').
Proof.
  unfold bound_filter. intros [-> | ->].
  - destruct b'; [apply stage_le_added_filter|apply stage_le_none].
  - destruct b'; [apply stage_le_same_filter|apply stage_le_none].
Qed.

Lemma date_filter_bounds (range : option (list (option Z))) (d : DataFrame) :
  date_filter range d
  = bound_filter not_before (fst (bounds range)) d
      ≫= bound_filter not_after (snd (bounds range)).
Proof. now destruct range as [[|s [|e rest]]|]. Qed.

Lemma stage_le_date (range range' : option (list (option Z))) :
  fst (bounds range) = None \/ fst (bounds range) = fst (bounds range') ->
  snd (bounds range) = None \/ snd (bounds range) = snd (bounds range') ->
  stage_le (date_filter range) (date_filter range').
Proof.
  intros Hs He d d' r'. rewrite !date_filter_bounds.
  now apply (stage_le_bind (bound_filter not_before _) (bound_filter not_before _)
               (bound_filter not_after _) (bound_filter not_after _));
    apply stage_le_bound.
Qed.

Lemma stage_le_delivered (flag flag' : bool) :
  flag = false \/ flag = flag' ->
  stage_le (delivered_filter flag) (delivered_filter flag').
Proof.
  unfold delivered_filter. intros [-> | ->].
  - destruct flag'; [apply stage_le_added_filter|apply stage_le_none].
  - destruct flag'; [apply stage_le_same_filter|apply stage_le_none].
Qed.

Section Filtering.
Variable to_datetime : list Cell -> Cell -> option Z.

(** A configuration that keeps every active filter of another returns a
    selection of what the other returns. *)
Lemma apply_filters_keeps (df : option DataFrame) (f f' : Filters)
    (r' : DataFrame) :
  keeps_filters f f' ->
  apply_filters to_datetime df f' = Ok r' ->
  exists r, apply_filters to_datetime df f = Ok r /\ selection_of r r'.
Proof.
  intros (Hs & He & Hst & Hc & Hp & Hd).
  destruct df as [df|]; simpl; [|intros [= <-]; eauto using selection_of_refl].
  destruct (empty df); [intros [= <-]; eauto using selection_of_refl|].
  pose proof (stage_le_date _ _ Hs He) as H1.
  pose proof (stage_le_isin "customer_state" _ _ Hst) as H2.
  pose proof (stage_le_isin "product_category_mode" _ _ Hc) as H3.
  pose proof (stage_le_isin "payment_type_mode" _ _ Hp) as H4.
  pose proof (stage_le_delivered _ _ Hd) as H5.
  pose proof (stage_le_bind _ _ _ _ H4 H5) as H45.
  pose proof (stage_le_bind _ _ _ _ H3 H45) as H345.
  pose proof (stage_le_bind _ _ _ _ H2 H345) as H2345.
  pose proof (stage_le_bind _ _ _ _ H1 H2345) as Hall.
  apply Hall, selection_of_refl.
Qed.
End Filtering.

Lemma adds_one_filter_keeps (f f' : Filters) :
  adds_one_filter f f' -> keeps_filters f f'.
Proof.
  destruct 1 as [f s H|f e H|f v vs H|f v vs H|f v vs H|f H];
    unfold keeps_filters; simpl; rewrite ?H; tauto.
Qed.

Section Unfiltered.
Variable to_datetime : list Cell -> Cell -> option Z.

(** C5, amended: adding one more active filter never increases the number
    of returned rows (and if the call with the added filter returns, so
    does the call without it); with no active filter [apply_filters]
    returns, for a non-empty input, the rows of the input in their order
    with the same columns and every cell unchanged except those of
    [order_purchase_timestamp], which are replaced by their parsed
    timestamps (null where the value does not parse), so that a frame
    without that column is returned as it is; an absent or empty input
    gives the frame without rows or columns. *)
Theorem apply_filters_monotone_and_unfiltered :
  (forall df f f' r',
      adds_one_filter f f' ->
      apply_filters to_datetime df f' = Ok r' ->
      exists r, apply_filters to_datetime df f = Ok r
                /\ (length (rows r') <= length (rows r))%nat)
  /\ apply_filters to_datetime None no_filters = Ok (mkDataFrame [] [])
  /\ (forall df, empty df = true ->
        apply_filters to_datetime (Some df) no_filters = Ok (mkDataFrame [] []))
  /\ (forall df, empty df = false ->
        apply_filters to_datetime (Some df) no_filters
        = Ok (parse_purchase_timestamp to_datetime df))
  /\ (forall df, index_of "order_purchase_timestamp" (columns df) = None ->
        parse_purchase_timestamp to_datetime df = df)
  /\ (forall df i, index_of "order_purchase_timestamp" (columns df) = Some i ->
        columns (parse_purchase_timestamp to_datetime df) = columns df
        /\ Forall2
             (fun row row' =>
                length row' = length row
                /\ (forall j, j <> i -> row' !! j = row !! j)
                /\ ((i < length row)%nat ->
                    row' !! i
                    = Some (datetime_cell to_datetime (cell i <$> rows df)
                              (cell i row))))
             (rows df) (rows (parse_purchase_timestamp to_datetime df))).
Proof.
  split; [|split; [|split; [|split; [|split]]]].
  - intros df f f' r' Hadd Hrun.
    destruct (apply_filters_keeps to_datetime df f f' r'
                (adds_one_filter_keeps f f' Hadd) Hrun) as (r & Hr & _ & Hsub).
    exists r. split; [assumption|]. now apply sublist_length.
  - reflexivity.
  - intros df Hempty. simpl. now rewrite Hempty.
  - intros df Hne. simpl. now rewrite Hne.
  - intros df Hnone. unfold parse_purchase_timestamp. now rewrite Hnone.
  - intros df i Hi. unfold parse_purchase_timestamp. rewrite Hi. simpl.
    split; [reflexivity|].
    apply Forall2_fmap_r, Forall_Forall2_diag, Forall_forall.
    intros row _. split; [apply length_insert|]. split.
    + intros j Hj. now apply list_lookup_insert_ne.
    + intros Hlt. now apply list_lookup_insert_eq.
Qed.
End Unfiltered.

(** C5 as stated fails: with no active filter the purchase timestamp that
    is not a date comes back null, so the result is not the input field
    for field. *)
Lemma apply_filters_no_filter_changes_timestamp :
  apply_filters to_datetime_iso (Some bad_timestamp_frame) no_filters
  = Ok (mkDataFrame ["order_id"; "order_purchase_timestamp"; "customer_state"]
          [[CStr "o1"; CNull; CStr "SP"]])
  /\ apply_filters to_datetime_iso (Some bad_timestamp_frame) no_filters
     <> Ok bad_timestamp_frame.
Proof. split; [reflexivity|discriminate]. Qed.

Example apply_filters_state_and_start :
  apply_filters to_datetime_iso (Some two_states_frame)
    (mkFilters (Some [Some 1704153600000000000%Z; None]) (Some ["SP"])
       None None false)
  = Ok (mkDataFrame (columns two_states_frame)
          [[CStr "o3"; CTime 1704279600000000000; CStr "SP"; CStr "shipped";
            CFloat (-24 # 1); CFloat (-47 # 1); CNull; CNull]]).
Proof. reflexivity. Qed.

Example apply_filters_unknown_state :
  apply_filters to_datetime_iso (Some two_states_frame)
    (mkFilters None (Some ["MG"]) None None false)
  = Ok (mkDataFrame (columns two_states_frame) []).
Proof. reflexivity. Qed.

(** ** The metrics layer on a fact table *)

Section MetricsOnFactTable.
Variable to_datetime : list Cell -> Cell -> option Z.

(** In a fact table every delivered row has a Boolean [on_time]. *)
Lemma delivered_rows_have_on_time (t : Tables) :
  Forall (fun r => is_delivered (cell 2 r) -> isna (cell 15 r) = false)
    (rows (to_frame (build_fact_table to_datetime t))).
Proof.
  simpl. apply Forall_fmap, Forall_forall. intros f Hf. simpl.
  destruct (fact_row_spec to_datetime t f Hf) as (_ & _ & _ & _ & _ & _ & _ & Ho).
  unfold is_delivered, is_delivered_status in *.
  intros Hd%bool_decide_unpack.
  change (opt_cell CStr (Fact.order_status f) = CStr "delivered") in Hd.
  change (isna (opt_cell CBool (Fact.on_time f)) = false).
  rewrite Ho.
  destruct (Fact.order_status f) as [st|]; simpl in Hd; [|discriminate].
  injection Hd as ->. reflexivity.
Qed.

Lemma dropna_no_nulls (series : list Cell) :
  Forall (fun c => isna c = false) series -> dropna series = series.
Proof.
  induction 1 as [|c series Hc _ IH]; [reflexivity|].
  unfold dropna in *. rewrite filter_cons_True, IH; [reflexivity|].
  now rewrite Hc.
Qed.

(** On the fact table, and on any selection of its rows, no delivered row
    has a null [on_time], so the rate of [compute_kpis] is also the rate
    with nulls left out of the denominator. *)
Lemma compute_kpis_rate_on_fact_table (t : Tables) (rs : list (list Cell)) (k : Kpis) :
  rs `sublist_of` rows (to_frame (build_fact_table to_datetime t)) ->
  compute_kpis (Some (mkDataFrame FACT_COLUMNS rs)) = Ok k ->
  on_time_rate k
  = on_time_rate_excluding_nulls 2 15 (mkDataFrame FACT_COLUMNS rs).
Proof.
  intros Hsub Hk.
  destruct rs as [|r0 rs0] eqn:Hrs; [now injection Hk as <-|]. rewrite <- Hrs in *.
  assert (Hne : empty (mkDataFrame FACT_COLUMNS rs) = false) by now rewrite Hrs.
  destruct (compute_kpis_figures _ k 2 15 Hne eq_refl eq_refl Hk)
    as (Hd & Hc & Hr).
  rewrite Hr, Hc, Hd. unfold on_time_rate_excluding_nulls. simpl rows.
  set (delivered := filter (fun r => is_delivered (cell 2 r)) rs).
  assert (Hvalid : dropna (cell 15 <$> delivered) = cell 15 <$> delivered).
  { apply dropna_no_nulls, Forall_fmap, Forall_forall. intros r Hr'.
    apply list_elem_of_filter in Hr' as [Hdel Hin].
    pose proof (delivered_rows_have_on_time t) as Hall.
    rewrite Forall_forall in Hall. apply Hall; [|assumption].
    eapply sublist_subseteq; eassumption. }
  rewrite Hvalid, filter_fmap, !length_fmap.
  now destruct (length delivered).
Qed.
End MetricsOnFactTable.

Example metrics_on_example_fact_table :
  compute_kpis (Some (to_frame (build_fact_table to_datetime_iso example_tables)))
  = Ok (mkKpis 3 2 1 (1 # 2) (-2 # 1) 80 19)
  /\ group_geo (Some (to_frame (build_fact_table to_datetime_iso example_tables)))
     = Ok (mkDataFrame GEO_AGG_COLUMNS
             [[CStr "SP"; CFloat (-47 # 2); CFloat (-93 # 2); CInt 1; CInt 1;
               CInt 1; CFloat (-2); CFloat 1]]).
Proof. split; vm_compute; reflexivity. Qed.

(** * Further properties of the code *)

(** ** Rows of the fact table, whatever the customers table holds *)

Lemma fmap_bind_list {A B C : Type} (f : B -> C) (g : A -> list B) (l : list A) :
  f <$> (l ≫= g) = l ≫= (fun x => f <$> g x).
Proof.
  induction l as [|x l IH]; [reflexivity|].
  now rewrite !bind_cons, fmap_app, IH.
Qed.

Lemma merge_row_fst {L R K : Type} `{EqDecision K}
    (kl : L -> K) (kr : R -> K) (right : list R) (l : L) :
  fst <$> merge_row kl kr right l
  = replicate (Nat.max 1 (length (matches kl kr l right))) l.
Proof.
  assert (Hrep : forall xs : list R,
             fst <$> ((fun r => (l, Some r)) <$> xs) = replicate (length xs) l).
  { induction xs as [|x xs IH]; [reflexivity|]. simpl. now rewrite <- IH. }
  unfold merge_row. destruct (matches kl kr l right) as [|m ms]; [reflexivity|].
  rewrite Hrep. f_equal.
Qed.

(** A left merge repeats a left row once per matching right row and keeps
    it once when nothing matches. *)
Lemma merge_left_fst_multiplicity {L R K : Type} `{EqDecision K}
    (kl : L -> K) (kr : R -> K) (left : list L) (right : list R) :
  fst <$> merge_left kl kr left right
  = left ≫= (fun l => replicate (Nat.max 1 (length (matches kl kr l right))) l).
Proof.
  unfold merge_left. rewrite fmap_bind_list.
  induction left as [|l left IH]; [reflexivity|].
  now rewrite !bind_cons, IH, merge_row_fst.
Qed.

Section RowMultiplicity.
Variable to_datetime : list Cell -> Cell -> option Z.

(** X1: for any source tables, the order ids of the fact table are the
    order ids of the orders table in that table's order, each repeated once
    per customers row with the order's customer id and kept once when no
    customers row matches; so no order is dropped and the fact table has at
    least as many rows as the orders table. *)
Theorem build_fact_orders_row_multiplicity (t : Tables) :
  Fact.order_id <$> build_fact_table to_datetime t
  = orders t ≫= (fun o =>
      replicate
        (Nat.max 1 (length (matches Orders.customer_id Customers.customer_id
                              o (customers t))))
        (Orders.order_id o))
  /\ (length (orders t) <= length (build_fact_table to_datetime t))%nat.
Proof.
  assert (Hids : Fact.order_id <$> build_fact_table to_datetime t
                 = orders t ≫= (fun o =>
                     replicate
                       (Nat.max 1 (length (matches Orders.customer_id
                                             Customers.customer_id o (customers t))))
                       (Orders.order_id o))).
  { unfold build_fact_table.
    transitivity (Orders.order_id <$> (order_of <$> joined to_datetime t)).
    { rewrite <- !list_fmap_compose. apply list_fmap_ext.
      intros i r _. apply fact_row_order. }
    transitivity (Orders.order_id <$> (fst <$> orders_customers t)).
    { f_equal. rewrite <- (joined_orders_customers to_datetime t).
      rewrite <- !list_fmap_compose. reflexivity. }
    unfold orders_customers. rewrite merge_left_fst_multiplicity, fmap_bind_list.
    apply list_bind_ext; [|reflexivity]. intros o. apply fmap_replicate. }
  split; [exact Hids|].
  rewrite <- (length_fmap Fact.order_id), Hids. clear Hids.
  induction (orders t) as [|o os IH]; [reflexivity|].
  rewrite bind_cons, length_app, length_replicate.
  pose proof (Nat.le_max_l 1 (length (matches Orders.customer_id
                                        Customers.customer_id o (customers t)))).
  change (length (o :: os)) with (S (length os)). lia.
Qed.
End RowMultiplicity.

(** ** The aggregates of a fact row *)

Lemma lookup_agg_Some {R K V : Type} `{EqDecision K}
    (key : R -> option K) (f : list R -> V) (rows : list R) (k : K) :
  lookup_agg key f rows (Some k)
  = match group key rows k with
    | [] => None
    | _ :: _ => Some (f (group key rows k))
    end.
Proof.
  unfold lookup_agg. simpl. now destruct (group key rows k).
Qed.

Lemma omap_id_fmap {A B : Type} (f : A -> option B) (l : list A) :
  omap id (f <$> l) = omap f l.
Proof.
  induction l as [|x l IH]; [reflexivity|]. simpl.
  destruct (f x); simpl; [f_equal|]; exact IH.
Qed.

Section Aggregates.
Variable to_datetime : list Cell -> Cell -> option Z.

(** X2: the coordinates of a fact row are the means of the latitudes and
    of the longitudes of the geolocation samples whose postal prefix is
    the customer's, nulls skipped; they are null when the row has no
    postal prefix or no sample carries it: no centroid is made up. *)
Theorem fact_row_centroid (t : Tables) :
  Forall
    (fun f =>
       match Fact.customer_zip_code_prefix f with
       | Some z =>
           Fact.mean_lat f
           = agg_mean (Geolocation.geolocation_lat
                         <$> group Geolocation.geolocation_zip_code_prefix
                               (geolocation t) z)
           /\ Fact.mean_lng f
              = agg_mean (Geolocation.geolocation_lng
                            <$> group Geolocation.geolocation_zip_code_prefix
                                  (geolocation t) z)
       | None => Fact.mean_lat f = None /\ Fact.mean_lng f = None
       end)
    (build_fact_table to_datetime t).
Proof.
  apply Forall_forall. intros f Hf.
  destruct (fact_row_spec to_datetime t f Hf) as (_ & _ & _ & _ & _ & Hgeo & _).
  unfold lookup_agg in Hgeo.
  destruct (Fact.customer_zip_code_prefix f) as [z|]; simpl in Hgeo.
  - destruct (group Geolocation.geolocation_zip_code_prefix (geolocation t) z);
      now injection Hgeo.
  - now injection Hgeo.
Qed.

(** X3: the payment total of a fact row is the sum of the non-null payment
    values of the payment rows of its order, and it is null, not zero,
    when the order has no payment row; an order whose payment rows all
    have a null value gets the total zero. *)
Theorem fact_row_payment_total (t : Tables) :
  Forall
    (fun f =>
       match Fact.order_id f with
       | Some k =>
           let payments := group OrderPayments.order_id (order_payments t) k in
           Fact.payment_value_sum f
           = match payments with
             | [] => None
             | _ :: _ =>
                 Some (Qred (qsum (omap OrderPayments.payment_value payments)))
             end
           /\ (payments <> [] ->
               Forall (fun p => OrderPayments.payment_value p = None) payments ->
               Fact.payment_value_sum f = Some 0%Q)
       | None => Fact.payment_value_sum f = None
       end)
    (build_fact_table to_datetime t).
Proof.
  apply Forall_forall. intros f Hf.
  destruct (fact_row_spec to_datetime t f Hf) as (_ & _ & Hpt & _).
  destruct (Fact.order_id f) as [k|]; [|exact Hpt].
  rewrite lookup_agg_Some in Hpt. cbv zeta. rewrite Hpt.
  unfold agg_sum. rewrite omap_id_fmap.
  split; [reflexivity|]. intros Hne Hnull.
  destruct (group OrderPayments.order_id (order_payments t) k) as [|p g];
    [congruence|].
  assert (Hnil : forall l : list OrderPayments.row,
             Forall (fun p => OrderPayments.payment_value p = None) l ->
             omap OrderPayments.payment_value l = []).
  { induction 1 as [|x xs Hx _ IH]; [reflexivity|].
    simpl. rewrite Hx. exact IH. }
  now rewrite (Hnil _ Hnull).
Qed.

(** X4: provided product ids are unique in the products table and category
    names are unique in the translation table, the freight total of a fact
    row is the sum of the non-null freight values of the item rows of its
    order (null when the order has no item row). *)
Theorem fact_row_freight_total (t : Tables) :
  NoDup (Products.product_id <$> products t) ->
  NoDup (Translation.product_category_name <$> product_category_translation t) ->
  Forall
    (fun f =>
       match Fact.order_id f with
       | Some k =>
           let items := group OrderItems.order_id (order_items t) k in
           Fact.freight_value_sum f
           = match items with
             | [] => None
             | _ :: _ => Some (agg_sum (OrderItems.freight_value <$> items))
             end
       | None => Fact.freight_value_sum f = None
       end)
    (build_fact_table to_datetime t).
Proof.
  intros Hp Htr. apply Forall_forall. intros f Hf.
  destruct (fact_row_spec to_datetime t f Hf) as (_ & _ & _ & Hfr & _).
  destruct (Fact.order_id f) as [k|]; [|exact Hfr].
  rewrite lookup_agg_Some in Hfr. cbv zeta. rewrite Hfr. clear Hfr.
  unfold items_with_product.
  rewrite (merge_left_unique OrderItems.product_id) by assumption.
  rewrite (merge_left_unique category_of) by assumption.
  rewrite <- list_fmap_compose. unfold group.
  rewrite filter_fmap. unfold item_order_id. simpl.
  destruct (filter (fun r => OrderItems.order_id r = Some k) (order_items t))
    as [|i items]; [reflexivity|].
  rewrite <- !list_fmap_compose. reflexivity.
Qed.
End Aggregates.

(** The example tables have unique product ids and category names; their
    order [o1] has three items with freight 5, 7 and 7. *)
Lemma fact_row_freight_total_witness :
  Forall
    (fun f =>
       match Fact.order_id f with
       | Some k =>
           let items := group OrderItems.order_id (order_items example_tables) k in
           Fact.freight_value_sum f
           = match items with
             | [] => None
             | _ :: _ => Some (agg_sum (OrderItems.freight_value <$> items))
             end
       | None => Fact.freight_value_sum f = None
       end)
    (build_fact_table to_datetime_iso example_tables).
Proof.
  apply (fact_row_freight_total to_datetime_iso example_tables); compute_done.
Defined.

(** ** What [on_time] means in clock time *)

Lemma delay_nonpositive (d e : Z) :
  ((d - e) / ns_per_day <=? 0)%Z = true <-> (d < e + ns_per_day)%Z.
Proof.
  rewrite Z.leb_le. unfold ns_per_day.
  pose proof (Z.div_mod (d - e) 86400000000000 ltac:(lia)) as Hdm.
  pose proof (Z.mod_pos_bound (d - e) 86400000000000 ltac:(lia)) as Hb.
  split; intros H; nia.
Qed.

Section OnTimeMeaning.
Variable to_datetime : list Cell -> Cell -> option Z.

(** X5: a fact row is on time exactly when its order is delivered, both
    dates parsed, and the delivery came less than one whole day after the
    estimated timestamp: the delay is counted in whole days rounded down,
    so a delivery up to 24 hours late still has [delay_days = 0]. *)
Theorem on_time_within_a_day (t : Tables) :
  Forall
    (fun f =>
       Fact.on_time f = Some true
       <-> Fact.order_status f = Some "delivered"
           /\ exists d e,
                Fact.order_delivered_customer_date f = Some d
                /\ Fact.order_estimated_delivery_date f = Some e
                /\ (d < e + ns_per_day)%Z)
    (build_fact_table to_datetime t).
Proof.
  apply Forall_forall. intros f Hf.
  destruct (fact_row_spec to_datetime t f Hf) as (_ & _ & _ & _ & _ & _ & Hd & Ho).
  rewrite Ho, Hd. unfold is_delivered_status.
  case_bool_decide as Hs; [|split; [discriminate|tauto]].
  destruct (Fact.order_delivered_customer_date f) as [d|],
           (Fact.order_estimated_delivery_date f) as [e|]; simpl.
  - split.
    + intros [= Hle]. split; [assumption|]. exists d, e.
      now rewrite <- delay_nonpositive.
    + intros (_ & d' & e' & [= <-] & [= <-] & Hlt). f_equal.
      now apply delay_nonpositive.
  - split; [discriminate|]. intros (_ & d' & e' & _ & He & _). discriminate He.
  - split; [discriminate|]. intros (_ & d' & e' & Hd' & _). discriminate Hd'.
  - split; [discriminate|]. intros (_ & d' & e' & Hd' & _). discriminate Hd'.
Qed.
End OnTimeMeaning.

(** ** The mode and the order of the rows *)

Section SortedUnique.
Context {A : Type} (le : A -> A -> bool).
Hypothesis le_total : forall x y, le x y = true \/ le y x = true.
Hypothesis le_antisym : forall x y, le x y = true -> le y x = true -> x = y.
Hypothesis le_trans :
  forall x y z, le x y = true -> le y z = true -> le x z = true.

Lemma insert_sorted_comm (x y : A) (l : list A) :
  insert_sorted le x (insert_sorted le y l)
  = insert_sorted le y (insert_sorted le x l).
Proof.
  induction l as [|z l IH]; simpl.
  - destruct (le x y) eqn:Hxy, (le y x) eqn:Hyx; try reflexivity.
    + now rewrite (le_antisym x y Hxy Hyx).
    + destruct (le_total x y); congruence.
  - destruct (le y z) eqn:Hyz, (le x z) eqn:Hxz; simpl;
      rewrite ?Hyz, ?Hxz; simpl.
    + destruct (le x y) eqn:Hxy, (le y x) eqn:Hyx; try reflexivity.
      * now rewrite (le_antisym x y Hxy Hyx).
      * destruct (le_total x y); congruence.
    + destruct (le x y) eqn:Hxy; [|reflexivity].
      rewrite (le_trans x y z Hxy Hyz) in Hxz. discriminate.
    + destruct (le y x) eqn:Hyx; [|reflexivity].
      rewrite (le_trans y x z Hyx Hxz) in Hyz. discriminate.
    + now rewrite IH.
Qed.

(** Sorting forgets the order of its input. *)
Lemma isort_Permutation (l k : list A) : l ≡ₚ k -> isort le l = isort le k.
Proof.
  induction 1 as [|x l k _ IH|x y l|l k m _ IH1 _ IH2]; simpl.
  - reflexivity.
  - now rewrite IH.
  - apply insert_sorted_comm.
  - now rewrite IH1.
Qed.
End SortedUnique.

Lemma count_occ_str_Permutation (v : string) (l k : list string) :
  l ≡ₚ k -> count_occ_str v l = count_occ_str v k.
Proof. intros H. unfold count_occ_str. now rewrite H. Qed.

Lemma max_count_Permutation (l k : list string) :
  l ≡ₚ k -> max_count l = max_count k.
Proof.
  intros H. unfold max_count.
  transitivity (max_list ((fun v => count_occ_str v k) <$> l)).
  - f_equal. apply list_fmap_ext. intros i v _.
    now apply count_occ_str_Permutation.
  - now rewrite H.
Qed.

Lemma mode_or_first_Permutation (series series' : list (option string)) :
  series ≡ₚ series' -> _mode_or_first series = _mode_or_first series'.
Proof.
  intros Hperm. unfold _mode_or_first, mode. f_equal.
  assert (Hvals : omap id series ≡ₚ omap id series') by now rewrite Hperm.
  apply (isort_Permutation String.leb String.leb_total String.leb_antisym
           string_leb_trans).
  apply NoDup_Permutation.
  - apply NoDup_filter, NoDup_remove_dups.
  - apply NoDup_filter, NoDup_remove_dups.
  - intros v. rewrite !list_elem_of_filter, !elem_of_remove_dups.
    rewrite (count_occ_str_Permutation v _ _ Hvals),
      (max_count_Permutation _ _ Hvals), Hvals. reflexivity.
Qed.

(** X6: the mode the aggregation picks does not depend on the order of the
    rows of the group: two series that are rearrangements of one another
    give the same [payment_type_mode] and [product_category_mode] (the
    tie is broken by the sort order of the values, not by which value
    comes first). *)
Theorem mode_or_first_ignores_row_order (series series' : list (option string)) :
  series ≡ₚ series' -> _mode_or_first series = _mode_or_first series'.
Proof. apply mode_or_first_Permutation. Qed.

Lemma mode_or_first_ignores_row_order_witness :
  _mode_or_first [Some "credit_card"; Some "boleto"; None]
  = _mode_or_first [None; Some "boleto"; Some "credit_card"].
Proof.
  apply mode_or_first_ignores_row_order.
  apply (Permutation_trans
           (l' := [Some "boleto"; Some "credit_card"; None])).
  - apply perm_swap.
  - apply (Permutation_trans (l' := [Some "boleto"; None; Some "credit_card"])).
    + apply perm_skip, perm_swap.
    + apply perm_swap.
Defined.

(** X7: the aggregation returns null exactly when the group has no
    non-null value, and otherwise a value that occurs in the group at least
    as often as every other value. *)
Theorem mode_or_first_result (series : list (option string)) :
  match _mode_or_first series with
  | Some m => most_frequent m series
  | None => forall v, Some v ∉ series
  end.
Proof.
  destruct (_mode_or_first series) as [m|] eqn:Hm.
  - apply elem_of_mode. unfold _mode_or_first in Hm.
    now apply head_Some_elem_of.
  - now apply mode_or_first_None.
Qed.

(** ** The artifact after a call *)

Section CacheInvariants.
Variable to_datetime : list Cell -> Cell -> option Z.

(** X8: whenever [get_fact_orders] returns a table, with the cache flag on
    or off, the artifact then holds exactly that table, and a following
    call with the flag on returns the same table and changes nothing,
    whatever raw directory it is given. *)
Theorem get_fact_orders_then_cached (env env' : Environment)
    (fs fs' : FileSystem) (raw_dir raw_dir' processed_dir : string)
    (flag : bool) (df : list Fact.row) :
  get_fact_orders to_datetime env fs raw_dir processed_dir flag = (Ok df, fs') ->
  fs' !! path_join processed_dir "fact_orders.parquet" = Some (Parquet df)
  /\ get_fact_orders to_datetime env' fs' raw_dir' processed_dir true
     = (Ok df, fs').
Proof. apply get_fact_orders_second_call. Qed.
End CacheInvariants.

Lemma get_fact_orders_then_cached_witness :
  raw_only_fs !! path_join "data/processed" "fact_orders.parquet" = None
  /\ <[path_join "data/processed" "fact_orders.parquet" :=
        Parquet (build_fact_table to_datetime_iso example_tables)]> raw_only_fs
     !! path_join "data/processed" "fact_orders.parquet"
     = Some (Parquet (build_fact_table to_datetime_iso example_tables))
  /\ get_fact_orders to_datetime_iso read_only
       (<[path_join "data/processed" "fact_orders.parquet" :=
            Parquet (build_fact_table to_datetime_iso example_tables)]> raw_only_fs)
       "elsewhere" "data/processed" true
     = (Ok (build_fact_table to_datetime_iso example_tables),
        <[path_join "data/processed" "fact_orders.parquet" :=
            Parquet (build_fact_table to_datetime_iso example_tables)]> raw_only_fs).
Proof.
  split; [vm_compute; reflexivity|].
  apply (get_fact_orders_then_cached to_datetime_iso permissive read_only
           raw_only_fs _ "data/raw" "elsewhere" "data/processed" true).
  vm_compute. reflexivity.
Defined.

(** ** When loading succeeds *)

(** X10: [load_required_from_raw] returns its dictionary exactly when each
    of the seven required files exists and is a CSV, and each entry of the
    dictionary is the table of the file of that name. *)
Theorem load_required_from_raw_ok (fs : FileSystem) (raw_dir : string)
    (data : RawData) :
  load_required_from_raw fs raw_dir = Ok data
  <-> fs !! path_join raw_dir "olist_orders_dataset.csv"
      = Some (Csv (data_orders data))
      /\ fs !! path_join raw_dir "olist_customers_dataset.csv"
         = Some (Csv (data_customers data))
      /\ fs !! path_join raw_dir "olist_order_items_dataset.csv"
         = Some (Csv (data_order_items data))
      /\ fs !! path_join raw_dir "olist_order_payments_dataset.csv"
         = Some (Csv (data_order_payments data))
      /\ fs !! path_join raw_dir "olist_products_dataset.csv"
         = Some (Csv (data_products data))
      /\ fs !! path_join raw_dir "product_category_name_translation.csv"
         = Some (Csv (data_product_category_translation data))
      /\ fs !! path_join raw_dir "olist_geolocation_dataset.csv"
         = Some (Csv (data_geolocation data)).
Proof.
  unfold load_required_from_raw, load_csv_from_raw, read_csv. split.
  - intros Hload.
    repeat match type of Hload with
           | context [fs !! ?p] =>
               destruct (fs !! p) as [[?|?]|]; simpl in Hload;
               try discriminate Hload
           end.
    injection Hload as <-. simpl. repeat split; reflexivity.
  - intros (-> & -> & -> & -> & -> & -> & ->). simpl. now destruct data.
Qed.

(** ** Which rows [apply_filters] returns *)

Lemma filter_true {A : Type} (l : list A) : filter (fun _ : A => true) l = l.
Proof.
  induction l as [|x l IH]; [reflexivity|].
  rewrite filter_cons_True by exact I. now rewrite IH.
Qed.

Lemma stage_selects_filter_on (name : string) (keep : Cell -> bool) :
  stage_selects (fun d => filter_on d name keep)
    (fun cols row => keep (cell_at cols name row)).
Proof.
  intros d r. unfold filter_on, column_index, cell_at.
  destruct (index_of name (columns d)) as [i|]; simpl; [|discriminate].
  intros [= <-]. split; reflexivity.
Qed.

Lemma stage_selects_none : stage_selects Ok (fun _ _ => true).
Proof. intros d r [= <-]. split; [reflexivity|]. now rewrite filter_true. Qed.

Lemma stage_selects_bind (s1 s2 : DataFrame -> Result DataFrame)
    (p1 p2 : list string -> list Cell -> bool) :
  stage_selects s1 p1 -> stage_selects s2 p2 ->
  stage_selects (fun d => s1 d ≫= s2) (fun cols row => p1 cols row && p2 cols row).
Proof.
  intros H1 H2 d r Hrun.
  destruct (s1 d) as [m|e] eqn:Hm; simpl in Hrun; [|discriminate].
  destruct (H1 d m Hm) as [Hc1 Hr1]. destruct (H2 m r Hrun) as [Hc2 Hr2].
  split; [congruence|].
  rewrite Hr2, Hr1, Hc1, list_filter_filter. apply list_filter_iff.
  intros row. rewrite andb_True. tauto.
Qed.

Lemma stage_selects_bound (keep : Z -> Cell -> bool) (b : option Z) :
  stage_selects (bound_filter keep b) (bound_passes keep b).
Proof.
  unfold bound_filter, bound_passes. destruct b as [b|].
  - apply (stage_selects_filter_on "order_purchase_timestamp" (keep b)).
  - apply stage_selects_none.
Qed.

Lemma stage_selects_isin (name : string) (values : option (list string)) :
  stage_selects (isin_filter name values) (isin_passes name values).
Proof.
  unfold isin_filter, isin_passes. destruct (active values) as [vs|].
  - apply (stage_selects_filter_on name (isin vs)).
  - apply stage_selects_none.
Qed.

Lemma stage_selects_delivered (flag : bool) :
  stage_selects (delivered_filter flag) (delivered_passes flag).
Proof.
  unfold delivered_filter, delivered_passes. destruct flag.
  - apply (stage_selects_filter_on "order_status" is_delivered).
  - apply stage_selects_none.
Qed.

Lemma stage_selects_date (range : option (list (option Z))) :
  stage_selects (date_filter range)
    (fun cols row =>
       bound_passes not_before (fst (bounds range)) cols row
       && bound_passes not_after (snd (bounds range)) cols row).
Proof.
  intros d r. rewrite date_filter_bounds.
  apply (stage_selects_bind (bound_filter not_before _) (bound_filter not_after _));
    apply stage_selects_bound.
Qed.

Lemma parse_purchase_timestamp_columns to_datetime (df : DataFrame) :
  columns (parse_purchase_timestamp to_datetime df) = columns df.
Proof.
  unfold parse_purchase_timestamp. now destruct (index_of _ _).
Qed.

Section Selection.
Variable to_datetime : list Cell -> Cell -> option Z.

Lemma apply_filters_rows (df r : DataFrame) (f : Filters) :
  empty df = false ->
  apply_filters to_datetime (Some df) f = Ok r ->
  columns r = columns df
  /\ rows r
     = filter (fun row => passes f (columns df) row)
         (rows (parse_purchase_timestamp to_datetime df)).
Proof.
  intros Hne. simpl. rewrite Hne. intros Hrun.
  pose proof (stage_selects_bind _ _ _ _
                (stage_selects_isin "payment_type_mode" (payment_types f))
                (stage_selects_delivered (delivered_only f))) as H45.
  pose proof (stage_selects_bind _ _ _ _
                (stage_selects_isin "product_category_mode" (categories f))
                H45) as H345.
  pose proof (stage_selects_bind _ _ _ _
                (stage_selects_isin "customer_state" (states f)) H345) as H2345.
  pose proof (stage_selects_bind _ _ _ _
                (stage_selects_date (date_range f)) H2345) as Hall.
  destruct (Hall _ r Hrun) as [Hc Hr].
  rewrite parse_purchase_timestamp_columns in Hc, Hr.
  split; [exact Hc|exact Hr].
Qed.

(** X11: for a non-empty input, when [apply_filters] returns, its result
    has the columns of the input and exactly the rows that pass every
    active filter, in their original order, taken from the input with its
    purchase timestamps parsed: the filters combine as a conjunction and
    no row that passes them all is lost. *)
Theorem apply_filters_selects (df r : DataFrame) (f : Filters) :
  empty df = false ->
  apply_filters to_datetime (Some df) f = Ok r ->
  columns r = columns df
  /\ rows r
     = filter (fun row => passes f (columns df) row)
         (rows (parse_purchase_timestamp to_datetime df)).
Proof. apply apply_filters_rows. Qed.

(** X13: once a date bound inside the range of pandas timestamps is
    active, every returned row has a purchase timestamp that parsed and
    lies on the right side of the bound: rows whose timestamp is missing
    or does not parse are dropped. *)
Theorem apply_filters_drops_null_timestamps (df r : DataFrame) (f : Filters) :
  empty df = false ->
  apply_filters to_datetime (Some df) f = Ok r ->
  (forall start_dt,
      fst (bounds (date_range f)) = Some start_dt ->
      (Timestamp_min < start_dt)%Z ->
      Forall
        (fun row =>
           exists ts, cell_at (columns df) "order_purchase_timestamp" row = CTime ts
                      /\ (start_dt <= ts)%Z)
        (rows r))
  /\ (forall end_dt,
        snd (bounds (date_range f)) = Some end_dt ->
        (end_dt < Timestamp_max)%Z ->
        Forall
          (fun row =>
             exists ts, cell_at (columns df) "order_purchase_timestamp" row = CTime ts
                        /\ (ts <= end_dt)%Z)
          (rows r)).
Proof.
  intros Hne Hrun.
  destruct (apply_filters_rows df r f Hne Hrun) as [_ Hrows].
  split.
  - intros s Hs Hmin. rewrite Hrows. apply Forall_forall. intros row Hrow.
    apply list_elem_of_filter in Hrow as [Hpass _].
    unfold passes in Hpass. rewrite Hs in Hpass. simpl in Hpass.
    apply andb_True in Hpass as [Hdate _].
    apply andb_True in Hdate as [Hstart _].
    destruct (cell_at (columns df) "order_purchase_timestamp" row) as [| | | | |ts];
      simpl in Hstart; try (now destruct Hstart).
    + apply Is_true_eq_true, Z.leb_le in Hstart. lia.
    + exists ts. split; [reflexivity|]. now apply Is_true_eq_true, Z.leb_le in Hstart.
  - intros e He Hmax. rewrite Hrows. apply Forall_forall. intros row Hrow.
    apply list_elem_of_filter in Hrow as [Hpass _].
    unfold passes in Hpass. rewrite He in Hpass.
    apply andb_True in Hpass as [Hdate _].
    apply andb_True in Hdate as [_ Hend]. simpl in Hend.
    destruct (cell_at (columns df) "order_purchase_timestamp" row) as [| | | | |ts];
      simpl in Hend; try (now destruct Hend).
    + apply Is_true_eq_true, Z.leb_le in Hend. lia.
    + exists ts. split; [reflexivity|]. now apply Is_true_eq_true, Z.leb_le in Hend.
Qed.
End Selection.

Lemma apply_filters_selects_witness :
  columns two_states_frame = columns two_states_frame
  /\ [[CStr "o3"; CTime 1704279600000000000; CStr "SP"; CStr "shipped";
       CFloat (-24 # 1); CFloat (-47 # 1); CNull; CNull]]
     = filter
         (fun row =>
            passes (mkFilters (Some [Some 1704153600000000000%Z; None])
                      (Some ["SP"]) None None false)
              (columns two_states_frame) row)
         (rows (parse_purchase_timestamp to_datetime_iso two_states_frame)).
Proof.
  apply (apply_filters_selects to_datetime_iso two_states_frame
           (mkDataFrame (columns two_states_frame)
              [[CStr "o3"; CTime 1704279600000000000; CStr "SP"; CStr "shipped";
                CFloat (-24 # 1); CFloat (-47 # 1); CNull; CNull]])
           (mkFilters (Some [Some 1704153600000000000%Z; None])
              (Some ["SP"]) None None false));
    reflexivity.
Defined.

Lemma apply_filters_drops_null_timestamps_witness :
  (forall start_dt,
      Some 1704153600000000000%Z = Some start_dt ->
      (Timestamp_min < start_dt)%Z ->
      Forall
        (fun row =>
           exists ts,
             cell_at (columns bad_timestamp_frame) "order_purchase_timestamp" row
             = CTime ts
             /\ (start_dt <= ts)%Z)
        [])
  /\ (forall end_dt,
        None = Some end_dt ->
        (end_dt < Timestamp_max)%Z ->
        Forall
          (fun row =>
             exists ts,
               cell_at (columns bad_timestamp_frame) "order_purchase_timestamp" row
               = CTime ts
               /\ (ts <= end_dt)%Z)
          []).
Proof.
  apply (apply_filters_drops_null_timestamps to_datetime_iso bad_timestamp_frame
           (mkDataFrame (columns bad_timestamp_frame) [])
           (mkFilters (Some [Some 1704153600000000000%Z; None])
              None None None false));
    reflexivity.
Defined.

(** ** When [apply_filters] raises *)

Lemma index_of_None (name : string) (cols : list string) :
  index_of name cols = None <-> name ∉ cols.
Proof.
  induction cols as [|c cols IH]; simpl.
  - split; [intros _; apply not_elem_of_nil|reflexivity].
  - rewrite not_elem_of_cons. destruct (String.eqb_spec name c) as [->|Hne].
    + split; [discriminate|]. intros [Hc _]. now destruct Hc.
    + destruct (index_of name cols); simpl.
      * split; [discriminate|]. intros [_ Hn]. now apply IH in Hn.
      * split; [|reflexivity]. intros _. split; [assumption|]. now apply IH.
Qed.

Lemma stage_needs_filter_on (name : string) (keep : Cell -> bool) :
  stage_needs (fun d => filter_on d name keep) [name].
Proof.
  intros d. unfold filter_on, column_index.
  destruct (index_of name (columns d)) as [i|] eqn:Hi; simpl.
  - split; [reflexivity|]. apply Forall_singleton.
    destruct (decide (name ∈ columns d)) as [Hin|Hout]; [assumption|].
    apply index_of_None in Hout. congruence.
  - exists name. split; [reflexivity|]. split; [apply list_elem_of_here|].
    now apply index_of_None.
Qed.

Lemma stage_needs_none : stage_needs Ok [].
Proof. intros d. split; [reflexivity|constructor]. Qed.

Lemma stage_needs_bind (s1 s2 : DataFrame -> Result DataFrame)
    (n1 n2 : list string) :
  stage_needs s1 n1 -> stage_needs s2 n2 ->
  stage_needs (fun d => s1 d ≫= s2) (n1 ++ n2).
Proof.
  intros H1 H2 d. specialize (H1 d).
  destruct (s1 d) as [m|e]; simpl.
  - destruct H1 as [Hc1 Hn1]. specialize (H2 m).
    destruct (s2 m) as [r|e].
    + destruct H2 as [Hc2 Hn2]. split; [congruence|].
      apply Forall_app. split; [assumption|]. now rewrite <- Hc1.
    + destruct H2 as (c & -> & Hc & Hout). exists c.
      split; [reflexivity|]. rewrite elem_of_app. split; [tauto|].
      now rewrite <- Hc1.
  - destruct H1 as (c & -> & Hc & Hout). exists c.
    split; [reflexivity|]. rewrite elem_of_app. tauto.
Qed.

Lemma stage_needs_bound (keep : Z -> Cell -> bool) (b : option Z) :
  stage_needs (bound_filter keep b)
    (match b with Some _ => ["order_purchase_timestamp"] | None => [] end).
Proof.
  unfold bound_filter. destruct b as [b|].
  - apply (stage_needs_filter_on "order_purchase_timestamp" (keep b)).
  - apply stage_needs_none.
Qed.

Lemma stage_needs_isin (name : string) (values : option (list string)) :
  stage_needs (isin_filter name values)
    (match active values with Some _ => [name] | None => [] end).
Proof.
  unfold isin_filter. destruct (active values) as [vs|].
  - apply (stage_needs_filter_on name (isin vs)).
  - apply stage_needs_none.
Qed.

Lemma stage_needs_delivered (flag : bool) :
  stage_needs (delivered_filter flag) (if flag then ["order_status"] else []).
Proof.
  unfold delivered_filter. destruct flag.
  - apply (stage_needs_filter_on "order_status" is_delivered).
  - apply stage_needs_none.
Qed.

Lemma stage_needs_date (range : option (list (option Z))) :
  stage_needs (date_filter range)
    ((match fst (bounds range) with
      | Some _ => ["order_purchase_timestamp"] | None => [] end)
     ++ (match snd (bounds range) with
         | Some _ => ["order_purchase_timestamp"] | None => [] end)).
Proof.
  intros d. rewrite date_filter_bounds.
  apply (stage_needs_bind (bound_filter not_before _) (bound_filter not_after _));
    apply stage_needs_bound.
Qed.

Section FilterErrors.
Variable to_datetime : list Cell -> Cell -> option Z.

(** X12: on a non-empty input [apply_filters] returns exactly when the
    input has the column of every active filter; otherwise it raises
    [KeyError] for a column that an active filter reads and the input
    lacks.  It has no safe default for a missing column, and it never
    fails on a column that no active filter reads. *)
Theorem apply_filters_missing_column (df : DataFrame) (f : Filters) :
  empty df = false ->
  match apply_filters to_datetime (Some df) f with
  | Ok r => Forall (fun c => c ∈ columns df) (needed_columns f)
  | Raise e =>
      exists c, e = KeyError c /\ c ∈ needed_columns f /\ c ∉ columns df
  end.
Proof.
  intros Hne. simpl. rewrite Hne.
  pose proof (stage_needs_bind _ _ _ _
                (stage_needs_isin "payment_type_mode" (payment_types f))
                (stage_needs_delivered (delivered_only f))) as H45.
  pose proof (stage_needs_bind _ _ _ _
                (stage_needs_isin "product_category_mode" (categories f))
                H45) as H345.
  pose proof (stage_needs_bind _ _ _ _
                (stage_needs_isin "customer_state" (states f)) H345) as H2345.
  pose proof (stage_needs_bind _ _ _ _
                (stage_needs_date (date_range f)) H2345) as Hall.
  specialize (Hall (parse_purchase_timestamp to_datetime df)).
  rewrite parse_purchase_timestamp_columns in Hall.
  unfold needed_columns. rewrite <- !app_assoc in Hall.
  destruct (date_filter (date_range f) (parse_purchase_timestamp to_datetime df)
              ≫= _) as [r|e]; [apply Hall|exact Hall].
Qed.
End FilterErrors.

Lemma apply_filters_missing_column_witness :
  exists c,
    KeyError "product_category_mode" = KeyError c
    /\ c ∈ needed_columns (mkFilters None None (Some ["pc_gamer"]) None false)
    /\ c ∉ columns two_states_frame.
Proof.
  apply (apply_filters_missing_column to_datetime_iso two_states_frame
           (mkFilters None None (Some ["pc_gamer"]) None false)).
  reflexivity.
Defined.

(** ** Bounds on the KPIs *)

Lemma rate_between_0_and_1 (c n : nat) :
  (c <= n)%nat -> (0 < n)%nat ->
  (0 <= Qred (inject_Z (Z.of_nat c) / inject_Z (Z.of_nat n)))%Q
  /\ (Qred (inject_Z (Z.of_nat c) / inject_Z (Z.of_nat n)) <= 1)%Q.
Proof.
  intros Hcn Hn.
  assert (Hpos : (0 < inject_Z (Z.of_nat n))%Q).
  { change 0%Q with (inject_Z 0). rewrite <- Zlt_Qlt. lia. }
  rewrite !Qred_correct. split.
  - apply Qle_shift_div_l; [assumption|]. rewrite Qmult_0_l.
    change 0%Q with (inject_Z 0). rewrite <- Zle_Qle. lia.
  - apply Qle_shift_div_r; [assumption|]. rewrite Qmult_1_l.
    rewrite <- Zle_Qle. lia.
Qed.

Lemma delivery_figures_bounds (df : DataFrame) (delivered : list (list Cell))
    (figures : nat * Q * Q) :
  delivery_figures df delivered = Ok figures ->
  (fst (fst figures) <= length delivered)%nat
  /\ (0 <= snd (fst figures))%Q /\ (snd (fst figures) <= 1)%Q.
Proof.
  unfold delivery_figures.
  destruct (0 <? length delivered)%nat eqn:Hpos.
  - apply Nat.ltb_lt in Hpos.
    destruct (column_index df "on_time") as [i|]; simpl; [|discriminate].
    rewrite truediv_pos by assumption. simpl.
    destruct (column_index df "delay_days") as [j|]; simpl; [|discriminate].
    destruct (if (0 <? _)%nat then _ else _) as [avg|]; simpl; [|discriminate].
    intros [= <-]. simpl.
    assert (Hle : (length (filter eq_True (dropna (cell i <$> delivered)))
                   <= length delivered)%nat).
    { etransitivity; [apply length_filter|]. unfold dropna.
      etransitivity; [apply length_filter|]. now rewrite length_fmap. }
    split; [exact Hle|]. now apply rate_between_0_and_1.
  - intros [= <-]. simpl. split; [lia|]. split; unfold Qle; simpl; lia.
Qed.

(** X14: in every result of [compute_kpis] the delivered orders are at most
    the total orders, the on-time orders at most the delivered orders, and
    the on-time rate lies between 0 and 1; the total is the number of rows
    of the input (0 for an absent or empty input). *)
Theorem compute_kpis_bounds (df : option DataFrame) (k : Kpis) :
  compute_kpis df = Ok k ->
  total_orders k
  = match df with
    | Some d => if empty d then 0%nat else length (rows d)
    | None => 0%nat
    end
  /\ (delivered_orders k <= total_orders k)%nat
  /\ (on_time_count k <= delivered_orders k)%nat
  /\ (0 <= on_time_rate k)%Q /\ (on_time_rate k <= 1)%Q.
Proof.
  destruct df as [d|]; simpl.
  2:{ intros [= <-]. simpl. repeat split; try lia; unfold Qle; simpl; lia. }
  destruct (empty d).
  { intros [= <-]. simpl. repeat split; try lia; unfold Qle; simpl; lia. }
  unfold filter_on.
  destruct (column_index d "order_status") as [i|]; simpl; [|discriminate].
  destruct (delivery_figures d _) as [figures|] eqn:Hfig; simpl; [|discriminate].
  destruct (optional_total d "payment_value_sum"); simpl; [|discriminate].
  destruct (optional_total d "freight_value_sum"); simpl; [|discriminate].
  intros [= <-]. simpl.
  destruct (delivery_figures_bounds d _ figures Hfig) as (Hc & H0 & H1).
  repeat split; try assumption. apply length_filter.
Qed.

Lemma compute_kpis_bounds_witness :
  3%nat = (if empty two_states_frame then 0%nat else length (rows two_states_frame))
  /\ (2 <= 3)%nat /\ (1 <= 2)%nat /\ (0 <= 1 # 2)%Q /\ (1 # 2 <= 1)%Q.
Proof.
  apply (compute_kpis_bounds (Some two_states_frame)
           (mkKpis 3 2 1 (1 # 2) (-2 # 1) 0 0)).
  reflexivity.
Defined.

(** ** Columns [compute_kpis] and [group_geo] cannot do without *)

Lemma column_index_missing (df : DataFrame) (name : string) :
  has_column df name = false -> column_index df name = Raise (KeyError name).
Proof.
  intros Hmissing. unfold column_index.
  destruct (index_of name (columns df)) as [i|] eqn:Hi; [|reflexivity].
  assert (Hhas : has_column df name = true)
    by (apply has_column_index_of; rewrite Hi; eauto).
  congruence.
Qed.

(** X15: [compute_kpis] has no default for a missing status or punctuality
    column: on a non-empty frame without [order_status] it raises
    [KeyError], and so it does on a frame with a delivered row and no
    [on_time] column, or with a delivered row, an [on_time] column and no
    [delay_days] column. *)
Theorem compute_kpis_missing_column (df : DataFrame) :
  empty df = false ->
  (has_column df "order_status" = false ->
   compute_kpis (Some df) = Raise (KeyError "order_status"))
  /\ (forall i row,
        index_of "order_status" (columns df) = Some i ->
        row ∈ rows df -> is_delivered (cell i row) = true ->
        (has_column df "on_time" = false ->
         compute_kpis (Some df) = Raise (KeyError "on_time"))
        /\ (has_column df "on_time" = true ->
            has_column df "delay_days" = false ->
            compute_kpis (Some df) = Raise (KeyError "delay_days"))).
Proof.
  intros Hne. split.
  - intros Hmissing. simpl. rewrite Hne. unfold filter_on.
    now rewrite column_index_missing.
  - intros i row Hi Hrow Hdel.
    assert (Hpos : (0 <? length (filter (fun r => is_delivered (cell i r))
                                   (rows df)))%nat = true).
    { apply Nat.ltb_lt.
      assert (Hin : row ∈ filter (fun r => is_delivered (cell i r)) (rows df)).
      { apply list_elem_of_filter. split; [now rewrite Hdel|assumption]. }
      destruct (filter _ (rows df)); [now apply elem_of_nil in Hin|simpl; lia]. }
    split.
    + intros Hmissing. simpl. rewrite Hne. unfold filter_on, column_index at 1.
      rewrite Hi. simpl. unfold delivery_figures. rewrite Hpos.
      now rewrite (column_index_missing df "on_time" Hmissing).
    + intros [j Hj]%column_index_has_column Hmissing. simpl. rewrite Hne.
      unfold filter_on, column_index at 1.
      rewrite Hi. simpl. unfold delivery_figures. rewrite Hpos, Hj. simpl.
      rewrite truediv_pos by now apply Nat.ltb_lt.
      simpl. now rewrite (column_index_missing df "delay_days" Hmissing).
Qed.

Lemma compute_kpis_missing_column_witness :
  (has_column no_coordinates_frame "order_status" = false ->
   compute_kpis (Some no_coordinates_frame) = Raise (KeyError "order_status"))
  /\ (forall i row,
        index_of "order_status" (columns no_coordinates_frame) = Some i ->
        row ∈ rows no_coordinates_frame -> is_delivered (cell i row) = true ->
        (has_column no_coordinates_frame "on_time" = false ->
         compute_kpis (Some no_coordinates_frame) = Raise (KeyError "on_time"))
        /\ (has_column no_coordinates_frame "on_time" = true ->
            has_column no_coordinates_frame "delay_days" = false ->
            compute_kpis (Some no_coordinates_frame)
            = Raise (KeyError "delay_days"))).
Proof.
  apply (compute_kpis_missing_column no_coordinates_frame). reflexivity.
Defined.

Example compute_kpis_without_on_time :
  compute_kpis (Some no_coordinates_frame) = Raise (KeyError "on_time").
Proof. reflexivity. Qed.

Lemma geo_clean_not_empty (df : DataFrame) (P : list Cell -> Prop)
    `{!forall r, Decision (P r)} (name : string) (row : list Cell) :
  has_column df name = true -> row ∈ rows df -> P row ->
  empty (mkDataFrame (columns df) (filter P (rows df))) = false.
Proof.
  intros Hcol Hrow HP. unfold empty. simpl.
  assert (Hin : row ∈ filter P (rows df)) by now apply list_elem_of_filter.
  unfold has_column in Hcol. apply bool_decide_eq_true in Hcol.
  destruct (columns df); [now apply elem_of_nil in Hcol|].
  destruct (filter P (rows df)); [now apply elem_of_nil in Hin|reflexivity].
Qed.

(** X16: [group_geo] has no default for a missing [order_id] column: on a
    frame that has the three geo columns and a row with both coordinates,
    but no [order_id] column, it raises [KeyError]. *)
Theorem group_geo_missing_order_id (df : DataFrame) (i_lat i_lng : nat)
    (row : list Cell) :
  has_column df "customer_state" = true ->
  index_of "mean_lat" (columns df) = Some i_lat ->
  index_of "mean_lng" (columns df) = Some i_lng ->
  row ∈ rows df ->
  isna (cell i_lat row) = false ->
  isna (cell i_lng row) = false ->
  has_column df "order_id" = false ->
  group_geo (Some df) = Raise (KeyError "order_id").
Proof.
  intros Hstate Hlat Hlng Hrow Hla Hlo Hid.
  assert (Hhas_lat : has_column df "mean_lat" = true)
    by (apply has_column_index_of; rewrite Hlat; eauto).
  assert (Hhas_lng : has_column df "mean_lng" = true)
    by (apply has_column_index_of; rewrite Hlng; eauto).
  assert (Hne : empty df = false).
  { unfold empty. unfold has_column in Hstate. apply bool_decide_eq_true in Hstate.
    destruct (columns df); [now apply elem_of_nil in Hstate|].
    destruct (rows df); [now apply elem_of_nil in Hrow|reflexivity]. }
  assert (Hci_lat : column_index df "mean_lat" = Ok i_lat)
    by (unfold column_index; now rewrite Hlat).
  assert (Hci_lng : column_index df "mean_lng" = Ok i_lng)
    by (unfold column_index; now rewrite Hlng).
  unfold group_geo. rewrite Hne. unfold geo_cols. simpl forallb.
  rewrite Hstate, Hhas_lat, Hhas_lng, Hci_lat, Hci_lng. simpl.
  rewrite (geo_clean_not_empty df _ "customer_state" row Hstate Hrow)
    by (rewrite Hla, Hlo; exact I).
  unfold aggregate_geo, state_agg.
  destruct (column_index_has_column df "customer_state" Hstate) as [i_s ->].
  rewrite Hci_lat, Hci_lng. simpl.
  now rewrite (column_index_missing df "order_id" Hid).
Qed.

(** A frame with coordinates, states and statuses but no order ids. *)
Lemma group_geo_missing_order_id_witness :
  group_geo
    (Some (mkDataFrame ["customer_state"; "mean_lat"; "mean_lng"; "order_status"]
             [[CStr "SP"; CFloat (-23 # 1); CFloat (-46 # 1); CStr "delivered"]]))
  = Raise (KeyError "order_id").
Proof.
  apply (group_geo_missing_order_id _ 1 2
           [CStr "SP"; CFloat (-23 # 1); CFloat (-46 # 1); CStr "delivered"]);
    try reflexivity.
  apply list_elem_of_here.
Defined.

(** ** The rows of a non-empty [group_geo] result *)

Lemma mapM_Ok_Forall2 {A B : Type} (f : A -> Result B) (l : list A) (v : list B) :
  mapM f l = Ok v -> Forall2 (fun x y => f x = Ok y) l v.
Proof.
  revert v. induction l as [|x l IH]; simpl; intros v.
  - intros [= <-]. constructor.
  - destruct (f x) as [y|] eqn:Hy; simpl; [|discriminate].
    destruct (mapM f l) as [k|]; simpl; [|discriminate].
    intros [= <-]. constructor; [assumption|]. now apply IH.
Qed.

Lemma mapM_Ok_fst {K V W : Type} (f : K * V -> Result (K * W))
    (l : list (K * V)) (v : list (K * W)) :
  (forall x y, f x = Ok y -> fst y = fst x) ->
  mapM f l = Ok v -> fst <$> v = fst <$> l.
Proof.
  intros Hf Hm. apply mapM_Ok_Forall2 in Hm.
  induction Hm as [|x y l v Hxy _ IH]; [reflexivity|].
  rewrite !fmap_cons, IH. f_equal. now apply Hf.
Qed.

Lemma state_agg_keys (df : DataFrame) (geo_clean : list (list Cell))
    (agg : list (string * (Q * Q * nat))) (i_state : nat) :
  index_of "customer_state" (columns df) = Some i_state ->
  state_agg df geo_clean = Ok agg ->
  fst <$> agg = group_keys String.leb (state_key i_state) geo_clean.
Proof.
  intros Hs. unfold state_agg, column_index. rewrite Hs. simpl.
  destruct (index_of "mean_lat" (columns df)); simpl; [|discriminate].
  destruct (index_of "mean_lng" (columns df)); simpl; [|discriminate].
  destruct (index_of "order_id" (columns df)); simpl; [|discriminate].
  intros Hm. apply mapM_Ok_fst in Hm.
  - rewrite Hm. apply groupby_keys.
  - intros [k g] y Hxy. simpl in Hxy.
    destruct (series_mean (cell n <$> g)); simpl in Hxy; [|discriminate Hxy].
    destruct (series_mean (cell n0 <$> g)); simpl in Hxy; [|discriminate Hxy].
    now injection Hxy as <-.
Qed.

Lemma delivered_agg_keys (df : DataFrame) (delivered : list (list Cell))
    (dagg : list (string * (nat * Q * option Q))) :
  delivered_agg df delivered = Ok dagg -> NoDup (fst <$> dagg).
Proof.
  unfold delivered_agg.
  destruct (column_index df "customer_state") as [i_s|]; simpl; [|discriminate].
  destruct (column_index df "order_id"); simpl; [|discriminate].
  destruct (column_index df "on_time"); simpl; [|discriminate].
  destruct (column_index df "delay_days"); simpl; [|discriminate].
  intros Hm. apply mapM_Ok_fst in Hm.
  - rewrite Hm, groupby_keys. apply NoDup_group_keys.
  - intros [k g] y Hxy. simpl in Hxy.
    destruct (series_sum _); simpl in Hxy; [|discriminate Hxy].
    destruct (match dropna _ with [] => _ | _ => _ end); simpl in Hxy;
      [|discriminate Hxy].
    now injection Hxy as <-.
Qed.

Lemma geo_row_shape (state : string) (lat lng : Q) (n : nat)
    (dc : option nat) (on avg : option Q) :
  length (geo_row state lat lng n dc on avg) = 8%nat
  /\ cell 0 (geo_row state lat lng n dc on avg) = CStr state
  /\ cell 1 (geo_row state lat lng n dc on avg) = CFloat lat
  /\ cell 2 (geo_row state lat lng n dc on avg) = CFloat lng.
Proof. repeat split. Qed.

Lemma aggregate_geo_rows (df : DataFrame) (geo_clean : list (list Cell))
    (r : DataFrame) (i_state : nat) :
  index_of "customer_state" (columns df) = Some i_state ->
  aggregate_geo df geo_clean = Ok r ->
  columns r = GEO_AGG_COLUMNS
  /\ cell 0 <$> rows r
     = CStr <$> group_keys String.leb (state_key i_state) geo_clean
  /\ Forall (fun row => length row = 8%nat
                        /\ isna (cell 1 row) = false
                        /\ isna (cell 2 row) = false) (rows r).
Proof.
  intros Hs. unfold aggregate_geo.
  destruct (state_agg df geo_clean) as [agg|] eqn:Hagg; simpl; [|discriminate].
  pose proof (state_agg_keys df geo_clean agg i_state Hs Hagg) as Hkeys.
  destruct (filter_on _ "order_status" is_delivered) as [delivered|]; simpl;
    [|discriminate].
  destruct (empty delivered).
  - intros [= <-]. simpl. split; [reflexivity|]. split.
    + rewrite <- Hkeys, <- !list_fmap_compose. apply list_fmap_ext.
      now intros i [k [[lat lng] n]] _.
    + apply Forall_fmap, Forall_forall. now intros [k [[lat lng] n]] _.
  - destruct (delivered_agg df (rows delivered)) as [dagg|] eqn:Hdagg; simpl;
      [|discriminate].
    intros [= <-]. simpl. split; [reflexivity|]. split.
    + rewrite <- Hkeys.
      transitivity (CStr <$> (fst <$> (fst <$> merge_left fst fst agg dagg))).
      * rewrite <- !list_fmap_compose. apply list_fmap_ext.
        now intros i [[k [[lat lng] n]] d] _.
      * now rewrite (merge_left_fst fst fst agg dagg)
          by now apply (delivered_agg_keys df (rows delivered)).
    + apply Forall_fmap, Forall_forall. now intros [[k [[lat lng] n]] d] _.
Qed.

(** X17: a [group_geo] result that has rows has the eight columns in the
    order [customer_state], [mean_lat], [mean_lng], [order_count],
    [delivered_count], [on_time_count], [avg_delay_days], [on_time_rate]
    (the last two the other way round than in the empty result), and one
    row per distinct state among the input rows that have both
    coordinates, sorted by state, each with eight cells and a non-null
    centroid. *)
Theorem group_geo_result_rows (df r : DataFrame) :
  group_geo (Some df) = Ok r ->
  rows r <> [] ->
  columns r = GEO_AGG_COLUMNS
  /\ (exists i_state i_lat i_lng,
        index_of "customer_state" (columns df) = Some i_state
        /\ index_of "mean_lat" (columns df) = Some i_lat
        /\ index_of "mean_lng" (columns df) = Some i_lng
        /\ cell 0 <$> rows r
           = CStr <$> group_keys String.leb (state_key i_state)
                        (filter (fun row => negb (isna (cell i_lat row))
                                            && negb (isna (cell i_lng row)))
                           (rows df)))
  /\ NoDup (cell 0 <$> rows r)
  /\ Forall (fun row => length row = 8%nat
                        /\ isna (cell 1 row) = false
                        /\ isna (cell 2 row) = false) (rows r).
Proof.
  unfold group_geo. destruct (empty df); [intros [= <-] Hne; now destruct Hne|].
  destruct (negb (forallb (has_column df) geo_cols)) eqn:Hcols;
    [intros [= <-] Hne; now destruct Hne|].
  apply negb_false_iff in Hcols. unfold geo_cols in Hcols. simpl in Hcols.
  apply andb_true_iff in Hcols as [Hstate _].
  apply has_column_index_of in Hstate as [i_state Hs].
  unfold column_index.
  destruct (index_of "mean_lat" (columns df)) as [i_lat|] eqn:Hlat; simpl;
    [|discriminate].
  destruct (index_of "mean_lng" (columns df)) as [i_lng|] eqn:Hlng; simpl;
    [|discriminate].
  destruct (empty _); [intros [= <-] Hne; now destruct Hne|].
  intros Hagg _.
  destruct (aggregate_geo_rows df _ r i_state Hs Hagg) as (Hc & Hk & Hshape).
  split; [exact Hc|]. split; [|split; [|exact Hshape]].
  - exists i_state, i_lat, i_lng. repeat split; assumption.
  - rewrite Hk. apply NoDup_fmap_2_strong; [|apply NoDup_group_keys].
    now intros x y _ _ [= ->].
Qed.

Lemma group_geo_result_rows_witness :
  GEO_AGG_COLUMNS = GEO_AGG_COLUMNS
  /\ (exists i_state i_lat i_lng,
        index_of "customer_state" (columns two_states_frame) = Some i_state
        /\ index_of "mean_lat" (columns two_states_frame) = Some i_lat
        /\ index_of "mean_lng" (columns two_states_frame) = Some i_lng
        /\ [CStr "SP"]
           = CStr <$> group_keys String.leb (state_key i_state)
                        (filter (fun row => negb (isna (cell i_lat row))
                                            && negb (isna (cell i_lng row)))
                           (rows two_states_frame)))
  /\ NoDup [CStr "SP"]
  /\ Forall (fun row => length row = 8%nat
                        /\ isna (cell 1 row) = false
                        /\ isna (cell 2 row) = false)
       [[CStr "SP"; CFloat (-47 # 2); CFloat (-93 # 2); CInt 2; CInt 1;
         CInt 1; CFloat (-2); CFloat 1]].
Proof.
  apply (group_geo_result_rows two_states_frame
           (mkDataFrame GEO_AGG_COLUMNS
              [[CStr "SP"; CFloat (-47 # 2); CFloat (-93 # 2); CInt 2; CInt 1;
                CInt 1; CFloat (-2); CFloat 1]])).
  - reflexivity.
  - discriminate.
Defined.

(** ** The default view of the dashboard *)

Lemma series_min_spec (ts : list Z) (lo : Z) :
  series_min ts = Some lo -> lo ∈ ts /\ Forall (fun t => (lo <= t)%Z) ts.
Proof.
  destruct ts as [|t ts]; [discriminate|]. simpl. intros [= <-].
  induction ts as [|u ts [Hin Hle]]; simpl.
  - split; [apply list_elem_of_here|]. constructor; [lia|constructor].
  - apply Forall_cons in Hle as [Ht Hts]. split.
    + destruct (Z.min_spec u (foldr Z.min t ts)) as [[_ ->]|[_ ->]].
      * apply list_elem_of_further, list_elem_of_here.
      * apply elem_of_cons in Hin as [->|Hin];
          [apply list_elem_of_here|now do 2 apply list_elem_of_further].
    + repeat constructor; [lia|lia|].
      eapply Forall_impl; [exact Hts|]. simpl. intros; lia.
Qed.

Lemma series_max_spec (ts : list Z) (hi : Z) :
  series_max ts = Some hi -> hi ∈ ts /\ Forall (fun t => (t <= hi)%Z) ts.
Proof.
  destruct ts as [|t ts]; [discriminate|]. simpl. intros [= <-].
  induction ts as [|u ts [Hin Hle]]; simpl.
  - split; [apply list_elem_of_here|]. constructor; [lia|constructor].
  - apply Forall_cons in Hle as [Ht Hts]. split.
    + destruct (Z.max_spec u (foldr Z.max t ts)) as [[_ ->]|[_ ->]].
      * apply elem_of_cons in Hin as [->|Hin];
          [apply list_elem_of_here|now do 2 apply list_elem_of_further].
      * apply list_elem_of_further, list_elem_of_here.
    + repeat constructor; [lia|lia|].
      eapply Forall_impl; [exact Hts|]. simpl. intros; lia.
Qed.

Lemma date_mono (t u : Z) : (t <= u)%Z -> (date t <= date u)%Z.
Proof. intros H. unfold date. now apply Z.div_le_mono. Qed.

Lemma ns_per_day_pos : (0 < ns_per_day)%Z.
Proof. reflexivity. Qed.

Lemma combine_min_time_date (t : Z) : (combine_min_time (date t) <= t)%Z.
Proof.
  unfold combine_min_time, date. rewrite Z.mul_comm.
  apply Z.mul_div_le, ns_per_day_pos.
Qed.

Lemma not_after_midnight (t d : Z) :
  (t <= combine_min_time d)%Z <-> (date t < d)%Z \/ t = combine_min_time d.
Proof.
  unfold combine_min_time, date.
  pose proof ns_per_day_pos as Hpos.
  pose proof (Z.div_mod t ns_per_day ltac:(lia)) as Hdiv.
  pose proof (Z.mod_pos_bound t ns_per_day Hpos) as Hmod.
  generalize dependent (t / ns_per_day)%Z. intros q Hdiv.
  generalize dependent (t mod ns_per_day)%Z. intros m Hdiv Hmod.
  split.
  - intros Hle. destruct (Z_lt_ge_dec q d) as [Hlt|Hge]; [now left|right]. nia.
  - intros [Hlt| ->]; [nia|lia].
Qed.

Section DefaultView.
Variable to_datetime : list Cell -> Cell -> option Z.

(** What [_get_date_range] returns on a frame that is not empty. *)
Lemma get_date_range_result (df : DataFrame) (i : nat) (range : Z * Z) :
  empty df = false ->
  index_of "order_purchase_timestamp" (columns df) = Some i ->
  _get_date_range to_datetime df = Ok range ->
  (purchase_timestamps to_datetime df i = [] /\ range = DEFAULT_DATE_RANGE)
  \/ (exists lo hi,
         lo ∈ purchase_timestamps to_datetime df i
         /\ hi ∈ purchase_timestamps to_datetime df i
         /\ Forall (fun t => (lo <= t <= hi)%Z) (purchase_timestamps to_datetime df i)
         /\ range = (date lo, date hi)).
Proof.
  intros Hne Hi. unfold _get_date_range, column_index. rewrite Hne, Hi. simpl.
  destruct (series_min _) as [lo|] eqn:Hlo.
  - destruct (series_max _) as [hi|] eqn:Hhi.
    + intros [= <-]. right. exists lo, hi.
      destruct (series_min_spec _ _ Hlo) as [Hin1 Hle1].
      destruct (series_max_spec _ _ Hhi) as [Hin2 Hle2].
      repeat split; try assumption.
      apply Forall_forall. intros t Ht.
      rewrite Forall_forall in Hle1, Hle2. split; auto.
    + destruct (purchase_timestamps to_datetime df i); discriminate.
  - intros [= <-]. left. split; [|reflexivity].
    destruct (purchase_timestamps to_datetime df i); [reflexivity|discriminate].
Qed.

Lemma get_date_range_days (df : DataFrame) (i : nat) (start_date end_date : Z) :
  empty df = false ->
  index_of "order_purchase_timestamp" (columns df) = Some i ->
  _get_date_range to_datetime df = Ok (start_date, end_date) ->
  Forall (fun t => (start_date <= date t <= end_date)%Z)
    (purchase_timestamps to_datetime df i).
Proof.
  intros Hne Hi Hrun.
  destruct (get_date_range_result df i _ Hne Hi Hrun)
    as [[-> _]|(lo & hi & _ & _ & Hall & Heq)]; [constructor|].
  injection Heq as -> ->.
  eapply Forall_impl; [exact Hall|]. simpl. intros t [H1 H2].
  split; now apply date_mono.
Qed.

(** X18: the range [_get_date_range] returns starts no later than it ends
    and covers the day of every purchase timestamp that parses; it is the
    tightest such range, both ends being the day of such a timestamp, and
    it is 2016-01-01 to 2018-12-31 when no timestamp parses. *)
Theorem get_date_range_covers (df : DataFrame) (start_date end_date : Z) :
  _get_date_range to_datetime df = Ok (start_date, end_date) ->
  (start_date <= end_date)%Z
  /\ forall i,
       index_of "order_purchase_timestamp" (columns df) = Some i ->
       Forall (fun t => (start_date <= date t <= end_date)%Z)
         (purchase_timestamps to_datetime df i)
       /\ match purchase_timestamps to_datetime df i with
          | [] => (start_date, end_date) = DEFAULT_DATE_RANGE
          | _ :: _ =>
              exists lo hi,
                lo ∈ purchase_timestamps to_datetime df i
                /\ hi ∈ purchase_timestamps to_datetime df i
                /\ start_date = date lo /\ end_date = date hi
          end.
Proof.
  intros Hrun. destruct (empty df) eqn:Hne.
  - unfold _get_date_range in Hrun. rewrite Hne in Hrun.
    injection Hrun as <- <-. split; [now vm_compute|].
    intros i Hi.
    assert (Hts : purchase_timestamps to_datetime df i = []).
    { unfold purchase_timestamps, empty in *.
      destruct (columns df); [discriminate|].
      destruct (rows df); [reflexivity|discriminate]. }
    rewrite Hts. split; [constructor|reflexivity].
  - assert (Hcol : exists i, index_of "order_purchase_timestamp" (columns df) = Some i).
    { unfold _get_date_range, column_index in Hrun. rewrite Hne in Hrun.
      destruct (index_of _ _) as [i|]; [eauto|discriminate]. }
    destruct Hcol as [j Hj].
    destruct (get_date_range_result df j _ Hne Hj Hrun)
      as [[Hts Hdef]|(lo & hi & Hlo & Hhi & Hall & Heq)].
    + split; [injection Hdef as -> ->; now vm_compute|].
      intros i Hi. assert (i = j) as -> by congruence.
      rewrite Hts. split; [constructor|exact Hdef].
    + injection Heq as -> ->. split.
      * rewrite Forall_forall in Hall. apply date_mono.
        destruct (Hall lo Hlo). lia.
      * intros i Hi. assert (i = j) as -> by congruence. split.
        -- eapply Forall_impl; [exact Hall|]. simpl. intros t [H1 H2].
           split; now apply date_mono.
        -- destruct (purchase_timestamps to_datetime df j) eqn:Hts;
             [now apply elem_of_nil in Hlo|].
           exists lo, hi. repeat split; assumption.
Qed.

Lemma index_of_lt (name : string) (cols : list string) (i : nat) :
  index_of name cols = Some i -> (i < length cols)%nat.
Proof.
  revert i. induction cols as [|c cols IH]; simpl; [discriminate|].
  intros i. destruct (String.eqb name c); [intros [= <-]; lia|].
  destruct (index_of name cols) as [j|]; simpl; [|discriminate].
  intros [= <-]. specialize (IH j eq_refl). lia.
Qed.

Lemma cell_insert (i : nat) (c : Cell) (row : list Cell) :
  (i < length row)%nat -> cell i (<[i := c]> row) = c.
Proof.
  intros Hlt. unfold cell. rewrite nth_lookup.
  now rewrite list_lookup_insert_eq.
Qed.

Lemma filter_ext_elem {A : Type} (P Q : A -> Prop)
    `{!forall x, Decision (P x)} `{!forall x, Decision (Q x)} (l : list A) :
  (forall x, x ∈ l -> P x <-> Q x) -> filter P l = filter Q l.
Proof.
  induction l as [|a l IH]; [reflexivity|]. intros Hext.
  rewrite !filter_cons, IH
    by (intros x Hx; apply Hext; now apply list_elem_of_further).
  pose proof (Hext a (list_elem_of_here _ _)) as Ha.
  destruct (decide (P a)), (decide (Q a)); tauto.
Qed.

(** The purchase timestamp of a row of the parsed frame: null, or one of
    the timestamps [_get_date_range] reads. *)
Lemma parsed_timestamp (df : DataFrame) (i : nat) (row : list Cell) :
  Forall (fun row => length row = length (columns df)) (rows df) ->
  index_of "order_purchase_timestamp" (columns df) = Some i ->
  row ∈ rows (parse_purchase_timestamp to_datetime df) ->
  cell_at (columns df) "order_purchase_timestamp" row = CNull
  \/ exists t, cell_at (columns df) "order_purchase_timestamp" row = CTime t
               /\ t ∈ purchase_timestamps to_datetime df i.
Proof.
  intros Hwf Hi. unfold parse_purchase_timestamp, cell_at. rewrite Hi. simpl.
  intros Hrow. apply list_elem_of_fmap in Hrow as (raw & -> & Hraw).
  rewrite Forall_forall in Hwf.
  rewrite cell_insert
    by (rewrite (Hwf raw Hraw); now apply index_of_lt with (name := "order_purchase_timestamp")).
  unfold datetime_cell.
  destruct (to_datetime (cell i <$> rows df) (cell i raw)) as [t|] eqn:Ht;
    [|now left].
  right. exists t. split; [reflexivity|].
  unfold purchase_timestamps. apply list_elem_of_omap.
  exists (cell i raw). split; [|assumption].
  apply list_elem_of_fmap. now exists raw.
Qed.

(** X19: with the date range the dashboard builds by default, the view
    holds exactly the rows whose purchase timestamp parsed and falls on a
    day before the last purchase day, or at 00:00:00 of that day: the end
    bound is the midnight that opens the last day, so the orders placed
    later on that day are left out, and no parsed row is lost at the
    start. *)
Theorem default_view_leaves_out_last_day (df r : DataFrame)
    (start_date end_date : Z) :
  empty df = false ->
  Forall (fun row => length row = length (columns df)) (rows df) ->
  _get_date_range to_datetime df = Ok (start_date, end_date) ->
  (combine_min_time end_date < Timestamp_max)%Z ->
  default_view to_datetime df = Ok r ->
  rows r
  = filter
      (fun row =>
         match cell_at (columns df) "order_purchase_timestamp" row with
         | CTime t => bool_decide ((date t < end_date)%Z
                                   \/ t = combine_min_time end_date)
         | _ => false
         end : bool)
      (rows (parse_purchase_timestamp to_datetime df))
  /\ Forall
       (fun row =>
          forall t,
            cell_at (columns df) "order_purchase_timestamp" row = CTime t ->
            (date t <= end_date)%Z)
       (rows (parse_purchase_timestamp to_datetime df)).
Proof.
  intros Hne Hwf Hrange Hmax. unfold default_view, default_filters.
  rewrite Hrange. intros Hview.
  assert (Hrun : apply_filters to_datetime (Some df)
                   (mkFilters
                      (Some [Some (combine_min_time start_date);
                             Some (combine_min_time end_date)])
                      None None None false) = Ok r) by exact Hview.
  clear Hview.
  assert (Hcol : exists i, index_of "order_purchase_timestamp" (columns df) = Some i).
  { unfold _get_date_range, column_index in Hrange. rewrite Hne in Hrange.
    destruct (index_of _ _) as [i|]; [eauto|discriminate]. }
  destruct Hcol as [i Hi].
  pose proof (get_date_range_days df i start_date end_date Hne Hi Hrange)
    as Hdays.
  rewrite Forall_forall in Hdays.
  destruct (apply_filters_rows to_datetime df r _ Hne Hrun) as [_ Hrows].
  split.
  - rewrite Hrows. apply filter_ext_elem. intros row Hrow.
    unfold passes, bound_passes, isin_passes, delivered_passes. simpl.
    destruct (parsed_timestamp df i row Hwf Hi Hrow) as [->|(t & -> & Ht)]; simpl.
    + assert ((Timestamp_max <=? combine_min_time end_date)%Z = false) as ->
        by (apply Z.leb_gt; lia).
      rewrite andb_false_r. simpl. tauto.
    + destruct (Hdays t Ht) as [Hs _].
      assert ((combine_min_time start_date <=? t)%Z = true) as ->.
      { apply Z.leb_le. pose proof (combine_min_time_date t).
        pose proof ns_per_day_pos. unfold combine_min_time in *. nia. }
      simpl. rewrite andb_true_r.
      rewrite bool_decide_spec, <- not_after_midnight.
      rewrite Is_true_true. apply Z.leb_le.
  - apply Forall_forall. intros row Hrow t Hcell.
    destruct (parsed_timestamp df i row Hwf Hi Hrow) as [Hnull|(u & Hu & Hin)];
      [congruence|].
    assert (u = t) as -> by congruence. now destruct (Hdays t Hin).
Qed.
End DefaultView.

Lemma get_date_range_covers_witness :
  (19723 <= 19725)%Z
  /\ forall i,
       index_of "order_purchase_timestamp" (columns two_states_frame) = Some i ->
       Forall (fun t => (19723 <= date t <= 19725)%Z)
         (purchase_timestamps to_datetime_iso two_states_frame i)
       /\ match purchase_timestamps to_datetime_iso two_states_frame i with
          | [] => (19723, 19725)%Z = DEFAULT_DATE_RANGE
          | _ :: _ =>
              exists lo hi,
                lo ∈ purchase_timestamps to_datetime_iso two_states_frame i
                /\ hi ∈ purchase_timestamps to_datetime_iso two_states_frame i
                /\ 19723%Z = date lo /\ 19725%Z = date hi
          end.
Proof.
  apply (get_date_range_covers to_datetime_iso two_states_frame 19723 19725).
  reflexivity.
Defined.

Lemma default_view_leaves_out_last_day_witness :
  [[CStr "o1"; CTime 1704101400000000000; CStr "SP"; CStr "delivered";
    CFloat (-23 # 1); CFloat (-46 # 1); CBool true; CInt (-2)];
   [CStr "o2"; CTime 1704189600000000000; CStr "RJ"; CStr "delivered";
    CNull; CNull; CBool false; CNull]]
  = filter
      (fun row =>
         match cell_at (columns two_states_frame) "order_purchase_timestamp" row with
         | CTime t => bool_decide ((date t < 19725)%Z
                                   \/ t = combine_min_time 19725)
         | _ => false
         end : bool)
      (rows (parse_purchase_timestamp to_datetime_iso two_states_frame))
  /\ Forall
       (fun row =>
          forall t,
            cell_at (columns two_states_frame) "order_purchase_timestamp" row
            = CTime t ->
            (date t <= 19725)%Z)
       (rows (parse_purchase_timestamp to_datetime_iso two_states_frame)).
Proof.
  apply (default_view_leaves_out_last_day to_datetime_iso two_states_frame
           (mkDataFrame (columns two_states_frame)
              [[CStr "o1"; CTime 1704101400000000000; CStr "SP"; CStr "delivered";
                CFloat (-23 # 1); CFloat (-46 # 1); CBool true; CInt (-2)];
               [CStr "o2"; CTime 1704189600000000000; CStr "RJ"; CStr "delivered";
                CNull; CNull; CBool false; CNull]])
           19723 19725).
  - reflexivity.
  - repeat constructor.
  - reflexivity.
  - reflexivity.
  - reflexivity.
Defined.

(** ** The indicators of a filtered frame *)

Lemma index_of_lookup (name : string) (cols : list string) (i : nat) :
  index_of name cols = Some i -> cols !! i = Some name.
Proof.
  revert i. induction cols as [|c cols IH]; simpl; [discriminate|].
  intros i. destruct (String.eqb_spec name c) as [->|Hne]; [now intros [= <-]|].
  destruct (index_of name cols) as [j|]; simpl; [|discriminate].
  intros [= <-]. now apply IH.
Qed.

Lemma cell_insert_ne (i j : nat) (c : Cell) (row : list Cell) :
  i <> j -> cell j (<[i := c]> row) = cell j row.
Proof.
  intros Hne. unfold cell. rewrite !nth_lookup.
  now rewrite list_lookup_insert_ne.
Qed.

Lemma length_filter_filter {A : Type} (P Q : A -> Prop)
    `{!forall x, Decision (P x)} `{!forall x, Decision (Q x)} (l : list A) :
  (length (filter Q (filter P l)) <= length (filter Q l))%nat.
Proof.
  rewrite list_filter_filter.
  rewrite (list_filter_iff _ (fun a => P a /\ Q a)) by (intros; tauto).
  rewrite <- list_filter_filter. apply length_filter.
Qed.

Lemma filter_filter_comm {A : Type} (P Q : A -> Prop)
    `{!forall x, Decision (P x)} `{!forall x, Decision (Q x)} (l : list A) :
  filter P (filter Q l) = filter Q (filter P l).
Proof.
  rewrite !list_filter_filter. apply list_filter_iff. intros; tauto.
Qed.

(** The counts of [compute_kpis] on a frame that is not empty. *)
Lemma compute_kpis_counts (df : DataFrame) (k : Kpis) :
  empty df = false ->
  compute_kpis (Some df) = Ok k ->
  exists i_status,
    index_of "order_status" (columns df) = Some i_status
    /\ total_orders k = length (rows df)
    /\ delivered_orders k
       = length (filter (fun r => is_delivered (cell i_status r)) (rows df))
    /\ (index_of "on_time" (columns df) = None /\ on_time_count k = 0%nat
        \/ exists i_on,
             index_of "on_time" (columns df) = Some i_on
             /\ on_time_count k
                = length (filter (fun r => eq_True (cell i_on r))
                            (filter (fun r => is_delivered (cell i_status r))
                               (rows df)))).
Proof.
  intros Hne. simpl. rewrite Hne. unfold filter_on, column_index.
  destruct (index_of "order_status" (columns df)) as [i_status|] eqn:Hs;
    simpl; [|discriminate].
  destruct (delivery_figures df _) as [figures|e] eqn:Hfig; simpl; [|discriminate].
  destruct (optional_total df "payment_value_sum"); simpl; [|discriminate].
  destruct (optional_total df "freight_value_sum"); simpl; [|discriminate].
  intros [= <-]. simpl. exists i_status.
  split; [reflexivity|]. split; [reflexivity|]. split; [reflexivity|].
  destruct (index_of "on_time" (columns df)) as [i_on|] eqn:Hon.
  - right. exists i_on. split; [reflexivity|].
    now destruct (delivery_figures_ok df _ i_on figures Hon Hfig) as [-> _].
  - left. split; [reflexivity|].
    unfold delivery_figures, column_index in Hfig. rewrite Hon in Hfig.
    destruct (0 <? _)%nat; simpl in Hfig; [discriminate|].
    now injection Hfig as <-.
Qed.

Section FilteredIndicators.
Variable to_datetime : list Cell -> Cell -> option Z.

(** Parsing the purchase timestamps leaves the cells of the other columns
    as they are. *)
Lemma parse_purchase_timestamp_other (df : DataFrame) (name : string) (j : nat)
    (keep : Cell -> bool) :
  name <> "order_purchase_timestamp" ->
  index_of name (columns df) = Some j ->
  filter (fun r => keep (cell j r)) (rows (parse_purchase_timestamp to_datetime df))
  = (fun r =>
       match index_of "order_purchase_timestamp" (columns df) with
       | Some i =>
           <[i := datetime_cell to_datetime (cell i <$> rows df) (cell i r)]> r
       | None => r
       end)
    <$> filter (fun r => keep (cell j r)) (rows df).
Proof.
  intros Hname Hj. unfold parse_purchase_timestamp.
  destruct (index_of "order_purchase_timestamp" (columns df)) as [i|] eqn:Hi;
    simpl; [|now rewrite list_fmap_id].
  rewrite filter_fmap. f_equal. apply list_filter_iff. intros r. simpl.
  rewrite cell_insert_ne; [tauto|].
  intros ->. apply index_of_lookup in Hi, Hj. congruence.
Qed.

(** X20: filtering never raises a count: the total, the delivered and
    the on-time orders of the indicators of a filtered frame are at most
    those of the frame it was filtered from. *)
Theorem filtered_kpis_counts (df r : DataFrame) (f : Filters) (k k' : Kpis) :
  apply_filters to_datetime (Some df) f = Ok r ->
  compute_kpis (Some df) = Ok k ->
  compute_kpis (Some r) = Ok k' ->
  (total_orders k' <= total_orders k)%nat
  /\ (delivered_orders k' <= delivered_orders k)%nat
  /\ (on_time_count k' <= on_time_count k)%nat.
Proof.
  intros Hrun Hk Hk'.
  destruct (empty r) eqn:Hr.
  { simpl in Hk'. rewrite Hr in Hk'. injection Hk' as <-. simpl. lia. }
  destruct (empty df) eqn:Hne.
  { simpl in Hrun. rewrite Hne in Hrun. injection Hrun as <-. discriminate. }
  destruct (apply_filters_rows to_datetime df r f Hne Hrun) as [Hcols Hrows].
  destruct (compute_kpis_counts df k Hne Hk) as (i_s & Hs & Ht & Hd & Hon).
  destruct (compute_kpis_counts r k' Hr Hk') as (i_s' & Hs' & Ht' & Hd' & Hon').
  rewrite Hcols in Hs'. assert (i_s' = i_s) as -> by congruence.
  assert (Hdel : (length (filter (fun row => is_delivered (cell i_s row)) (rows r))
                  <= length (filter (fun row => is_delivered (cell i_s row))
                               (rows df)))%nat).
  { rewrite Hrows.
    etransitivity; [apply (length_filter_filter _ (fun row => is_delivered (cell i_s row)))|].
    rewrite (parse_purchase_timestamp_other df "order_status" i_s is_delivered)
      by (assumption || discriminate).
    now rewrite length_fmap. }
  split; [|split].
  - rewrite Ht, Ht', Hrows.
    etransitivity; [apply length_filter|].
    unfold parse_purchase_timestamp.
    destruct (index_of "order_purchase_timestamp" (columns df));
      [simpl; apply Nat.eq_le_incl, length_fmap|reflexivity].
  - now rewrite Hd, Hd'.
  - destruct Hon' as [[_ ->]|(i_on & Hi_on & ->)]; [lia|].
    rewrite Hcols in Hi_on.
    destruct Hon as [[Hnone _]|(i_on' & Hi_on' & ->)]; [congruence|].
    assert (i_on' = i_on) as -> by congruence.
    rewrite Hrows.
    rewrite (filter_filter_comm (fun row => is_delivered (cell i_s row))).
    etransitivity;
      [apply (length_filter_filter _ (fun row => eq_True (cell i_on row)))|].
    rewrite (parse_purchase_timestamp_other df "order_status" i_s is_delivered)
      by (assumption || discriminate).
    rewrite filter_fmap, length_fmap.
    apply Nat.eq_le_incl. f_equal. apply list_filter_iff. intros row.
    destruct (index_of "order_purchase_timestamp" (columns df)) as [i|] eqn:Hi;
      [|tauto].
    rewrite cell_insert_ne; [tauto|].
    intros ->. apply index_of_lookup in Hi, Hi_on. congruence.
Qed.

(** X21: with [delivered_only] on, every row of the result is a delivered
    order: the indicators of the filtered frame count as many delivered
    orders as orders. *)
Theorem delivered_only_kpis (df : option DataFrame) (r : DataFrame)
    (f : Filters) (k : Kpis) :
  delivered_only f = true ->
  apply_filters to_datetime df f = Ok r ->
  compute_kpis (Some r) = Ok k ->
  delivered_orders k = total_orders k.
Proof.
  intros Hflag Hrun Hk.
  destruct (empty r) eqn:Hr.
  { simpl in Hk. rewrite Hr in Hk. now injection Hk as <-. }
  destruct df as [df|]; [|injection Hrun as <-; discriminate].
  destruct (empty df) eqn:Hne.
  { simpl in Hrun. rewrite Hne in Hrun. injection Hrun as <-. discriminate. }
  destruct (apply_filters_rows to_datetime df r f Hne Hrun) as [Hcols Hrows].
  destruct (compute_kpis_counts r k Hr Hk) as (i_s & Hs & -> & -> & _).
  f_equal. rewrite Hrows at 2. rewrite Hrows.
  apply list_filter_filter_r. intros row Hpass.
  unfold passes in Hpass. rewrite Hflag in Hpass.
  repeat (apply andb_True in Hpass as [_ Hpass]).
  unfold delivered_passes, cell_at in Hpass.
  rewrite Hcols in Hs. now rewrite Hs in Hpass.
Qed.
End FilteredIndicators.

Lemma filtered_kpis_counts_witness :
  (total_orders (mkKpis 2 1 1 (1 # 1) (-2 # 1) 0 0)
   <= total_orders (mkKpis 3 2 1 (1 # 2) (-2 # 1) 0 0))%nat
  /\ (delivered_orders (mkKpis 2 1 1 (1 # 1) (-2 # 1) 0 0)
      <= delivered_orders (mkKpis 3 2 1 (1 # 2) (-2 # 1) 0 0))%nat
  /\ (on_time_count (mkKpis 2 1 1 (1 # 1) (-2 # 1) 0 0)
      <= on_time_count (mkKpis 3 2 1 (1 # 2) (-2 # 1) 0 0))%nat.
Proof.
  apply (filtered_kpis_counts to_datetime_iso two_states_frame
           (mkDataFrame (columns two_states_frame)
              [[CStr "o1"; CTime 1704101400000000000; CStr "SP"; CStr "delivered";
                CFloat (-23 # 1); CFloat (-46 # 1); CBool true; CInt (-2)];
               [CStr "o3"; CTime 1704279600000000000; CStr "SP"; CStr "shipped";
                CFloat (-24 # 1); CFloat (-47 # 1); CNull; CNull]])
           (mkFilters None (Some ["SP"]) None None false)
           (mkKpis 3 2 1 (1 # 2) (-2 # 1) 0 0)
           (mkKpis 2 1 1 (1 # 1) (-2 # 1) 0 0));
    reflexivity.
Defined.

Lemma delivered_only_kpis_witness :
  delivered_orders (mkKpis 1 1 1 (1 # 1) (-2 # 1) 0 0)
  = total_orders (mkKpis 1 1 1 (1 # 1) (-2 # 1) 0 0).
Proof.
  apply (delivered_only_kpis to_datetime_iso (Some two_states_frame)
           (mkDataFrame (columns two_states_frame)
              [[CStr "o1"; CTime 1704101400000000000; CStr "SP"; CStr "delivered";
                CFloat (-23 # 1); CFloat (-46 # 1); CBool true; CInt (-2)]])
           (mkFilters None (Some ["SP"]) None None true)
           (mkKpis 1 1 1 (1 # 1) (-2 # 1) 0 0));
    reflexivity.
Defined.

(** ** The tie-break of the two modes *)

Lemma qsum_Permutation (l k : list Q) : l ≡ₚ k -> (qsum l == qsum k)%Q.
Proof.
  induction 1 as [|x l k _ IH|x y l|l k m _ IH1 _ IH2]; simpl.
  - reflexivity.
  - now rewrite IH.
  - ring.
  - now rewrite IH1.
Qed.

Lemma agg_sum_Permutation (l k : list (option Q)) :
  l ≡ₚ k -> agg_sum l = agg_sum k.
Proof.
  intros Hperm. unfold agg_sum. apply Qred_complete, qsum_Permutation.
  now rewrite Hperm.
Qed.

Lemma group_keys_Permutation {R : Type} (key : R -> option string)
    (rows rows' : list R) :
  rows ≡ₚ rows' ->
  group_keys String.leb key rows = group_keys String.leb key rows'.
Proof.
  intros Hperm. unfold group_keys.
  apply (isort_Permutation String.leb String.leb_total String.leb_antisym
           string_leb_trans).
  apply NoDup_Permutation; try apply NoDup_remove_dups.
  intros k. rewrite !elem_of_remove_dups. now rewrite Hperm.
Qed.

(** An aggregate of a group-by forgets the order of the rows as soon as
    the reduction of one group does. *)
Lemma groupby_agg_Permutation {R V : Type} (key : R -> option string)
    (f : list R -> V) (rows rows' : list R) :
  rows ≡ₚ rows' ->
  (forall g g', g ≡ₚ g' -> f g = f g') ->
  (fun '(k, g) => (k, f g)) <$> groupby String.leb key rows
  = (fun '(k, g) => (k, f g)) <$> groupby String.leb key rows'.
Proof.
  intros Hperm Hf. unfold groupby.
  rewrite (group_keys_Permutation key rows rows' Hperm).
  rewrite <- !list_fmap_compose. apply list_fmap_ext. intros i k _. simpl.
  f_equal. apply Hf. unfold group. now rewrite Hperm.
Qed.

Lemma merge_left_Permutation {L R K : Type} `{EqDecision K}
    (kl : L -> K) (kr : R -> K) (left left' : list L) (right : list R) :
  left ≡ₚ left' -> merge_left kl kr left right ≡ₚ merge_left kl kr left' right.
Proof. intros Hperm. unfold merge_left. now rewrite Hperm. Qed.

Section TieBreak.
Variable to_datetime : list Cell -> Cell -> option Z.

(** The fact table of two sets of tables that differ in the order of the
    payment rows and of the item rows only. *)
Lemma build_fact_table_Permutation (t t' : Tables) :
  orders t' = orders t ->
  customers t' = customers t ->
  products t' = products t ->
  product_category_translation t' = product_category_translation t ->
  geolocation t' = geolocation t ->
  order_payments t' ≡ₚ order_payments t ->
  order_items t' ≡ₚ order_items t ->
  build_fact_table to_datetime t' = build_fact_table to_datetime t.
Proof.
  intros Ho Hc Hp Htr Hg Hpay Hitems.
  assert (Hjoin : items_with_product t' ≡ₚ items_with_product t).
  { unfold items_with_product. rewrite Hp, Htr.
    now do 2 apply merge_left_Permutation. }
  assert (Hdates : with_dates to_datetime t' = with_dates to_datetime t).
  { unfold with_dates, orders_customers_geo, orders_customers, geo_lookup.
    now rewrite Ho, Hc, Hg. }
  assert (Hpm : payment_mode t' = payment_mode t).
  { unfold payment_mode.
    apply (groupby_agg_Permutation OrderPayments.order_id
             (fun g => _mode_or_first (OrderPayments.payment_type <$> g)));
      [assumption|].
    intros g g' Hgg. apply mode_or_first_Permutation. now rewrite Hgg. }
  assert (Hpt : payment_total t' = payment_total t).
  { unfold payment_total.
    apply (groupby_agg_Permutation OrderPayments.order_id
             (fun g => agg_sum (OrderPayments.payment_value <$> g)));
      [assumption|].
    intros g g' Hgg. apply agg_sum_Permutation. now rewrite Hgg. }
  assert (Hfr : freight_agg t' = freight_agg t).
  { unfold freight_agg.
    apply (groupby_agg_Permutation item_order_id
             (fun g => agg_sum ((fun r => OrderItems.freight_value (fst (fst r)))
                                  <$> g)));
      [assumption|].
    intros g g' Hgg. apply agg_sum_Permutation. now rewrite Hgg. }
  assert (Hcat : category_agg t' = category_agg t).
  { unfold category_agg.
    apply (groupby_agg_Permutation item_order_id
             (fun g => _mode_or_first (english_filled <$> g)));
      [assumption|].
    intros g g' Hgg. apply mode_or_first_Permutation. now rewrite Hgg. }
  unfold build_fact_table, joined. now rewrite Hdates, Hpm, Hpt, Hfr, Hcat.
Qed.

(** C10: every order of the orders table has a row in the fact table, and
    in every row, when several payment types (respectively category values
    of the joined item rows) of its order are tied for the highest
    frequency, [payment_type_mode] (respectively [product_category_mode])
    is one of the tied values and sorts at or before every tied value.
    The tie is broken by the values alone, not by the position of the
    rows: two sets of tables that differ only in the order of the payment
    rows and of the item rows give the same order ids and the same two
    modes, row for row. *)
Theorem mode_tie_break_sorts_first (t : Tables) :
  (forall o, o ∈ orders t ->
     exists f, f ∈ build_fact_table to_datetime t
               /\ Fact.order_id f = Orders.order_id o)
  /\ Forall
       (fun f =>
          forall k, Fact.order_id f = Some k ->
            (forall v, most_frequent v (payment_types_of t k) ->
               exists m, Fact.payment_type_mode f = Some m
                         /\ most_frequent m (payment_types_of t k)
                         /\ String.leb m v = true)
            /\ (forall v, most_frequent v (category_values_of t k) ->
                  exists m, Fact.product_category_mode f = Some m
                            /\ most_frequent m (category_values_of t k)
                            /\ String.leb m v = true))
       (build_fact_table to_datetime t)
  /\ (forall t',
        orders t' = orders t ->
        customers t' = customers t ->
        products t' = products t ->
        product_category_translation t' = product_category_translation t ->
        geolocation t' = geolocation t ->
        order_payments t' ≡ₚ order_payments t ->
        order_items t' ≡ₚ order_items t ->
        (fun f => (Fact.order_id f, Fact.payment_type_mode f,
                   Fact.product_category_mode f))
          <$> build_fact_table to_datetime t'
        = (fun f => (Fact.order_id f, Fact.payment_type_mode f,
                     Fact.product_category_mode f))
            <$> build_fact_table to_datetime t).
Proof.
  split; [|split].
  - apply build_fact_table_covers.
  - apply Forall_forall. intros f Hf k Hk.
    destruct (fact_row_spec to_datetime t f Hf) as (_ & Hpm & _ & _ & Hcat & _).
    rewrite Hpm, Hcat, Hk. simpl.
    split; intros v Hv; now apply mode_or_first_least.
  - intros t' Ho Hc Hp Htr Hg Hpay Hitems.
    now rewrite (build_fact_table_Permutation t t').
Qed.
End TieBreak.

(** The payments of [o2] are a tie between [credit_card] and [boleto];
    listed in either order they give [boleto]. *)
Example payment_rows_reversed :
  (fun f => (Fact.order_id f, Fact.payment_type_mode f))
    <$> build_fact_table to_datetime_iso
          (mkTables (orders example_tables) (customers example_tables)
             (order_items example_tables)
             (reverse (order_payments example_tables))
             (products example_tables)
             (product_category_translation example_tables)
             (geolocation example_tables))
  = [(Some "o1", None); (Some "o2", Some "boleto"); (Some "o3", None)]
  /\ (fun f => (Fact.order_id f, Fact.payment_type_mode f))
       <$> build_fact_table to_datetime_iso example_tables
     = [(Some "o1", None); (Some "o2", Some "boleto"); (Some "o3", None)].
Proof. split; vm_compute; reflexivity. Qed.
